(** * GRVT builder examples: typed-data construction and numeric scaling

    A shallow embedding of the signing core of [grvt_create_order_api.py]
    and [authorize.py]: the Python values the scripts pass around, the
    [decimal.Decimal] and binary64 arithmetic they scale quantities with,
    the two typed-data builders and the order signer. *)

From Stdlib Require Import ZArith QArith Qround Qabs Qpower Qfield Bool List Ascii String Lia.
From Stdlib Require Import DecimalString DecimalPos.
From Stdlib Require Import Floats.SpecFloat.
Import ListNotations.

Set Warnings "-register-all".
Local Open Scope string_scope.
Local Open Scope Z_scope.

(** ** Python values and exceptions *)

Module Py.

(** A value as [json.load] produces it; a [dict] keeps its insertion
    order, so it is an association list. *)
Inductive pyval : Type :=
| PNone
| PBool (b : bool)
| PInt (n : Z)
| PFloat (f : spec_float)
| PStr (s : string)
| PList (l : list pyval)
| PDict (d : list (string * pyval)).

Definition pydict : Type := list (string * pyval).

(** The exceptions the modelled code can raise.  The two [ValueError]s
    the order builder raises itself are kept apart from the generic one. *)
Inductive exn : Type :=
| KeyError (key : string)
| TypeError
| AttributeError
| ValueError
| OverflowError
| InvalidOperation                    (* decimal.InvalidOperation *)
| DecimalOverflow                     (* decimal.Overflow *)
| InstrumentNotFound (name : pyval)   (* ValueError, build_order_message_data *)
| NotATimeInForce (v : pyval)         (* ValueError, TimeInForce(v) *)
| LibraryError (what : string).       (* raised inside eth_account *)

Inductive result (A : Type) : Type :=
| Ok (a : A)
| Raise (e : exn).
Arguments Ok {A} a.
Arguments Raise {A} e.

Definition bind {A B : Type} (r : result A) (k : A -> result B) : result B :=
  match r with
  | Ok a => k a
  | Raise e => Raise e
  end.

(** [for x in xs: ys.append(f(x))], stopping at the first exception. *)
Fixpoint mapM {A B : Type} (f : A -> result B) (xs : list A) : result (list B) :=
  match xs with
  | [] => Ok []
  | x :: xs' =>
      bind (f x) (fun y => bind (mapM f xs') (fun ys => Ok (y :: ys)))
  end.

(** *** dict operations *)

Fixpoint lookup (k : string) (d : pydict) : option pyval :=
  match d with
  | [] => None
  | (k', v) :: d' => if String.eqb k k' then Some v else lookup k d'
  end.

(** [k in d] *)
Definition contains (k : string) (d : pydict) : bool :=
  match lookup k d with Some _ => true | None => false end.

(** [d.get(k, default)] *)
Definition get (k : string) (default : pyval) (d : pydict) : pyval :=
  match lookup k d with Some v => v | None => default end.

(** [d[k] = v]: the key keeps its place when present, is appended otherwise. *)
Fixpoint set (k : string) (v : pyval) (d : pydict) : pydict :=
  match d with
  | [] => [(k, v)]
  | (k', v') :: d' =>
      if String.eqb k k' then (k, v) :: d' else (k', v') :: set k v d'
  end.

Definition keys (d : pydict) : list string := map fst d.

(** [v[k]] with a string key [k]. *)
Definition subscript (v : pyval) (k : string) : result pyval :=
  match v with
  | PDict d => match lookup k d with Some x => Ok x | None => Raise (KeyError k) end
  | _ => Raise TypeError
  end.

(** [v.get(k, default)] *)
Definition get_attr (v : pyval) (k : string) (default : pyval) : result pyval :=
  match v with
  | PDict d => Ok (get k default d)
  | _ => Raise AttributeError
  end.

(** [v.copy()] on a dict is a shallow copy: the same association list. *)
Definition copy (v : pyval) : result pydict :=
  match v with
  | PDict d => Ok d
  | PList _ => Raise TypeError
  | _ => Raise AttributeError
  end.

Fixpoint chars (s : string) : list pyval :=
  match s with
  | EmptyString => []
  | String c s' => PStr (String c EmptyString) :: chars s'
  end.

(** [for x in v] *)
Definition iterate (v : pyval) : result (list pyval) :=
  match v with
  | PList l => Ok l
  | PDict d => Ok (map (fun kv => PStr (fst kv)) d)
  | PStr s => Ok (chars s)
  | _ => Raise TypeError
  end.

(** *** str operations

    A [string] stands for a Python [str] whose characters all lie below
    U+0100, one [ascii] per character: the text of an HTTP header as
    [requests] hands it over, which is decoded as Latin-1, and the ASCII
    keys, addresses and numerals of the JSON inputs.  On such text every
    operation below is the one of Python; a [str] with a character from
    U+0100 on has no counterpart here. *)

Definition code (c : ascii) : N := N_of_ascii c.

(** White space as [str.strip] and [Decimal] see it: the ASCII white
    space, the separators U+001C to U+001F, U+0085 and U+00A0. *)
Definition is_space (c : ascii) : bool :=
  let n := code c in
  (((9 <=? n) && (n <=? 13)) || ((28 <=? n) && (n <=? 32))
   || (n =? 133) || (n =? 160))%N.

(** White space as the [int] and [float] parsers skip it: the same
    without the separators U+001C to U+001F. *)
Definition is_c_space (c : ascii) : bool :=
  let n := code c in
  (((9 <=? n) && (n <=? 13)) || (n =? 32) || (n =? 133) || (n =? 160))%N.

Definition is_digit (c : ascii) : bool :=
  let n := code c in ((48 <=? n) && (n <=? 57))%N.

Definition digit_val (c : ascii) : Z := Z.of_N (code c) - 48.

Fixpoint drop_while {A : Type} (p : A -> bool) (l : list A) : list A :=
  match l with
  | [] => []
  | x :: l' => if p x then drop_while p l' else l
  end.

Fixpoint take_while {A : Type} (p : A -> bool) (l : list A) : list A :=
  match l with
  | [] => []
  | x :: l' => if p x then x :: take_while p l' else []
  end.

Definition strip_with (p : ascii -> bool) (l : list ascii) : list ascii :=
  rev (drop_while p (rev (drop_while p l))).

Definition strip_chars (l : list ascii) : list ascii := strip_with is_space l.

(** [s.strip()] *)
Definition strip (s : string) : string :=
  string_of_list_ascii (strip_chars (list_ascii_of_string s)).

(** [str.lower] on one character below U+0100: the letters A to Z and
    the capital letters from U+00C0 to U+00DE, the multiplication sign
    U+00D7 apart, move up by 32; the result is one character again. *)
Definition lower_char (c : ascii) : ascii :=
  let n := code c in
  if (((65 <=? n) && (n <=? 90))
      || ((192 <=? n) && (n <=? 222) && negb (n =? 215)))%N
  then ascii_of_N (n + 32) else c.

Definition lower_chars (l : list ascii) : list ascii := map lower_char l.

(** [s.lower()] *)
Definition lower (s : string) : string :=
  string_of_list_ascii (lower_chars (list_ascii_of_string s)).

(** [s.startswith(p)] *)
Definition startswith (p s : string) : bool := String.prefix p s.

(** [s[n:]] *)
Fixpoint drop (n : nat) (s : string) : string :=
  match n, s with
  | O, _ => s
  | S n', String _ s' => drop n' s'
  | S _, EmptyString => EmptyString
  end.

(** The value of a run of decimal digits, most significant first. *)
Definition digits_val (l : list ascii) : Z :=
  fold_left (fun acc c => 10 * acc + digit_val c) l 0.

Definition chars_eqb (a b : list ascii) : bool :=
  String.eqb (string_of_list_ascii a) (string_of_list_ascii b).

Definition underscore : ascii := "_"%char.

(** Underscores are legal in [int] and [float] literals only between two
    digits; [None] when one is misplaced, else the text without them. *)
Fixpoint ungroup (prev_digit : bool) (l : list ascii) : option (list ascii) :=
  match l with
  | [] => Some []
  | c :: l' =>
      if Ascii.eqb c underscore then
        match l' with
        | d :: _ => if prev_digit && is_digit d then ungroup false l' else None
        | [] => None
        end
      else option_map (cons c) (ungroup (is_digit c) l')
  end.

(** An optional sign: [(negative, rest)]. *)
Definition split_sign (l : list ascii) : bool * list ascii :=
  match l with
  | "-"%char :: r => (true, r)
  | "+"%char :: r => (false, r)
  | _ => (false, l)
  end.

(** The optional fractional part of a numeric literal:
    [(digits after the point, rest)]. *)
Definition split_fraction (l : list ascii) : list ascii * list ascii :=
  match l with
  | "."%char :: r => (take_while is_digit r, drop_while is_digit r)
  | _ => ([], l)
  end.

Definition letter_e (c : ascii) : bool :=
  Ascii.eqb c "e"%char || Ascii.eqb c "E"%char.

(** The optional exponent part of a numeric literal: nothing, or [e] or
    [E], an optional sign and at least one digit. *)
Definition parse_exponent (l : list ascii) : option Z :=
  match l with
  | [] => Some 0
  | c :: r =>
      if letter_e c then
        let '(neg, ds) := split_sign r in
        match ds with
        | [] => None
        | _ => if forallb is_digit ds
               then Some (if neg then - digits_val ds else digits_val ds)
               else None
        end
      else None
  end.

(** [int(s)] for a string, base 10. *)
Definition int_of_str (s : string) : result Z :=
  match ungroup false (strip_with is_c_space (list_ascii_of_string s)) with
  | None => Raise ValueError
  | Some l =>
      let '(neg, ds) := split_sign l in
      match ds with
      | [] => Raise ValueError
      | _ =>
          if forallb is_digit ds
          then Ok (if neg then - digits_val ds else digits_val ds)
          else Raise ValueError
      end
  end.

(** [int(f)] for a [float]: truncation toward zero. *)
Definition int_of_float (f : spec_float) : result Z :=
  match f with
  | S754_nan => Raise ValueError
  | S754_infinity _ => Raise OverflowError
  | S754_zero _ => Ok 0
  | S754_finite s m e =>
      let a := if 0 <=? e then Zpos m * 2 ^ e else Zpos m / 2 ^ (- e) in
      Ok (if s then - a else a)
  end.

(** [int(v)] *)
Definition int (v : pyval) : result Z :=
  match v with
  | PInt n => Ok n
  | PBool b => Ok (if b then 1 else 0)
  | PFloat f => int_of_float f
  | PStr s => int_of_str s
  | PNone | PList _ | PDict _ => Raise TypeError
  end.

(** Hexadecimal text of [n.to_bytes(32, "big").hex()]. *)
Definition hex_char (d : Z) : ascii :=
  if d <? 10 then ascii_of_N (Z.to_N (48 + d)) else ascii_of_N (Z.to_N (87 + d)).

Fixpoint hex_digits (k : nat) (n : Z) (acc : string) : string :=
  match k with
  | O => acc
  | S k' => hex_digits k' (n / 16) (String (hex_char (n mod 16)) acc)
  end.

Definition to_bytes32_hex (n : Z) : result string :=
  if (n <? 0) || (2 ^ 256 <=? n) then Raise OverflowError
  else Ok (hex_digits 64 n "").

(** [s[:n]] *)
Fixpoint take (n : nat) (s : string) : string :=
  match n, s with
  | O, _ => EmptyString
  | S n', String c s' => String c (take n' s')
  | S _, EmptyString => EmptyString
  end.

(** [s.find(sub)]: the lowest index at which [sub] occurs; [None] stands
    for the -1 of Python. *)
Fixpoint str_find_from (sub : string) (i : nat) (s : string) : option nat :=
  if String.prefix sub s then Some i
  else match s with
       | EmptyString => None
       | String _ s' => str_find_from sub (S i) s'
       end.

Definition str_find (sub s : string) : option nat := str_find_from sub 0 s.

(** [v[k] = x] on a value: only a dict takes a string key. *)
Definition set_item (v : pyval) (k : string) (x : pyval) : result pyval :=
  match v with
  | PDict d => Ok (PDict (set k x d))
  | _ => Raise TypeError
  end.

(** [str(n)] for an [int]. *)
Definition str_int (n : Z) : string := NilEmpty.string_of_int (Z.to_int n).

End Py.

Notation "x <- e ;; k" := (Py.bind e (fun x => k))
  (at level 61, e at next level, right associativity).

(** ** [decimal.Decimal] under the default context *)

Module PyDecimal.
Import Py.

(** The triple [(_sign, int(_int), _exp)] of a finite decimal, or a
    special value.  A NaN's payload never reaches an integer and is left
    out. *)
Inductive decimal : Type :=
| DFinite (sign : bool) (coeff : Z) (exp : Z)
| DInf (sign : bool)
| DNaN (signaling : bool).

(** The default context: [prec=28], [ROUND_HALF_EVEN], [Emin=-999999],
    [Emax=999999], [clamp=0], with [Overflow] and [InvalidOperation]
    trapped. *)
Definition prec : Z := 28.
Definition Emax : Z := 999999.
Definition Emin : Z := -999999.
Definition Etiny : Z := Emin - prec + 1.
Definition Etop : Z := Emax - prec + 1.

Fixpoint ndigits_fuel (fuel : nat) (n : Z) : Z :=
  match fuel with
  | O => 1
  | S fuel' => if n <? 10 then 1 else 1 + ndigits_fuel fuel' (n / 10)
  end.

(** [len(self._int)]: the number of decimal digits of the coefficient. *)
Definition ndigits (n : Z) : Z := ndigits_fuel (Z.to_nat (Z.log2 n)) n.

(** [Decimal._fix]: round a finite result to the context.  The discarded
    part [r] of the coefficient is compared with half a unit of the kept
    part [q] ([ROUND_HALF_EVEN]). *)
Definition fix_finite (s : bool) (c e : Z) : result decimal :=
  if c =? 0 then Ok (DFinite s 0 (Z.min (Z.max e Etiny) Emax))
  else
    let exp_min := ndigits c + e - prec in
    if exp_min >? Etop then Raise DecimalOverflow
    else
      let exp_min := Z.max exp_min Etiny in
      if e <? exp_min then
        let digits := ndigits c + e - exp_min in
        let '(c1, e1) := if digits <? 0 then (1, exp_min - 1) else (c, e) in
        let unit := 10 ^ (exp_min - e1) in
        let q := c1 / unit in
        let r := c1 mod unit in
        let up := (2 * r >? unit) || ((2 * r =? unit) && Z.odd q) in
        let coeff := if up then q + 1 else q in
        let '(coeff, exp_min) :=
          if up && (ndigits coeff >? prec) then (coeff / 10, exp_min + 1)
          else (coeff, exp_min) in
        if exp_min >? Etop then Raise DecimalOverflow
        else Ok (DFinite s coeff exp_min)
      else Ok (DFinite s c e).

(** [Decimal.__mul__] *)
Definition mul (x y : decimal) : result decimal :=
  match x, y with
  | DNaN true, _ => Raise InvalidOperation
  | _, DNaN true => Raise InvalidOperation
  | DNaN false, _ => Ok (DNaN false)
  | _, DNaN false => Ok (DNaN false)
  | DInf sx, DInf sy => Ok (DInf (xorb sx sy))
  | DInf sx, DFinite sy cy _ =>
      if cy =? 0 then Raise InvalidOperation else Ok (DInf (xorb sx sy))
  | DFinite sx cx _, DInf sy =>
      if cx =? 0 then Raise InvalidOperation else Ok (DInf (xorb sx sy))
  | DFinite sx cx ex, DFinite sy cy ey =>
      fix_finite (xorb sx sy) (cx * cy) (ex + ey)
  end.

(** [Decimal.__int__]: truncation toward zero. *)
Definition to_int (x : decimal) : result Z :=
  match x with
  | DNaN _ => Raise ValueError
  | DInf _ => Raise OverflowError
  | DFinite s c e =>
      let m := if 0 <=? e then c * 10 ^ e else c / 10 ^ (- e) in
      Ok (if s then - m else m)
  end.

(** [Decimal(n)] for an [int]. *)
Definition of_int (n : Z) : decimal := DFinite (n <? 0) (Z.abs n) 0.

Definition parse_special (sign : bool) (l : list ascii) : result decimal :=
  let w := lower_chars l in
  if chars_eqb w (list_ascii_of_string "inf")
     || chars_eqb w (list_ascii_of_string "infinity") then Ok (DInf sign)
  else
    match w with
    | "n"%char :: "a"%char :: "n"%char :: diag =>
        if forallb is_digit diag then Ok (DNaN false) else Raise InvalidOperation
    | "s"%char :: "n"%char :: "a"%char :: "n"%char :: diag =>
        if forallb is_digit diag then Ok (DNaN true) else Raise InvalidOperation
    | _ => Raise InvalidOperation
    end.

(** [Decimal(s)] for a string: the text is stripped, underscores are
    dropped, and the numeric-string grammar of the module is matched. *)
Definition of_str (s : string) : result decimal :=
  let l := filter (fun c => negb (Ascii.eqb c underscore))
                  (strip_chars (list_ascii_of_string s)) in
  let '(sign, body) := split_sign l in
  let intpart := take_while is_digit body in
  let rest := drop_while is_digit body in
  let '(fracpart, rest) := split_fraction rest in
  match (intpart ++ fracpart)%list with
  | [] => parse_special sign body
  | ds =>
      match parse_exponent rest with
      | Some e => Ok (DFinite sign (digits_val ds) (e - Z.of_nat (List.length fracpart)))
      | None => Raise InvalidOperation
      end
  end.

(** Number of trailing zero bits of a mantissa. *)
Fixpoint trailing_zeros (m : positive) : Z :=
  match m with
  | xO p => 1 + trailing_zeros p
  | _ => 0
  end.

(** [Decimal(f)] for a [float]: the exact value, from
    [as_integer_ratio]. *)
Definition of_float (f : spec_float) : decimal :=
  match f with
  | S754_zero s => DFinite s 0 0
  | S754_infinity s => DInf s
  | S754_nan => DNaN false
  | S754_finite s m e =>
      if 0 <=? e then DFinite s (Zpos m * 2 ^ e) 0
      else
        let t := Z.min (trailing_zeros m) (- e) in
        let k := - e - t in
        DFinite s (Zpos m / 2 ^ t * 5 ^ k) (- k)
  end.

(** [Decimal(v)] *)
Definition Decimal (v : pyval) : result decimal :=
  match v with
  | PStr s => of_str s
  | PInt n => Ok (of_int n)
  | PBool b => Ok (of_int (if b then 1 else 0))
  | PFloat f => Ok (of_float f)
  | PList _ => Raise ValueError
  | PNone | PDict _ => Raise TypeError
  end.

(** [int(Decimal(v) * Decimal(k))], the scaling expression of the order
    builder, for an integer multiplier [k]. *)
Definition scale (v : pyval) (k : Z) : result Z :=
  bind (Decimal v) (fun d =>
  bind (mul d (of_int k)) (fun p =>
  to_int p)).

End PyDecimal.

(** ** [float]: IEEE 754 binary64 *)

Module PyFloat.
Import Py.

Definition prec : Z := 53.
Definition emax : Z := 1024.

(** The binary64 nearest to [n / d] (ties to even), for positive [n] and
    [d]: the quotient is taken with enough bits, then rounded. *)
Definition of_ratio (s : bool) (n d : Z) : spec_float :=
  let '(q, e, l) := SFdiv_core_binary prec emax n 0 d 0 in
  binary_round_aux prec emax s q e l.

(** The binary64 nearest to [c * 10^e]: string conversion is correctly
    rounded. *)
Definition of_decimal (s : bool) (c e : Z) : spec_float :=
  if c =? 0 then S754_zero s
  else if 0 <=? e then of_ratio s (c * 10 ^ e) 1
  else of_ratio s c (10 ^ (- e)).

(** [float(n)] for an [int] within range. *)
Definition of_int (n : Z) : spec_float := binary_normalize prec emax n 0 false.

Definition mul (x y : spec_float) : spec_float := SFmul prec emax x y.
Definition add (x y : spec_float) : spec_float := SFadd prec emax x y.

(** [int(f)] *)
Definition to_int (f : spec_float) : result Z := int_of_float f.

Definition parse_special (sign : bool) (l : list ascii) : result spec_float :=
  let w := lower_chars l in
  if chars_eqb w (list_ascii_of_string "inf")
     || chars_eqb w (list_ascii_of_string "infinity") then Ok (S754_infinity sign)
  else if chars_eqb w (list_ascii_of_string "nan") then Ok S754_nan
  else Raise ValueError.

(** [float(s)] for a string. *)
Definition of_str (s : string) : result spec_float :=
  match ungroup false (strip_with is_c_space (list_ascii_of_string s)) with
  | None => Raise ValueError
  | Some l =>
      let '(sign, body) := split_sign l in
      let intpart := take_while is_digit body in
      let rest := drop_while is_digit body in
      let '(fracpart, rest) := split_fraction rest in
      match (intpart ++ fracpart)%list with
      | [] => parse_special sign body
      | ds =>
          match parse_exponent rest with
          | Some e =>
              Ok (of_decimal sign (digits_val ds) (e - Z.of_nat (List.length fracpart)))
          | None => Raise ValueError
          end
      end
  end.

(** The conversion of an [int] operand in mixed arithmetic: an integer
    beyond the range of binary64 raises [OverflowError]. *)
Definition of_int_checked (n : Z) : result spec_float :=
  match of_int n with
  | S754_infinity _ => Raise OverflowError
  | f => Ok f
  end.

End PyFloat.

(** ** The [eth_account] library, as far as the scripts use it *)

Module Eth.
Import Py.

(** [signed.r], [signed.s], [signed.v] *)
Record signed_message : Type := { sig_r : Z; sig_s : Z; sig_v : Z }.

(** The library is outside the repository: its encoder and its signer are
    taken as given, each free to raise. *)
Record library : Type := {
  signable : Type;
  account : Type;
  (** [encode_typed_data(domain_data, message_types, message_data)] *)
  encode_typed_data : pydict -> pydict -> pydict -> result signable;
  (** [encode_typed_data(full_message=typed_data)] *)
  encode_full_message : pydict -> result signable;
  (** [Account.from_key(key)] *)
  from_key : string -> result account;
  (** [account.address] *)
  address : account -> string;
  (** [account.sign_message(msg)] *)
  sign_message : account -> signable -> result signed_message
}.

(** The element type of a field type: the text before the first
    bracket, so that [OrderLeg[]] refers to [OrderLeg]. *)
Fixpoint base_type (t : string) : string :=
  match t with
  | EmptyString => EmptyString
  | String c r => if Ascii.eqb c "["%char then EmptyString else String c (base_type r)
  end.

Definition field_types (fields : pyval) : list string :=
  match fields with
  | PList fs =>
      flat_map (fun f =>
        match f with
        | PDict d =>
            match lookup "type" d with
            | Some (PStr t) => [base_type t]
            | _ => []
            end
        | _ => []
        end) fs
  | _ => []
  end.

(** When [encode_typed_data] is given the types without a primary type,
    the library takes the one type that no other type refers to, and
    raises [ValueError] when there is not exactly one. *)
Definition get_primary_type (types : pydict) : result string :=
  let names := keys types in
  let deps :=
    flat_map (fun nf =>
      filter (fun t => existsb (String.eqb t) names && negb (String.eqb t (fst nf)))
             (field_types (snd nf))) types in
  match filter (fun n => negb (existsb (String.eqb n) deps)) names with
  | [n] => Ok n
  | _ => Raise ValueError
  end.

End Eth.

(** ** What the scripts read of an HTTP response *)

Module Http.

(** [resp.status_code] and the two headers the scripts look at,
    [set-cookie] and [x-grvt-account-id]. *)
Record response : Type := {
  status_code : Z;
  set_cookie : option string;
  x_grvt_account_id : option string
}.

(** The exceptions of the transport code: the [RuntimeError]s the
    scripts raise, and the [HTTPError] of [raise_for_status]. *)
Inductive error : Type :=
| LoginFailed (status : Z)
| NoGravityCookie
| NoAccountId
| HTTPError (status : Z).

End Http.

(** ** [grvt_create_order_api.py] *)

Module OrderApi.
Import Py.

Inductive GrvtEnv : Type := DEV | STAGING | TESTNET | PROD.

Definition GrvtEnv_eqb (a b : GrvtEnv) : bool :=
  match a, b with
  | DEV, DEV | STAGING, STAGING | TESTNET, TESTNET | PROD, PROD => true
  | _, _ => false
  end.

Module TimeInForce.
Inductive t : Type := GOOD_TILL_TIME | ALL_OR_NONE | IMMEDIATE_OR_CANCEL | FILL_OR_KILL.

Definition members : list t :=
  [GOOD_TILL_TIME; ALL_OR_NONE; IMMEDIATE_OR_CANCEL; FILL_OR_KILL].

Definition value (x : t) : string :=
  match x with
  | GOOD_TILL_TIME => "GOOD_TILL_TIME"
  | ALL_OR_NONE => "ALL_OR_NONE"
  | IMMEDIATE_OR_CANCEL => "IMMEDIATE_OR_CANCEL"
  | FILL_OR_KILL => "FILL_OR_KILL"
  end.

Definition eqb (a b : t) : bool := String.eqb (value a) (value b).

(** [TimeInForce(v)]: the member whose value is [v], else [ValueError]. *)
Definition of_value (v : pyval) : result t :=
  match v with
  | PStr s =>
      match find (fun m => String.eqb s (value m)) members with
      | Some m => Ok m
      | None => Raise (NotATimeInForce v)
      end
  | _ => Raise (NotATimeInForce v)
  end.
End TimeInForce.

Module SignTimeInForce.
Inductive t : Type := GOOD_TILL_TIME | ALL_OR_NONE | IMMEDIATE_OR_CANCEL | FILL_OR_KILL.

Definition value (x : t) : Z :=
  match x with
  | GOOD_TILL_TIME => 1
  | ALL_OR_NONE => 2
  | IMMEDIATE_OR_CANCEL => 3
  | FILL_OR_KILL => 4
  end.
End SignTimeInForce.

Definition CHAIN_IDS : list (GrvtEnv * Z) :=
  [(DEV, 327); (STAGING, 327); (TESTNET, 326); (PROD, 325)].

Definition TIME_IN_FORCE_TO_SIGN_TIME_IN_FORCE
  : list (TimeInForce.t * SignTimeInForce.t) :=
  [(TimeInForce.GOOD_TILL_TIME, SignTimeInForce.GOOD_TILL_TIME);
   (TimeInForce.ALL_OR_NONE, SignTimeInForce.ALL_OR_NONE);
   (TimeInForce.IMMEDIATE_OR_CANCEL, SignTimeInForce.IMMEDIATE_OR_CANCEL);
   (TimeInForce.FILL_OR_KILL, SignTimeInForce.FILL_OR_KILL)].

(** [table[key]] for the module-level dicts keyed by an enum member. *)
Fixpoint table_get {K V : Type} (eqb : K -> K -> bool) (what : string)
    (key : K) (table : list (K * V)) : result V :=
  match table with
  | [] => Raise (KeyError what)
  | (k, v) :: table' => if eqb key k then Ok v else table_get eqb what key table'
  end.

Definition PRICE_MULTIPLIER : Z := 1000000000.

Definition field (name type : string) : pyval :=
  PDict [("name", PStr name); ("type", PStr type)].

Definition EIP712_ORDER_MESSAGE_TYPE : pydict :=
  [("OrderWithBuilderFee", PList [
      field "subAccountID" "uint64";
      field "isMarket" "bool";
      field "timeInForce" "uint8";
      field "postOnly" "bool";
      field "reduceOnly" "bool";
      field "legs" "OrderLeg[]";
      field "builder" "address";
      field "builderFee" "uint32";
      field "nonce" "uint32";
      field "expiration" "int64"]);
   ("OrderLeg", PList [
      field "assetID" "uint256";
      field "contractSize" "uint64";
      field "limitPrice" "uint64";
      field "isBuyingContract" "bool"])].

(** One entry of the directory [fetch_instruments_from_api] returns.  The
    market-data service reports [base_decimals] as a non-negative
    integer. *)
Record instrument : Type := {
  instrument_hash : pyval;
  base_decimals : N
}.

Definition instruments : Type := list (string * instrument).

Fixpoint find_instrument (name : string) (dir : instruments) : option instrument :=
  match dir with
  | [] => None
  | (n, i) :: dir' => if String.eqb name n then Some i else find_instrument name dir'
  end.

(** [if name not in instruments: raise ValueError(...)], then
    [instruments[name]].  A list or a dict cannot be hashed; any other
    value that is not a string is simply not a key. *)
Definition resolve (dir : instruments) (name : pyval) : result instrument :=
  match name with
  | PList _ | PDict _ => Raise TypeError
  | PStr s =>
      match find_instrument s dir with
      | Some i => Ok i
      | None => Raise (InstrumentNotFound name)
      end
  | _ => Raise (InstrumentNotFound name)
  end.

Definition get_eip712_domain_data (env : GrvtEnv) : result pydict :=
  chain_id <- table_get GrvtEnv_eqb "CHAIN_IDS" env CHAIN_IDS ;;
  Ok [("name", PStr "GRVT Exchange");
      ("version", PStr "0");
      ("chainId", PInt chain_id)].

(** The body of the loop over [order["legs"]]. *)
Definition build_leg (dir : instruments) (leg : pyval) : result pyval :=
  instrument_name <- subscript leg "instrument" ;;
  instrument <- resolve dir instrument_name ;;
  let size_multiplier := 10 ^ Z.of_N (base_decimals instrument) in
  size <- subscript leg "size" ;;
  size_int <- PyDecimal.scale size size_multiplier ;;
  limit_price <- subscript leg "limit_price" ;;
  price_int <- PyDecimal.scale limit_price PRICE_MULTIPLIER ;;
  is_buying_asset <- subscript leg "is_buying_asset" ;;
  Ok (PDict [("assetID", instrument_hash instrument);
             ("contractSize", PInt size_int);
             ("limitPrice", PInt price_int);
             ("isBuyingContract", is_buying_asset)]).

(** [order_data["order"]] when the payload is wrapped, else the payload. *)
Definition unwrap (order_data : pydict) : result pyval :=
  if contains "order" order_data then subscript (PDict order_data) "order"
  else Ok (PDict order_data).

Definition build_order_message_data (order_data : pydict) (dir : instruments)
  : result pydict :=
  order <- unwrap order_data ;;
  order_legs <- subscript order "legs" ;;
  order_legs <- iterate order_legs ;;
  legs <- mapM (build_leg dir) order_legs ;;
  time_in_force_str <- get_attr order "time_in_force" (PStr "GOOD_TILL_TIME") ;;
  time_in_force <- TimeInForce.of_value time_in_force_str ;;
  sign_time_in_force <-
    table_get TimeInForce.eqb "TIME_IN_FORCE_TO_SIGN_TIME_IN_FORCE"
              time_in_force TIME_IN_FORCE_TO_SIGN_TIME_IN_FORCE ;;
  builder_fee <- get_attr order "builder_fee" (PStr "0.001") ;;
  builder_fee_int <- PyDecimal.scale builder_fee 10000 ;;
  sub_account_id <- subscript order "sub_account_id" ;;
  sub_account_id <- int sub_account_id ;;
  is_market <- get_attr order "is_market" (PBool false) ;;
  post_only <- get_attr order "post_only" (PBool false) ;;
  reduce_only <- get_attr order "reduce_only" (PBool false) ;;
  builder <- get_attr order "builder" (PStr "") ;;
  signature <- subscript order "signature" ;;
  nonce <- subscript signature "nonce" ;;
  signature <- subscript order "signature" ;;
  expiration <- subscript signature "expiration" ;;
  Ok [("subAccountID", PInt sub_account_id);
      ("isMarket", is_market);
      ("timeInForce", PInt (SignTimeInForce.value sign_time_in_force));
      ("postOnly", post_only);
      ("reduceOnly", reduce_only);
      ("legs", PList legs);
      ("builder", builder);
      ("builderFee", PInt builder_fee_int);
      ("nonce", nonce);
      ("expiration", expiration)].

Definition sign_order (lib : Eth.library) (order_data : pydict)
    (dir : instruments) (private_key : string) (env : GrvtEnv) : result pydict :=
  let private_key :=
    if startswith "0x" private_key then drop 2 private_key else private_key in
  message_data <- build_order_message_data order_data dir ;;
  domain_data <- get_eip712_domain_data env ;;
  signable_message <-
    Eth.encode_typed_data lib domain_data EIP712_ORDER_MESSAGE_TYPE message_data ;;
  account <- Eth.from_key lib private_key ;;
  signed_message <- Eth.sign_message lib account signable_message ;;
  r <- to_bytes32_hex (Eth.sig_r signed_message) ;;
  s <- to_bytes32_hex (Eth.sig_s signed_message) ;;
  let signature : pydict :=
    [("r", PStr ("0x" ++ r));
     ("s", PStr ("0x" ++ s));
     ("v", PInt (Eth.sig_v signed_message));
     ("signer", PStr (Eth.address lib account))] in
  order <- unwrap order_data ;;
  order <- copy order ;;
  sig_r <- subscript (PDict signature) "r" ;;
  sig_s <- subscript (PDict signature) "s" ;;
  sig_v <- subscript (PDict signature) "v" ;;
  old <- subscript (PDict order) "signature" ;;
  expiration <- subscript old "expiration" ;;
  old <- subscript (PDict order) "signature" ;;
  nonce <- subscript old "nonce" ;;
  sig_signer <- subscript (PDict signature) "signer" ;;
  let order :=
    set "signature"
        (PDict [("r", sig_r); ("s", sig_s); ("v", sig_v);
                ("expiration", expiration); ("nonce", nonce);
                ("signer", sig_signer)])
        order in
  Ok [("order", PDict order)].

Definition GrvtEnv_value (env : GrvtEnv) : string :=
  match env with
  | DEV => "dev"
  | STAGING => "staging"
  | TESTNET => "testnet"
  | PROD => "prod"
  end.

Definition EDGE_API_ENDPOINTS : list (GrvtEnv * string) :=
  [(DEV, "https://edge.dev.gravitymarkets.io");
   (STAGING, "https://edge.staging.gravitymarkets.io");
   (TESTNET, "https://edge.testnet.grvt.io");
   (PROD, "https://edge.grvt.io")].

Definition TRADING_API_ENDPOINTS : list (GrvtEnv * string) :=
  [(DEV, "https://trades.dev.gravitymarkets.io");
   (STAGING, "https://trades.staging.gravitymarkets.io");
   (TESTNET, "https://trades.testnet.grvt.io");
   (PROD, "https://trades.grvt.io")].

Definition MARKET_DATA_API_ENDPOINTS : list (GrvtEnv * string) :=
  [(DEV, "https://market-data.dev.gravitymarkets.io");
   (STAGING, "https://market-data.staging.gravitymarkets.io");
   (TESTNET, "https://market-data.testnet.grvt.io");
   (PROD, "https://market-data.grvt.io")].

Definition _ensure_0x (s : string) : string :=
  let s := strip s in
  if startswith "0x" s then s else "0x" ++ s.

(** [_parse_gravity_cookie].  On a header of characters below U+0100
    [lower] keeps every position, so the index found in the lower-cased
    header is an index into the header itself, as in Python. *)
Definition _parse_gravity_cookie (set_cookie_header : option string)
  : option string :=
  match set_cookie_header with
  | None => None
  | Some EmptyString => None
  | Some header =>
      match str_find "gravity=" (lower header) with
      | None => None
      | Some idx =>
          let frag := drop idx header in
          match str_find ";" frag with
          | None => Some frag
          | Some end_ => Some (take end_ frag)
          end
      end
  end.

(** [login_with_api_key], from the response of the login request on:
    the session cookie and the account id, or the [RuntimeError] raised. *)
Definition login_with_api_key (resp : Http.response)
  : Http.error + (string * string) :=
  if negb (Http.status_code resp =? 200) then
    inl (Http.LoginFailed (Http.status_code resp))
  else
    match _parse_gravity_cookie (Http.set_cookie resp) with
    | None => inl Http.NoGravityCookie
    | Some gravity_cookie =>
        match Http.x_grvt_account_id resp with
        | None | Some EmptyString => inl Http.NoAccountId
        | Some account_id => inr (gravity_cookie, account_id)
        end
    end.

(** [int((time.time() + expiration_hours * 3600) * 1_000_000_000)], for
    the clock reading [now]. *)
Definition expiration_ns_after (now : spec_float) (expiration_hours : Z)
  : result Z :=
  delay <- PyFloat.of_int_checked (expiration_hours * 3600) ;;
  PyFloat.to_int
    (PyFloat.mul (PyFloat.add now delay) (PyFloat.of_int 1000000000)).

(** The two assignments [order["signature"]["expiration"] = ...] and
    [order["signature"]["nonce"] = ...].  They update the dicts in
    place; the value returned here is the order after both. *)
Definition set_signature_fields (order : pydict) (expiration nonce : pyval)
  : result pydict :=
  signature <- subscript (PDict order) "signature" ;;
  signature <- set_item signature "expiration" expiration ;;
  signature <- set_item signature "nonce" nonce ;;
  Ok (set "signature" signature order).

(** [update_order_signature_fields]; the clock reading and the random
    nonce are inputs. *)
Definition update_order_signature_fields (order_data : pydict)
    (expiration_hours : Z) (now : spec_float) (nonce : Z) : result pydict :=
  expiration_ns <- expiration_ns_after now expiration_hours ;;
  if contains "order" order_data then
    order <- subscript (PDict order_data) "order" ;;
    match order with
    | PDict order =>
        order <- set_signature_fields order (PStr (str_int expiration_ns))
                   (PInt nonce) ;;
        Ok (set "order" (PDict order) order_data)
    | _ => Raise TypeError
    end
  else
    set_signature_fields order_data (PStr (str_int expiration_ns)) (PInt nonce).

End OrderApi.

(** ** [authorize.py] *)

Module Authorize.
Import Py.

Record EnvConfig : Type := {
  name : string;
  edge_base : string;
  trades_base : string;
  chain_id : Z
}.

Definition ENVS : list (string * EnvConfig) :=
  [("dev", {| name := "dev";
              edge_base := "https://edge.dev.gravitymarkets.io";
              trades_base := "https://trades.dev.gravitymarkets.io";
              chain_id := 327 |});
   ("staging", {| name := "staging";
                  edge_base := "https://edge.staging.gravitymarkets.io";
                  trades_base := "https://trades.staging.gravitymarkets.io";
                  chain_id := 327 |});
   ("testnet", {| name := "testnet";
                  edge_base := "https://edge.testnet.grvt.io";
                  trades_base := "https://trades.testnet.grvt.io";
                  chain_id := 326 |});
   ("prod", {| name := "prod";
               edge_base := "https://edge.grvt.io";
               trades_base := "https://trades.grvt.io";
               chain_id := 325 |})].

Definition _ensure_0x (s : string) : string :=
  let s := strip s in
  let s := if startswith "0x" s then s else "0x" ++ s in
  lower s.

Definition _hex32 (n : Z) : result string :=
  h <- to_bytes32_hex n ;;
  Ok ("0x" ++ h).

Definition field (name type : string) : pyval :=
  PDict [("name", PStr name); ("type", PStr type)].

Definition build_eip712_payload
    (main_account_id builder_account_id signer_address permissions : string)
    (max_future_fee_rate_uint32 max_spot_fee_rate_uint32 nonce_uint32
     expiration_unix_ns domain_chain_id : Z) : pydict :=
  [("domain", PDict [("chainId", PInt domain_chain_id);
                     ("name", PStr "GRVT Exchange");
                     ("version", PStr "0")]);
   ("message", PDict [
      ("accountID", PStr main_account_id);
      ("signer", PStr signer_address);
      ("permissions", PStr permissions);
      ("builderAccountID", PStr builder_account_id);
      ("maxFutureFeeRate", PInt max_future_fee_rate_uint32);
      ("maxSpotFeeRate", PInt max_spot_fee_rate_uint32);
      ("nonce", PInt nonce_uint32);
      ("expiration", PInt expiration_unix_ns)]);
   ("primaryType", PStr "AddAccountSignerWithBuilder");
   ("types", PDict [
      ("EIP712Domain", PList [
         field "name" "string";
         field "version" "string";
         field "chainId" "uint256"]);
      ("AddAccountSignerWithBuilder", PList [
         field "accountID" "address";
         field "signer" "address";
         field "permissions" "string";
         field "builderAccountID" "address";
         field "maxFutureFeeRate" "uint32";
         field "maxSpotFeeRate" "uint32";
         field "nonce" "uint32";
         field "expiration" "int64"])])].

(** [sign_eip712], with the newer encoder of the library. *)
Definition sign_eip712 (lib : Eth.library) (user_privkey : string)
    (typed_data : pydict) : result (Z * string * string) :=
  let user_privkey := _ensure_0x user_privkey in
  acct <- Eth.from_key lib user_privkey ;;
  msg <- Eth.encode_full_message lib typed_data ;;
  signed <- Eth.sign_message lib acct msg ;;
  let v := Eth.sig_v signed in
  r <- _hex32 (Eth.sig_r signed) ;;
  s <- _hex32 (Eth.sig_s signed) ;;
  Ok (v, r, s).

(** [int(float(fee) * 10_000)], the fee-rate conversion of
    [authorize_builder]. *)
Definition fee_rate_uint32 (fee : string) : result Z :=
  f <- PyFloat.of_str fee ;;
  PyFloat.to_int (PyFloat.mul f (PyFloat.of_int 10000)).

(** [int((time.time() + 7 * 24 * 3600) * 1e9)], for the clock reading
    [now]. *)
Definition expiration_after_7_days (now : spec_float) : result Z :=
  PyFloat.to_int
    (PyFloat.mul (PyFloat.add now (PyFloat.of_int (7 * 24 * 3600)))
                 (PyFloat.of_int 1000000000)).

(** [str(n)] for an [int]. *)
Definition str_of_int (n : Z) : string := NilEmpty.string_of_int (Z.to_int n).

(** [authorize_builder] up to the HTTP call: the typed data it signs and
    the request body it posts.  The random nonce and the clock reading
    are inputs. *)
Definition authorize_builder (lib : Eth.library) (env : EnvConfig)
    (main_account_id builder_account_id user_privkey
     builder_api_key_signer_privkey builder_api_key_label permissions
     max_futures_fee_rate max_spot_fee_rate : string)
    (nonce : Z) (now : spec_float) : result (pydict * pydict) :=
  let builder_api_key_signer_privkey := _ensure_0x builder_api_key_signer_privkey in
  signer_acct <- Eth.from_key lib builder_api_key_signer_privkey ;;
  let signer_addr := Eth.address lib signer_acct in
  mf_uint32 <- fee_rate_uint32 max_futures_fee_rate ;;
  ms_uint32 <- fee_rate_uint32 max_spot_fee_rate ;;
  expiration_ns <- expiration_after_7_days now ;;
  let typed :=
    build_eip712_payload (_ensure_0x main_account_id)
      (_ensure_0x builder_account_id) (_ensure_0x signer_addr) permissions
      mf_uint32 ms_uint32 nonce expiration_ns (chain_id env) in
  vrs <- sign_eip712 lib (_ensure_0x user_privkey) typed ;;
  let '(v, r, s) := vrs in
  let payload : pydict :=
    [("main_account_id", PStr (_ensure_0x main_account_id));
     ("builder_account_id", PStr (_ensure_0x builder_account_id));
     ("max_futures_fee_rate", PStr max_futures_fee_rate);
     ("max_spot_fee_rate", PStr max_spot_fee_rate);
     ("signature", PDict [
        ("signer", PStr (_ensure_0x main_account_id));
        ("r", PStr r);
        ("s", PStr s);
        ("v", PInt v);
        ("expiration", PStr (str_of_int expiration_ns));
        ("nonce", PInt nonce);
        ("chain_id", PStr (str_of_int (chain_id env)))]);
     ("builder_api_key_label", PStr builder_api_key_label);
     ("builder_api_key_signer", PStr (_ensure_0x signer_addr));
     ("builder_api_key_permissions", PStr permissions)] in
  Ok (typed, payload).

Definition _parse_gravity_cookie (set_cookie_header : option string)
  : option string :=
  match set_cookie_header with
  | None => None
  | Some EmptyString => None
  | Some header =>
      match str_find "gravity=" (lower header) with
      | None => None
      | Some idx =>
          let frag := drop idx header in
          match str_find ";" frag with
          | None => Some frag
          | Some end_ => Some (take end_ frag)
          end
      end
  end.

(** [ENVS[name]] *)
Fixpoint env_lookup (name : string) (envs : list (string * EnvConfig))
  : option EnvConfig :=
  match envs with
  | [] => None
  | (n, cfg) :: envs' => if String.eqb name n then Some cfg else env_lookup name envs'
  end.

(** [resp.raise_for_status()]: a status from 400 to 599 raises. *)
Definition raise_for_status (resp : Http.response) : option Http.error :=
  if (400 <=? Http.status_code resp) && (Http.status_code resp <? 600)
  then Some (Http.HTTPError (Http.status_code resp))
  else None.

(** [login_with_api_key], from the response of the login request on. *)
Definition login_with_api_key (resp : Http.response)
  : Http.error + (string * string) :=
  match raise_for_status resp with
  | Some e => inl e
  | None =>
      match _parse_gravity_cookie (Http.set_cookie resp) with
      | None => inl Http.NoGravityCookie
      | Some gravity_cookie =>
          match Http.x_grvt_account_id resp with
          | None | Some EmptyString => inl Http.NoAccountId
          | Some account_id => inr (gravity_cookie, account_id)
          end
      end
  end.

End Authorize.

(** ** The properties, in the specification's terms *)

Module Spec.
Import Py.

Local Open Scope Q_scope.

(** The rational a finite decimal [(-1)^s * c * 10^e] denotes. *)
Definition dec_value (s : bool) (c e : Z) : Q :=
  let a := inject_Z c * inject_Z 10 ^ e in
  if s then - a else a.

(** Truncation toward zero. *)
Definition Qtrunc (q : Q) : Z :=
  if Qle_bool 0 q then Qfloor q else Qceiling q.

(** [n] is an integer nearest to [q]. *)
Definition nearest_integer (q : Q) (n : Z) : Prop :=
  Qabs (q - inject_Z n) <= 1 # 2.

Local Close Scope Q_scope.

Definition uint32_max : Z := 2 ^ 32 - 1.
Definition uint64_max : Z := 2 ^ 64 - 1.

(** The enumerated mapping of the specification. *)
Definition sign_value (t : OrderApi.TimeInForce.t) : Z :=
  match t with
  | OrderApi.TimeInForce.GOOD_TILL_TIME => 1
  | OrderApi.TimeInForce.ALL_OR_NONE => 2
  | OrderApi.TimeInForce.IMMEDIATE_OR_CANCEL => 3
  | OrderApi.TimeInForce.FILL_OR_KILL => 4
  end.

(** [v[k1][k2]] *)
Definition at2 (v : pydict) (k1 k2 : string) : result pyval :=
  x <- subscript (PDict v) k1 ;;
  subscript x k2.

(** The [(name, type)] pairs of one type of a schema, in order. *)
Definition name_type (f : pyval) : option (string * string) :=
  match f with
  | PDict d =>
      match lookup "name" d, lookup "type" d with
      | Some (PStr n), Some (PStr t) => Some (n, t)
      | _, _ => None
      end
  | _ => None
  end.

Fixpoint all_some {A : Type} (l : list (option A)) : option (list A) :=
  match l with
  | [] => Some []
  | Some a :: l' => option_map (cons a) (all_some l')
  | None :: _ => None
  end.

Definition schema (types : pydict) (type_name : string)
  : option (list (string * string)) :=
  match lookup type_name types with
  | Some (PList fs) => all_some (map name_type fs)
  | _ => None
  end.

(** The message [build_order_message_data] returns, from the order and
    the values computed on the way. *)
Definition order_message (order : pydict) (sub_account_id time_in_force : Z)
    (legs : list pyval) (builder_fee : Z) (nonce expiration : pyval) : pydict :=
  [("subAccountID", PInt sub_account_id);
   ("isMarket", get "is_market" (PBool false) order);
   ("timeInForce", PInt time_in_force);
   ("postOnly", get "post_only" (PBool false) order);
   ("reduceOnly", get "reduce_only" (PBool false) order);
   ("legs", PList legs);
   ("builder", get "builder" (PStr "") order);
   ("builderFee", PInt builder_fee);
   ("nonce", nonce);
   ("expiration", expiration)].

(** What a successful run of [build_order_message_data] went through. *)
Inductive built (order_data : pydict) (dir : OrderApi.instruments)
    (msg : pydict) : Prop :=
| Built (order : pydict) (items legs : list pyval)
    (tif : OrderApi.TimeInForce.t) (fee sub : Z) (nonce expiration : pyval)
    (b_unwrap : OrderApi.unwrap order_data = Ok (PDict order))
    (b_iterate : x <- subscript (PDict order) "legs" ;; iterate x = Ok items)
    (b_build_legs : mapM (OrderApi.build_leg dir) items = Ok legs)
    (b_time_in_force :
       OrderApi.TimeInForce.of_value
         (get "time_in_force" (PStr "GOOD_TILL_TIME") order) = Ok tif)
    (b_builder_fee :
       PyDecimal.scale (get "builder_fee" (PStr "0.001") order) 10000 = Ok fee)
    (b_sub_account :
       x <- subscript (PDict order) "sub_account_id" ;; int x = Ok sub)
    (b_sig_nonce : at2 order "signature" "nonce" = Ok nonce)
    (b_sig_expiration : at2 order "signature" "expiration" = Ok expiration)
    (b_message :
       msg = order_message order sub (sign_value tif) legs fee nonce expiration).

(** The keys of a value that is a dict. *)
Definition keys_of (v : pyval) : option (list string) :=
  match v with
  | PDict d => Some (keys d)
  | _ => None
  end.

Definition order_fields : list (string * string) :=
  [("subAccountID", "uint64"); ("isMarket", "bool"); ("timeInForce", "uint8");
   ("postOnly", "bool"); ("reduceOnly", "bool"); ("legs", "OrderLeg[]");
   ("builder", "address"); ("builderFee", "uint32"); ("nonce", "uint32");
   ("expiration", "int64")].

Definition leg_fields : list (string * string) :=
  [("assetID", "uint256"); ("contractSize", "uint64");
   ("limitPrice", "uint64"); ("isBuyingContract", "bool")].

(** The shape of an order message: the order-level keys, and the keys of
    every leg, in the order of the schema. *)
Definition order_shape (msg : pydict) : Prop :=
  keys msg = map fst order_fields /\
  exists legs,
    lookup "legs" msg = Some (PList legs) /\
    Forall (fun l => keys_of l = Some (map fst leg_fields)) legs.

(** The legs of the message are the legs of the order, built one by one
    and kept at their positions. *)
Definition built_in_order (dir : OrderApi.instruments)
    (items legs : list pyval) : Prop :=
  List.length legs = List.length items /\
  forall i leg, nth_error items i = Some leg ->
    exists b, OrderApi.build_leg dir leg = Ok b /\ nth_error legs i = Some b.

(** [signed["order"]["signature"]] of what [sign_order] returns. *)
Definition signature_of (signed : result pydict) : result pyval :=
  out <- signed ;;
  at2 out "order" "signature".

(** The digest of the library has no collision on the messages [m1]
    and [m2]: encoded for one domain under the schema [types], they
    give one signable message only when they are one message. *)
Definition digest_separates (lib : Eth.library) (types m1 m2 : pydict) : Prop :=
  forall domain sm,
    Eth.encode_typed_data lib domain types m1 = Ok sm ->
    Eth.encode_typed_data lib domain types m2 = Ok sm ->
    m1 = m2.

(** The signature of the library has no clash on the digests of [m1]
    and [m2]: one account signs them to one signature only when they
    are one digest. *)
Definition signature_separates (lib : Eth.library) (types m1 m2 : pydict)
  : Prop :=
  forall domain acct sm1 sm2 sg,
    Eth.encode_typed_data lib domain types m1 = Ok sm1 ->
    Eth.encode_typed_data lib domain types m2 = Ok sm2 ->
    Eth.sign_message lib acct sm1 = Ok sg ->
    Eth.sign_message lib acct sm2 = Ok sg ->
    sm1 = sm2.

(** The keys of the signature sub-record [sign_order] writes. *)
Definition signature_keys : list string :=
  ["r"; "s"; "v"; "expiration"; "nonce"; "signer"].

(** The keys of [p[k]], in order. *)
Definition keys_at (p : pydict) (k : string) : option (list string) :=
  match lookup k p with
  | Some v => keys_of v
  | None => None
  end.

(** The [(name, type)] pairs of a type in [p["types"]]. *)
Definition schema_at (p : pydict) (type_name : string)
  : option (list (string * string)) :=
  match lookup "types" p with
  | Some (PDict types) => schema types type_name
  | _ => None
  end.

(** The shape of the authorization payload: primary type, field order,
    type strings and domain. *)
Definition authorization_shape (p : pydict) (chain : Z) : Prop :=
  lookup "primaryType" p = Some (PStr "AddAccountSignerWithBuilder") /\
  keys_at p "message" =
    Some ["accountID"; "signer"; "permissions"; "builderAccountID";
          "maxFutureFeeRate"; "maxSpotFeeRate"; "nonce"; "expiration"] /\
  schema_at p "AddAccountSignerWithBuilder" =
    Some [("accountID", "address"); ("signer", "address");
          ("permissions", "string"); ("builderAccountID", "address");
          ("maxFutureFeeRate", "uint32"); ("maxSpotFeeRate", "uint32");
          ("nonce", "uint32"); ("expiration", "int64")] /\
  schema_at p "EIP712Domain" =
    Some [("name", "string"); ("version", "string"); ("chainId", "uint256")] /\
  at2 p "domain" "name" = Ok (PStr "GRVT Exchange") /\
  at2 p "domain" "version" = Ok (PStr "0") /\
  at2 p "domain" "chainId" = Ok (PInt chain).

(** The value of a hexadecimal digit, lower case. *)
Definition hex_val (c : ascii) : option Z :=
  let n := Z.of_N (code c) in
  if (48 <=? n) && (n <=? 57) then Some (n - 48)
  else if (97 <=? n) && (n <=? 102) then Some (n - 87)
  else None.

(** The number a string of hexadecimal digits denotes, big-endian. *)
Fixpoint hex_decode (acc : Z) (s : string) : option Z :=
  match s with
  | EmptyString => Some acc
  | String c s' =>
      match hex_val c with
      | Some d => hex_decode (16 * acc + d) s'
      | None => None
      end
  end.

(** No character of [s] is a semicolon. *)
Fixpoint no_semicolon (s : string) : bool :=
  match s with
  | EmptyString => true
  | String c s' => negb (Ascii.eqb c ";"%char) && no_semicolon s'
  end.

End Spec.

(** ** Sample inputs *)

Module Fixtures.
Import Py.

(** A stand-in for the library: the signable message is the triple it
    was built from, and every key signs with the same numbers. *)
Definition stub : Eth.library := {|
  Eth.signable := pydict * pydict * pydict;
  Eth.account := string;
  Eth.encode_typed_data := fun domain types message => Ok (domain, types, message);
  Eth.encode_full_message := fun typed => Ok (typed, [], []);
  Eth.from_key := fun key => Ok key;
  Eth.address := fun key => "0x5ec0" ++ key;
  Eth.sign_message := fun _ _ =>
    Ok {| Eth.sig_r := 255; Eth.sig_s := 4096; Eth.sig_v := 27 |}
|}.

(** The contract size of the first leg of a message. *)
Definition first_contract_size (message : pydict) : Z :=
  match lookup "legs" message with
  | Some (PList (PDict l :: _)) =>
      match lookup "contractSize" l with
      | Some (PInt n) => n
      | _ => 0
      end
  | _ => 0
  end.

(** A second stand-in, whose signature depends on the message: [r] is
    the contract size of its first leg. *)
Definition echo : Eth.library := {|
  Eth.signable := pydict * pydict * pydict;
  Eth.account := string;
  Eth.encode_typed_data := fun domain types message => Ok (domain, types, message);
  Eth.encode_full_message := fun typed => Ok (typed, [], []);
  Eth.from_key := fun key => Ok key;
  Eth.address := fun key => "0x5ec0" ++ key;
  Eth.sign_message := fun _ sm =>
    Ok {| Eth.sig_r := first_contract_size (snd sm);
          Eth.sig_s := 4096;
          Eth.sig_v := 27 |}
|}.

Definition directory : OrderApi.instruments :=
  [("BTC_USDT_Perp",
    {| OrderApi.instrument_hash := PStr "0x030501"; OrderApi.base_decimals := 9 |});
   ("ETH_USDT_Perp",
    {| OrderApi.instrument_hash := PStr "0x030401"; OrderApi.base_decimals := 9 |})].

Definition leg (instrument size price : string) (buying : bool) : pyval :=
  PDict [("instrument", PStr instrument);
         ("size", PStr size);
         ("limit_price", PStr price);
         ("is_buying_asset", PBool buying)].

Definition placeholder_signature : pyval :=
  PDict [("r", PStr ""); ("s", PStr ""); ("v", PInt 0);
         ("expiration", PStr "1730800796000000000");
         ("nonce", PInt 828700936);
         ("signer", PStr "")].

(** An order with the mandatory fields only. *)
Definition bare_order (legs : list pyval) : pydict :=
  [("sub_account_id", PStr "8289849667772468");
   ("legs", PList legs);
   ("signature", placeholder_signature)].

(** A complete order, in the wrapped form of the request body. *)
Definition full_order (time_in_force : string) (builder_fee : pyval)
    (legs : list pyval) : pydict :=
  [("order", PDict [
      ("sub_account_id", PStr "8289849667772468");
      ("is_market", PBool false);
      ("time_in_force", PStr time_in_force);
      ("post_only", PBool false);
      ("reduce_only", PBool false);
      ("legs", PList legs);
      ("builder", PStr "0x42c9f56f2c9da534f64b8806d64813b29c62a01d");
      ("builder_fee", builder_fee);
      ("signature", placeholder_signature);
      ("metadata", PDict [("client_order_id", PStr "23042")])])].

(** A complete order whose signature sub-record also names the chain,
    as the sub-record of the authorization request does. *)
Definition order_naming_chain (legs : list pyval) : pydict :=
  [("order", PDict [
      ("sub_account_id", PStr "8289849667772468");
      ("is_market", PBool false);
      ("time_in_force", PStr "GOOD_TILL_TIME");
      ("post_only", PBool false);
      ("reduce_only", PBool false);
      ("legs", PList legs);
      ("builder", PStr "0x42c9f56f2c9da534f64b8806d64813b29c62a01d");
      ("builder_fee", PStr "0.001");
      ("signature",
       PDict [("r", PStr ""); ("s", PStr ""); ("v", PInt 0);
              ("expiration", PStr "1730800796000000000");
              ("nonce", PInt 828700936);
              ("signer", PStr "");
              ("chain_id", PStr "326")])])].

Definition leg_btc : pyval := leg "BTC_USDT_Perp" "0.01" "65000.5" true.
Definition leg_eth : pyval := leg "ETH_USDT_Perp" "1.5" "3000" false.
Definition leg_unknown : pyval := leg "DOGE_USDT_Perp" "1" "1" true.

(** Quantities beyond the widths the schema declares: a builder fee of
    500,000 and a size of 10^11 at nine decimals. *)
Definition oversized_order : pydict :=
  full_order "GOOD_TILL_TIME" (PStr "500000")
    [leg "BTC_USDT_Perp" "100000000000" "65000" true].

Definition testnet : Authorize.EnvConfig :=
  {| Authorize.name := "testnet";
     Authorize.edge_base := "https://edge.testnet.grvt.io";
     Authorize.trades_base := "https://trades.testnet.grvt.io";
     Authorize.chain_id := 326 |}.

(** 1,700,000,000.5 seconds since the epoch. *)
Definition clock : spec_float := PyFloat.of_ratio false 17000000005 10.

End Fixtures.

(** ** Results *)

Import Py.

(** *** The error monad *)

Lemma bind_Ok {A B : Type} (r : result A) (k : A -> result B) (b : B) :
  bind r k = Ok b -> exists a, r = Ok a /\ k a = Ok b.
Proof.
  destruct r as [a|e]; simpl; intros H.
  - exists a. split; [reflexivity | exact H].
  - discriminate H.
Qed.

(** Peel one [bind] off a successful run. *)
Tactic Notation "peel" hyp(H) "as" ident(x) ident(Hx) :=
  apply bind_Ok in H; destruct H as (x & Hx & H).

(** *** Dictionaries *)

Lemma subscript_Ok (v : pyval) (k : string) (x : pyval) :
  subscript v k = Ok x -> exists d, v = PDict d /\ lookup k d = Some x.
Proof.
  destruct v; try discriminate. cbn [subscript].
  destruct (lookup k d) eqn:E; [|discriminate].
  intros H. injection H as ->. exists d. split; [reflexivity | exact E].
Qed.

Lemma lookup_set_same (k : string) (v : pyval) (d : pydict) :
  lookup k (set k v d) = Some v.
Proof.
  induction d as [|[k' v'] d IH]; cbn [set lookup].
  - rewrite String.eqb_refl. reflexivity.
  - destruct (String.eqb k k') eqn:E; cbn [lookup].
    + rewrite String.eqb_refl. reflexivity.
    + rewrite E. exact IH.
Qed.

Lemma lookup_set_other (k k' : string) (v : pyval) (d : pydict) :
  k <> k' -> lookup k (set k' v d) = lookup k d.
Proof.
  intros Hne. induction d as [|[k0 v0] d IH]; cbn [set lookup].
  - destruct (String.eqb_spec k k'); [contradiction | reflexivity].
  - destruct (String.eqb_spec k' k0) as [->|Hk0]; cbn [lookup].
    + destruct (String.eqb_spec k k0); [contradiction | reflexivity].
    + rewrite IH. reflexivity.
Qed.

Lemma keys_set_present (k : string) (v x : pyval) (d : pydict) :
  lookup k d = Some x -> keys (set k v d) = keys d.
Proof.
  unfold keys. induction d as [|[k' v'] d IH]; cbn [set lookup map fst].
  - discriminate.
  - destruct (String.eqb_spec k k') as [->|Hne]; cbn [map fst].
    + reflexivity.
    + intros H. rewrite (IH H). reflexivity.
Qed.

Lemma get_set_other (k k' : string) (v default : pyval) (d : pydict) :
  k <> k' -> get k default (set k' v d) = get k default d.
Proof. intros H. unfold get. rewrite (lookup_set_other k k' v d H). reflexivity. Qed.

Lemma get_absent (k : string) (default : pyval) (d : pydict) :
  lookup k d = None -> get k default d = default.
Proof. intros H. unfold get. rewrite H. reflexivity. Qed.

Lemma get_present (k : string) (default v : pyval) (d : pydict) :
  lookup k d = Some v -> get k default d = v.
Proof. intros H. unfold get. rewrite H. reflexivity. Qed.

(** *** The loop over the legs *)

Lemma mapM_app_Raise {A B : Type} (f : A -> result B) (pre post : list A)
    (x : A) (ys : list B) (e : exn) :
  mapM f pre = Ok ys -> f x = Raise e -> mapM f (pre ++ x :: post) = Raise e.
Proof.
  revert ys. induction pre as [|a pre IH]; intros ys Hpre Hx; cbn [mapM app].
  - rewrite Hx. reflexivity.
  - cbn [mapM] in Hpre. peel Hpre as y Hy. peel Hpre as ys' Hys.
    rewrite Hy. cbn [bind]. rewrite (IH ys' Hys Hx). reflexivity.
Qed.

Lemma mapM_In_Raise {A B : Type} (f : A -> result B) (xs : list A) (x : A) (e : exn) :
  In x xs -> f x = Raise e -> exists e', mapM f xs = Raise e'.
Proof.
  induction xs as [|a xs IH]; intros Hin Hx; [contradiction|].
  cbn [mapM]. destruct (f a) as [y|e0] eqn:Hfa; cbn [bind].
  - destruct Hin as [->|Hin]; [rewrite Hx in Hfa; discriminate|].
    destruct (IH Hin Hx) as [e' He']. rewrite He'. exists e'. reflexivity.
  - exists e0. reflexivity.
Qed.

Lemma mapM_nth {A B : Type} (f : A -> result B) (xs : list A) (ys : list B) :
  mapM f xs = Ok ys ->
  List.length ys = List.length xs /\
  forall i x, nth_error xs i = Some x ->
    exists y, f x = Ok y /\ nth_error ys i = Some y.
Proof.
  revert ys. induction xs as [|a xs IH]; intros ys H; cbn [mapM] in H.
  - injection H as <-. split; [reflexivity|]. intros [|i] x Hx; discriminate Hx.
  - peel H as y Hy. peel H as ys' Hys. injection H as <-.
    destruct (IH ys' Hys) as [Hlen Hnth]. split.
    + cbn [List.length]. rewrite Hlen. reflexivity.
    + intros [|i] x Hx; cbn [nth_error] in *.
      * injection Hx as <-. exists y. split; [exact Hy | reflexivity].
      * exact (Hnth i x Hx).
Qed.

(** *** Time in force *)

Lemma time_in_force_table (t : OrderApi.TimeInForce.t) :
  exists st,
    OrderApi.table_get OrderApi.TimeInForce.eqb
      "TIME_IN_FORCE_TO_SIGN_TIME_IN_FORCE" t
      OrderApi.TIME_IN_FORCE_TO_SIGN_TIME_IN_FORCE = Ok st /\
    OrderApi.SignTimeInForce.value st = Spec.sign_value t.
Proof. destruct t; eexists; split; reflexivity. Qed.

Lemma of_value_Ok (v : pyval) (t : OrderApi.TimeInForce.t) :
  OrderApi.TimeInForce.of_value v = Ok t ->
  v = PStr (OrderApi.TimeInForce.value t).
Proof.
  destruct v; try discriminate. cbn [OrderApi.TimeInForce.of_value].
  destruct (find _ _) as [m|] eqn:E; [|discriminate].
  intros H. injection H as ->.
  apply find_some in E. destruct E as [_ E].
  apply String.eqb_eq in E. subst s. reflexivity.
Qed.

Lemma of_value_member (t : OrderApi.TimeInForce.t) :
  OrderApi.TimeInForce.of_value (PStr (OrderApi.TimeInForce.value t)) = Ok t.
Proof. destruct t; reflexivity. Qed.

Lemma of_value_other (s : string) :
  (forall t, OrderApi.TimeInForce.value t <> s) ->
  OrderApi.TimeInForce.of_value (PStr s) = Raise (NotATimeInForce (PStr s)).
Proof.
  intros H. cbn [OrderApi.TimeInForce.of_value].
  destruct (find _ _) as [m|] eqn:E; [|reflexivity].
  apply find_some in E. destruct E as [_ E].
  apply String.eqb_eq in E. exfalso. exact (H m (eq_sym E)).
Qed.

(** *** The order builder, step by step *)

Lemma unwrap_dict (order_data : pydict) (order : pyval) (k : string) (x : pyval) :
  OrderApi.unwrap order_data = Ok order -> subscript order k = Ok x ->
  exists o, order = PDict o.
Proof.
  intros _ H. apply subscript_Ok in H. destruct H as (d & -> & _).
  exists d. reflexivity.
Qed.

Lemma build_inv (order_data : pydict) (dir : OrderApi.instruments) (msg : pydict) :
  OrderApi.build_order_message_data order_data dir = Ok msg ->
  Spec.built order_data dir msg.
Proof.
  unfold OrderApi.build_order_message_data. intros H.
  peel H as order Hunwrap. peel H as ls Hls. peel H as items Hitems. peel H as legs Hlegs.
  destruct (unwrap_dict _ _ _ _ Hunwrap Hls) as [o ->].
  cbn [get_attr bind] in H.
  peel H as tif Htif. peel H as stif Hstif. peel H as fee Hfee.
  peel H as sub_v Hsubv. peel H as sub Hsub.
  peel H as sig Hsig. peel H as nonce Hnonce. peel H as sig' Hsig'. peel H as expiration Hexp.
  injection H as <-.
  destruct (time_in_force_table tif) as (st & Hst & Hval).
  rewrite Hst in Hstif. injection Hstif as <-.
  rewrite Hsig in Hsig'. injection Hsig' as <-.
  apply (Spec.Built _ _ _ o items legs tif fee sub nonce expiration).
  - exact Hunwrap.
  - rewrite Hls. exact Hitems.
  - exact Hlegs.
  - exact Htif.
  - exact Hfee.
  - rewrite Hsubv. exact Hsub.
  - unfold Spec.at2. rewrite Hsig. exact Hnonce.
  - unfold Spec.at2. rewrite Hsig. exact Hexp.
  - rewrite Hval. reflexivity.
Qed.

Lemma build_intro (order_data : pydict) (dir : OrderApi.instruments) (msg : pydict) :
  Spec.built order_data dir msg ->
  OrderApi.build_order_message_data order_data dir = Ok msg.
Proof.
  intros [o items legs tif fee sub nonce expiration
          Hunwrap Hitems Hlegs Htif Hfee Hsub Hnonce Hexp ->].
  unfold OrderApi.build_order_message_data.
  rewrite Hunwrap. cbn [bind].
  peel Hitems as ls Hls. rewrite Hls. cbn [bind]. rewrite Hitems. cbn [bind].
  rewrite Hlegs. cbn [bind get_attr]. rewrite Htif. cbn [bind].
  destruct (time_in_force_table tif) as (st & Hst & Hval).
  rewrite Hst. cbn [bind]. rewrite Hfee. cbn [bind].
  peel Hsub as sub_v Hsubv. rewrite Hsubv. cbn [bind]. rewrite Hsub. cbn [bind].
  unfold Spec.at2 in Hnonce, Hexp.
  peel Hnonce as sig Hsig. rewrite Hsig in Hexp |- *. cbn [bind] in Hexp |- *.
  rewrite Hnonce. cbn [bind]. rewrite Hexp. cbn [bind].
  rewrite Hval. reflexivity.
Qed.

(** A failure of the builder is the failure of the signer. *)
Lemma sign_order_Raise (lib : Eth.library) (order_data : pydict)
    (dir : OrderApi.instruments) (key : string) (env : OrderApi.GrvtEnv) (e : exn) :
  OrderApi.build_order_message_data order_data dir = Raise e ->
  OrderApi.sign_order lib order_data dir key env = Raise e.
Proof. intros H. unfold OrderApi.sign_order. rewrite H. reflexivity. Qed.

(** *** Decimal digits and the coefficient *)

Lemma is_digit_val (c : ascii) : is_digit c = true -> 0 <= digit_val c <= 9.
Proof.
  unfold is_digit, digit_val. intros H.
  apply andb_true_iff in H. destruct H as [H1 H2].
  apply N.leb_le in H1. apply N.leb_le in H2. lia.
Qed.

Lemma fold_digits_nonneg (l : list ascii) (acc : Z) :
  0 <= acc -> forallb is_digit l = true ->
  0 <= fold_left (fun a c => 10 * a + digit_val c) l acc.
Proof.
  revert acc. induction l as [|c l IH]; cbn [fold_left forallb]; intros acc Hacc Hl.
  - exact Hacc.
  - apply andb_true_iff in Hl. destruct Hl as [Hc Hl].
    apply IH; [|exact Hl]. pose proof (is_digit_val c Hc). lia.
Qed.

Lemma digits_val_nonneg (l : list ascii) :
  forallb is_digit l = true -> 0 <= digits_val l.
Proof. intros H. unfold digits_val. apply fold_digits_nonneg; [lia | exact H]. Qed.

Lemma take_while_all {A : Type} (p : A -> bool) (l : list A) :
  forallb p (take_while p l) = true.
Proof.
  induction l as [|x l IH]; simpl; [reflexivity|].
  destruct (p x) eqn:Hx; simpl; [rewrite Hx; exact IH | reflexivity].
Qed.

Lemma parse_special_not_finite (sign : bool) (l : list ascii) (s : bool) (c e : Z) :
  PyDecimal.parse_special sign l <> Ok (PyDecimal.DFinite s c e).
Proof.
  unfold PyDecimal.parse_special.
  destruct (_ || _); [discriminate|].
  repeat (match goal with
          | |- context [match ?x with _ => _ end] => destruct x
          end; try discriminate).
Qed.

Lemma split_fraction_digits (l : list ascii) :
  forallb is_digit (fst (split_fraction l)) = true.
Proof.
  destruct l as [|a r]; [reflexivity|].
  destruct a as [[] [] [] [] [] [] [] []]; try reflexivity.
  apply take_while_all.
Qed.

Lemma of_str_coeff_nonneg (d : string) (s : bool) (c e : Z) :
  PyDecimal.of_str d = Ok (PyDecimal.DFinite s c e) -> 0 <= c.
Proof.
  unfold PyDecimal.of_str.
  destruct (split_sign _) as [sign body].
  pose proof (split_fraction_digits (drop_while is_digit body)) as Hf.
  destruct (split_fraction _) as [fracpart rest]. cbn [fst] in Hf.
  assert (Hd : forallb is_digit (take_while is_digit body ++ fracpart) = true).
  { rewrite forallb_app, take_while_all. exact Hf. }
  destruct (take_while is_digit body ++ fracpart)%list eqn:Happ.
  - intros H. exfalso. exact (parse_special_not_finite _ _ _ _ _ H).
  - destruct (parse_exponent rest); [|discriminate].
    intros H. injection H as _ Hc _. subst c.
    apply digits_val_nonneg. exact Hd.
Qed.

Lemma ndigits_fuel_pos (fuel : nat) (n : Z) : 1 <= PyDecimal.ndigits_fuel fuel n.
Proof.
  revert n. induction fuel as [|fuel IH]; intros n; cbn [PyDecimal.ndigits_fuel].
  - lia.
  - destruct (n <? 10); [lia | specialize (IH (n / 10)); lia].
Qed.

Lemma ndigits_fuel_le (fuel : nat) (n p : Z) :
  1 <= p -> n < 10 ^ p -> PyDecimal.ndigits_fuel fuel n <= p.
Proof.
  revert n p. induction fuel as [|fuel IH]; intros n p Hp Hn;
    cbn [PyDecimal.ndigits_fuel].
  - exact Hp.
  - destruct (Z.ltb_spec n 10) as [Hlt|Hge]; [exact Hp|].
    assert (Hp2 : 2 <= p).
    { destruct (Z.eq_dec p 1) as [->|]; [|lia]. change (10 ^ 1) with 10 in Hn. lia. }
    assert (Hpow : 10 ^ p = 10 * 10 ^ (p - 1)).
    { replace p with (Z.succ (p - 1)) at 1 by lia. apply Z.pow_succ_r. lia. }
    assert (n / 10 < 10 ^ (p - 1)).
    { apply Z.div_lt_upper_bound; lia. }
    specialize (IH (n / 10) (p - 1)). lia.
Qed.

Lemma ndigits_bounds (n : Z) :
  n < 10 ^ PyDecimal.prec -> 1 <= PyDecimal.ndigits n <= PyDecimal.prec.
Proof.
  intros H. unfold PyDecimal.ndigits. split.
  - apply ndigits_fuel_pos.
  - apply ndigits_fuel_le; [unfold PyDecimal.prec; lia | exact H].
Qed.

(** A product that fits the precision and the exponent range is kept as
    it is: no rounding takes place. *)
Lemma fix_finite_exact (s : bool) (c e : Z) :
  0 < c -> c < 10 ^ PyDecimal.prec ->
  PyDecimal.Etiny <= e <= PyDecimal.Etop ->
  PyDecimal.fix_finite s c e = Ok (PyDecimal.DFinite s c e).
Proof.
  intros Hc Hlt He. unfold PyDecimal.fix_finite.
  pose proof (ndigits_bounds c Hlt) as Hd.
  destruct (Z.eqb_spec c 0) as [->|_]; [lia|].
  destruct (Z.gtb_spec (PyDecimal.ndigits c + e - PyDecimal.prec) PyDecimal.Etop)
    as [Hgt|_]; [lia|].
  destruct (Z.ltb_spec e
    (Z.max (PyDecimal.ndigits c + e - PyDecimal.prec) PyDecimal.Etiny)) as [Hr|_];
    [lia | reflexivity].
Qed.

Lemma fix_finite_zero (s : bool) (e : Z) :
  exists e', PyDecimal.fix_finite s 0 e = Ok (PyDecimal.DFinite s 0 e').
Proof. unfold PyDecimal.fix_finite. simpl. eexists. reflexivity. Qed.

(** *** Truncation of a rational *)

Lemma Qtrunc_comp (q r : Q) : (q == r)%Q -> Spec.Qtrunc q = Spec.Qtrunc r.
Proof.
  intros H. unfold Spec.Qtrunc.
  rewrite (Qfloor_comp _ _ H), (Qceiling_comp _ _ H).
  assert (Hb : Qle_bool 0 q = Qle_bool 0 r).
  { apply eq_true_iff_eq. rewrite !Qle_bool_iff. rewrite H. reflexivity. }
  rewrite Hb. reflexivity.
Qed.

Lemma Qtrunc_ratio (a b : Z) :
  0 <= a -> 0 < b -> Spec.Qtrunc (inject_Z a / inject_Z b) = a / b.
Proof.
  intros Ha Hb. unfold Spec.Qtrunc.
  assert (H0 : (0 <= inject_Z a / inject_Z b)%Q).
  { apply Qle_shift_div_l.
    - change 0%Q with (inject_Z 0). rewrite <- Zlt_Qlt. exact Hb.
    - rewrite Qmult_0_l. change 0%Q with (inject_Z 0). rewrite <- Zle_Qle. exact Ha. }
  apply Qle_bool_iff in H0. rewrite H0.
  symmetry. apply Zdiv_Qdiv.
Qed.

Lemma Qtrunc_opp_ratio (a b : Z) :
  0 <= a -> 0 < b -> Spec.Qtrunc (- (inject_Z a / inject_Z b)) = - (a / b).
Proof.
  intros Ha Hb.
  assert (Hq : (0 <= inject_Z a / inject_Z b)%Q).
  { apply Qle_shift_div_l.
    - change 0%Q with (inject_Z 0). rewrite <- Zlt_Qlt. exact Hb.
    - rewrite Qmult_0_l. change 0%Q with (inject_Z 0). rewrite <- Zle_Qle. exact Ha. }
  unfold Spec.Qtrunc.
  destruct (Qle_bool 0 (- (inject_Z a / inject_Z b))) eqn:Hs.
  - apply Qle_bool_iff in Hs.
    assert (Hz : (inject_Z a / inject_Z b == 0)%Q).
    { apply Qle_antisym; [|exact Hq].
      apply Qopp_le_compat in Hs. rewrite Qopp_involutive in Hs. exact Hs. }
    assert (Hz' : (- (inject_Z a / inject_Z b) == 0)%Q) by (rewrite Hz; reflexivity).
    rewrite (Qfloor_comp _ _ Hz'). rewrite (Zdiv_Qdiv a b).
    rewrite (Qfloor_comp _ _ Hz). reflexivity.
  - unfold Qceiling.
    assert (Hz : (- - (inject_Z a / inject_Z b) == inject_Z a / inject_Z b)%Q)
      by apply Qopp_involutive.
    rewrite (Qfloor_comp _ _ Hz). rewrite <- Zdiv_Qdiv. reflexivity.
Qed.

(** The value of a decimal times an integer, as one fraction. *)
Lemma dec_value_scaled (c e k : Z) :
  ((inject_Z c * inject_Z 10 ^ e) * inject_Z k ==
   if 0 <=? e then inject_Z (c * k * 10 ^ e) / inject_Z 1
   else inject_Z (c * k) / inject_Z (10 ^ (- e)))%Q.
Proof.
  destruct (Z.leb_spec 0 e) as [He|He].
  - rewrite <- (Zpower_Qpower 10 e He). rewrite !inject_Z_mult. field.
  - replace e with (- (- e))%Z at 1 by lia.
    rewrite Qpower_opp. rewrite <- (Zpower_Qpower 10 (- e)) by lia.
    rewrite inject_Z_mult. field.
    change 0%Q with (inject_Z 0). rewrite inject_Z_injective.
    assert (0 < 10 ^ (- e)) by (apply Z.pow_pos_nonneg; lia). lia.
Qed.

Lemma to_int_truncates (s : bool) (c e k : Z) :
  0 <= c -> 0 < k ->
  PyDecimal.to_int (PyDecimal.DFinite s (c * k) e) =
  Ok (Spec.Qtrunc (Spec.dec_value s c e * inject_Z k)).
Proof.
  intros Hc Hk. unfold PyDecimal.to_int, Spec.dec_value. f_equal.
  assert (Hpow : 0 < 10 ^ (- e) \/ e >= 0).
  { destruct (Z.leb_spec 0 e); [right; lia | left; apply Z.pow_pos_nonneg; lia]. }
  destruct s.
  - assert (Hq : (- (inject_Z c * inject_Z 10 ^ e) * inject_Z k ==
                  - ((inject_Z c * inject_Z 10 ^ e) * inject_Z k))%Q) by ring.
    rewrite (Qtrunc_comp _ _ Hq).
    assert (Hv := dec_value_scaled c e k).
    assert (Hv' : (- (inject_Z c * inject_Z 10 ^ e * inject_Z k) ==
                   - (if 0 <=? e then inject_Z (c * k * 10 ^ e) / inject_Z 1
                      else inject_Z (c * k) / inject_Z (10 ^ (- e))))%Q)
      by (rewrite Hv; reflexivity).
    rewrite (Qtrunc_comp _ _ Hv').
    destruct (Z.leb_spec 0 e) as [He|He].
    + rewrite Qtrunc_opp_ratio; [rewrite Z.div_1_r; reflexivity | | lia].
      assert (0 <= 10 ^ e) by (apply Z.pow_nonneg; lia). nia.
    + rewrite Qtrunc_opp_ratio; [reflexivity | nia | lia].
  - rewrite (Qtrunc_comp _ _ (dec_value_scaled c e k)).
    destruct (Z.leb_spec 0 e) as [He|He].
    + rewrite Qtrunc_ratio; [rewrite Z.div_1_r; reflexivity | | lia].
      assert (0 <= 10 ^ e) by (apply Z.pow_nonneg; lia). nia.
    + rewrite Qtrunc_ratio; [reflexivity | nia | lia].
Qed.

Lemma to_int_zero (s : bool) (e : Z) :
  PyDecimal.to_int (PyDecimal.DFinite s 0 e) = Ok 0.
Proof.
  unfold PyDecimal.to_int. rewrite Z.mul_0_l, Zdiv_0_l.
  destruct (0 <=? e), s; reflexivity.
Qed.

(** Scaling a finite decimal by a positive integer, when the product
    needs no rounding. *)
Lemma scale_finite (v : pyval) (k : Z) (s : bool) (c e : Z) :
  PyDecimal.Decimal v = Ok (PyDecimal.DFinite s c e) ->
  0 <= c -> 0 < k -> c * k < 10 ^ PyDecimal.prec ->
  PyDecimal.Etiny <= e <= PyDecimal.Etop ->
  PyDecimal.scale v k = PyDecimal.to_int (PyDecimal.DFinite s (c * k) e).
Proof.
  intros Hd Hc Hk Hlt He. unfold PyDecimal.scale. rewrite Hd. cbn [bind].
  unfold PyDecimal.mul, PyDecimal.of_int.
  assert (Hneg : (k <? 0) = false) by (apply Z.ltb_ge; lia).
  rewrite Hneg, xorb_false_r, Z.add_0_r, (Z.abs_eq k) by lia.
  destruct (Z.eq_dec c 0) as [->|Hnz].
  - destruct (fix_finite_zero s e) as [e' He'].
    rewrite Z.mul_0_l, He'. cbn [bind]. rewrite !to_int_zero. reflexivity.
  - rewrite fix_finite_exact; [reflexivity | nia | exact Hlt | exact He].
Qed.

(** C1, as the code has it.  For every decimal string [d] that denotes a
    finite value [(-1)^s * c * 10^e] with an exponent inside the context's
    range, and every positive integer factor [k] with [c * k] below
    [10^28], the scaling of the order builder, [int(Decimal(d) *
    Decimal(k))], is the exact product [d * k] truncated toward zero. *)
Theorem scale_truncates_exact_product (d : string) (k : Z) (s : bool) (c e : Z) :
  PyDecimal.of_str d = Ok (PyDecimal.DFinite s c e) ->
  0 < k ->
  c * k < 10 ^ 28 ->
  PyDecimal.Etiny <= e <= PyDecimal.Etop ->
  PyDecimal.scale (PStr d) k =
  Ok (Spec.Qtrunc (Spec.dec_value s c e * inject_Z k)).
Proof.
  intros Hd Hk Hlt He.
  pose proof (of_str_coeff_nonneg d s c e Hd) as Hc.
  rewrite (scale_finite (PStr d) k s c e Hd Hc Hk Hlt He).
  apply to_int_truncates; assumption.
Qed.

Lemma scale_truncates_exact_product_witness :
  PyDecimal.scale (PStr "0.1") 1000000000 =
  Ok (Spec.Qtrunc (Spec.dec_value false 1 (-1) * inject_Z 1000000000)).
Proof.
  apply (scale_truncates_exact_product "0.1" 1000000000 false 1 (-1)).
  - reflexivity.
  - lia.
  - reflexivity.
  - unfold PyDecimal.Etiny, PyDecimal.Etop, PyDecimal.Emin, PyDecimal.Emax,
      PyDecimal.prec. lia.
Defined.

(** C1 as stated fails.  ["0.00019"] scaled by 10,000 is 1.9 and the
    order path returns 1, which is not a nearest integer; a negative
    quantity yields a negative result; and the fee conversion of
    [authorize_builder] returns 2 for ["0.0003"], whose exact product
    is 3. *)
Lemma scale_not_nearest :
  PyDecimal.of_str "0.00019" = Ok (PyDecimal.DFinite false 19 (-5)) /\
  PyDecimal.scale (PStr "0.00019") 10000 = Ok 1 /\
  ~ Spec.nearest_integer (Spec.dec_value false 19 (-5) * inject_Z 10000) 1 /\
  PyDecimal.scale (PStr "-1") 10000 = Ok (-10000) /\
  Authorize.fee_rate_uint32 "0.0003" = Ok 2 /\
  ~ Spec.nearest_integer (Spec.dec_value false 3 (-4) * inject_Z 10000) 2.
Proof.
  repeat split; try reflexivity.
  - intros H. vm_compute in H. apply H. reflexivity.
  - intros H. vm_compute in H. apply H. reflexivity.
Qed.

(** *** The builder authorization *)

Lemma authorize_builder_inv (lib : Eth.library) (env : Authorize.EnvConfig)
    (main builder user_key signer_key label permissions fut spot : string)
    (nonce : Z) (now : spec_float) (typed payload : pydict) :
  Authorize.authorize_builder lib env main builder user_key signer_key label
    permissions fut spot nonce now = Ok (typed, payload) ->
  exists acct mf ms expiration,
    Eth.from_key lib (Authorize._ensure_0x signer_key) = Ok acct /\
    Authorize.fee_rate_uint32 fut = Ok mf /\
    Authorize.fee_rate_uint32 spot = Ok ms /\
    Authorize.expiration_after_7_days now = Ok expiration /\
    typed =
      Authorize.build_eip712_payload (Authorize._ensure_0x main)
        (Authorize._ensure_0x builder)
        (Authorize._ensure_0x (Eth.address lib acct)) permissions
        mf ms nonce expiration (Authorize.chain_id env).
Proof.
  unfold Authorize.authorize_builder. intros H.
  peel H as acct Hacct. peel H as mf Hmf. peel H as ms Hms.
  peel H as expiration Hexp. peel H as vrs Hvrs.
  destruct vrs as [[v r] s]. injection H as <- _.
  exists acct, mf, ms, expiration. repeat split; assumption.
Qed.

Lemma build_eip712_payload_shape
    (main builder signer permissions : string) (mf ms nonce expiration chain : Z) :
  Spec.authorization_shape
    (Authorize.build_eip712_payload main builder signer permissions
       mf ms nonce expiration chain) chain.
Proof. repeat split. Qed.

(** C2.  With the fee rates ["0.001"] and ["0.0001"], the typed data
    [authorize_builder] signs carries [maxFutureFeeRate = 10] and
    [maxSpotFeeRate = 1], both within uint32; the order builder's
    conversion of the same strings under the 10,000 multiplier gives 10
    and 1 as well. *)
Theorem default_fee_rates_scale_to_10_and_1 (lib : Eth.library)
    (env : Authorize.EnvConfig)
    (main builder user_key signer_key label permissions : string)
    (nonce : Z) (now : spec_float) (typed payload : pydict) :
  Authorize.authorize_builder lib env main builder user_key signer_key label
    permissions "0.001" "0.0001" nonce now = Ok (typed, payload) ->
  Spec.at2 typed "message" "maxFutureFeeRate" = Ok (PInt 10) /\
  Spec.at2 typed "message" "maxSpotFeeRate" = Ok (PInt 1) /\
  10 <= Spec.uint32_max /\
  PyDecimal.scale (PStr "0.001") 10000 = Ok 10 /\
  PyDecimal.scale (PStr "0.0001") 10000 = Ok 1.
Proof.
  intros H.
  apply authorize_builder_inv in H.
  destruct H as (acct & mf & ms & expiration & _ & Hmf & Hms & _ & ->).
  assert (E1 : Authorize.fee_rate_uint32 "0.001" = Ok 10) by (vm_compute; reflexivity).
  assert (E2 : Authorize.fee_rate_uint32 "0.0001" = Ok 1) by (vm_compute; reflexivity).
  rewrite E1 in Hmf. rewrite E2 in Hms.
  injection Hmf as <-. injection Hms as <-.
  repeat split; try reflexivity.
  unfold Spec.uint32_max. lia.
Qed.

Lemma default_fee_rates_scale_to_10_and_1_witness :
  exists typed payload,
    Authorize.authorize_builder Fixtures.stub Fixtures.testnet
      "0x9cbe6e4ac0d5e3ea9c3c2c0c3d0a0b1f2e3d4c5b"
      "0x42c9f56f2c9da534f64b8806d64813b29c62a01d"
      "0xa11ce" "0xb0b" "builder-smoke-test" "Trade"
      "0.001" "0.0001" 828700936 Fixtures.clock = Ok (typed, payload) /\
    Spec.at2 typed "message" "maxFutureFeeRate" = Ok (PInt 10) /\
    Spec.at2 typed "message" "maxSpotFeeRate" = Ok (PInt 1).
Proof.
  eexists. eexists.
  assert (H : forall A B : Prop, A -> (A -> B) -> A /\ B) by (intros A B a f; exact (conj a (f a))).
  apply H.
  - vm_compute. reflexivity.
  - intros Hrun.
    destruct (default_fee_rates_scale_to_10_and_1 _ _ _ _ _ _ _ _ _ _ _ _ Hrun)
      as (H1 & H2 & _).
    split; [exact H1 | exact H2].
Defined.

(** C3.  Whatever its arguments, [build_eip712_payload] yields typed data
    of primary type [AddAccountSignerWithBuilder], with the message
    fields and the type strings in the fixed order, the domain
    ["GRVT Exchange"], version ["0"], and a [uint256] chain id equal to
    the one passed; [authorize_builder] passes the chain id of its
    environment. *)
Theorem authorization_payload_shape :
  (forall (main builder signer permissions : string)
          (mf ms nonce expiration chain : Z),
     Spec.authorization_shape
       (Authorize.build_eip712_payload main builder signer permissions
          mf ms nonce expiration chain) chain) /\
  (forall (lib : Eth.library) (env : Authorize.EnvConfig)
          (main builder user_key signer_key label permissions fut spot : string)
          (nonce : Z) (now : spec_float) (typed payload : pydict),
     Authorize.authorize_builder lib env main builder user_key signer_key label
       permissions fut spot nonce now = Ok (typed, payload) ->
     Spec.authorization_shape typed (Authorize.chain_id env)).
Proof.
  split.
  - intros. apply build_eip712_payload_shape.
  - intros lib env main builder user_key signer_key label permissions fut spot
      nonce now typed payload H.
    apply authorize_builder_inv in H.
    destruct H as (acct & mf & ms & expiration & _ & _ & _ & _ & ->).
    apply build_eip712_payload_shape.
Qed.

Lemma authorization_payload_shape_witness :
  exists typed payload,
    Authorize.authorize_builder Fixtures.stub Fixtures.testnet
      "0x9cbe6e4ac0d5e3ea9c3c2c0c3d0a0b1f2e3d4c5b"
      "0x42c9f56f2c9da534f64b8806d64813b29c62a01d"
      "0xa11ce" "0xb0b" "builder-smoke-test" "Trade"
      "0.002" "0.0005" 7 Fixtures.clock = Ok (typed, payload) /\
    Spec.authorization_shape typed 326.
Proof.
  eexists. eexists.
  assert (H : forall A B : Prop, A -> (A -> B) -> A /\ B) by (intros A B a f; exact (conj a (f a))).
  apply H.
  - vm_compute. reflexivity.
  - intros Hrun.
    exact (proj2 authorization_payload_shape _ _ _ _ _ _ _ _ _ _ _ _ _ _ Hrun).
Defined.

(** *** The order message *)

Lemma mapM_Forall {A B : Type} (f : A -> result B) (P : B -> Prop)
    (xs : list A) (ys : list B) :
  (forall x y, f x = Ok y -> P y) -> mapM f xs = Ok ys -> Forall P ys.
Proof.
  intros HP. revert ys. induction xs as [|a xs IH]; intros ys H; cbn [mapM] in H.
  - injection H as <-. constructor.
  - peel H as y Hy. peel H as ys' Hys. injection H as <-.
    constructor; [exact (HP a y Hy) | exact (IH ys' Hys)].
Qed.

(** What one turn of the loop computes. *)
Lemma build_leg_inv (dir : OrderApi.instruments) (leg built_leg : pyval) :
  OrderApi.build_leg dir leg = Ok built_leg ->
  exists name instrument size price buying size_int price_int,
    subscript leg "instrument" = Ok name /\
    OrderApi.resolve dir name = Ok instrument /\
    subscript leg "size" = Ok size /\
    PyDecimal.scale size (10 ^ Z.of_N (OrderApi.base_decimals instrument)) = Ok size_int /\
    subscript leg "limit_price" = Ok price /\
    PyDecimal.scale price OrderApi.PRICE_MULTIPLIER = Ok price_int /\
    subscript leg "is_buying_asset" = Ok buying /\
    built_leg = PDict [("assetID", OrderApi.instrument_hash instrument);
                       ("contractSize", PInt size_int);
                       ("limitPrice", PInt price_int);
                       ("isBuyingContract", buying)].
Proof.
  unfold OrderApi.build_leg. intros H.
  peel H as name Hname. peel H as instrument Hinst. peel H as size Hsize.
  peel H as size_int Hsi. peel H as price Hprice. peel H as price_int Hpi.
  peel H as buying Hbuy. injection H as <-.
  exists name, instrument, size, price, buying, size_int, price_int.
  repeat split; assumption.
Qed.

Lemma build_leg_keys (dir : OrderApi.instruments) (leg built_leg : pyval) :
  OrderApi.build_leg dir leg = Ok built_leg ->
  Spec.keys_of built_leg = Some (map fst Spec.leg_fields).
Proof.
  intros H. apply build_leg_inv in H.
  destruct H as (? & ? & ? & ? & ? & ? & ? & _ & _ & _ & _ & _ & _ & _ & ->).
  reflexivity.
Qed.

(** C4.  The order schema has primary type [OrderWithBuilderFee] and the
    nested array type [OrderLeg[]]; the message
    [build_order_message_data] returns has the ten order-level fields
    and, in every leg, the four leg fields, each in the order of the
    schema. *)
Theorem order_payload_shape (order_data : pydict) (dir : OrderApi.instruments)
    (msg : pydict) :
  OrderApi.build_order_message_data order_data dir = Ok msg ->
  Eth.get_primary_type OrderApi.EIP712_ORDER_MESSAGE_TYPE = Ok "OrderWithBuilderFee" /\
  Spec.schema OrderApi.EIP712_ORDER_MESSAGE_TYPE "OrderWithBuilderFee" =
    Some Spec.order_fields /\
  Spec.schema OrderApi.EIP712_ORDER_MESSAGE_TYPE "OrderLeg" = Some Spec.leg_fields /\
  map fst Spec.order_fields =
    ["subAccountID"; "isMarket"; "timeInForce"; "postOnly"; "reduceOnly";
     "legs"; "builder"; "builderFee"; "nonce"; "expiration"] /\
  map fst Spec.leg_fields =
    ["assetID"; "contractSize"; "limitPrice"; "isBuyingContract"] /\
  Spec.order_shape msg.
Proof.
  intros H. apply build_inv in H.
  destruct H as [o items legs tif fee sub nonce expiration
                 _ _ Hlegs _ _ _ _ _ ->].
  repeat split.
  exists legs. split; [reflexivity|].
  apply (mapM_Forall (OrderApi.build_leg dir) _ items legs); [|exact Hlegs].
  intros x y Hxy. exact (build_leg_keys dir x y Hxy).
Qed.

Lemma order_payload_shape_witness :
  exists msg,
    OrderApi.build_order_message_data
      (Fixtures.full_order "IMMEDIATE_OR_CANCEL" (PStr "0.002")
         [Fixtures.leg_btc; Fixtures.leg_eth])
      Fixtures.directory = Ok msg /\
    Spec.order_shape msg.
Proof.
  eexists.
  assert (H : forall A B : Prop, A -> (A -> B) -> A /\ B)
    by (intros A B a f; exact (conj a (f a))).
  apply H.
  - vm_compute. reflexivity.
  - intros Hrun.
    exact (proj2 (proj2 (proj2 (proj2 (proj2
             (order_payload_shape _ _ _ Hrun)))))).
Defined.

Lemma conj_then (A B : Prop) : A -> (A -> B) -> A /\ B.
Proof. intros a f. exact (conj a (f a)). Qed.

(** C5.  Every member of the human-facing enum is found in the bridging
    table, at the signing integer of the enumerated mapping
    (1, 2, 3, 4), and that integer is what the message carries; a
    [time_in_force] string that is no member makes the builder raise:
    it never returns a message, and once the legs are built the
    exception is the [ValueError] of [TimeInForce(...)]. *)
Theorem time_in_force_bridging :
  (forall t,
     OrderApi.TimeInForce.of_value (PStr (OrderApi.TimeInForce.value t)) = Ok t /\
     exists st,
       OrderApi.table_get OrderApi.TimeInForce.eqb
         "TIME_IN_FORCE_TO_SIGN_TIME_IN_FORCE" t
         OrderApi.TIME_IN_FORCE_TO_SIGN_TIME_IN_FORCE = Ok st /\
       OrderApi.SignTimeInForce.value st = Spec.sign_value t) /\
  (Spec.sign_value OrderApi.TimeInForce.GOOD_TILL_TIME = 1 /\
   Spec.sign_value OrderApi.TimeInForce.ALL_OR_NONE = 2 /\
   Spec.sign_value OrderApi.TimeInForce.IMMEDIATE_OR_CANCEL = 3 /\
   Spec.sign_value OrderApi.TimeInForce.FILL_OR_KILL = 4) /\
  (forall order_data dir order t msg,
     OrderApi.unwrap order_data = Ok (PDict order) ->
     lookup "time_in_force" order = Some (PStr (OrderApi.TimeInForce.value t)) ->
     OrderApi.build_order_message_data order_data dir = Ok msg ->
     lookup "timeInForce" msg = Some (PInt (Spec.sign_value t))) /\
  (forall order_data dir order s,
     OrderApi.unwrap order_data = Ok (PDict order) ->
     lookup "time_in_force" order = Some (PStr s) ->
     (forall t, OrderApi.TimeInForce.value t <> s) ->
     (exists e, OrderApi.build_order_message_data order_data dir = Raise e) /\
     (forall items legs,
        x <- subscript (PDict order) "legs" ;; iterate x = Ok items ->
        mapM (OrderApi.build_leg dir) items = Ok legs ->
        OrderApi.build_order_message_data order_data dir =
        Raise (NotATimeInForce (PStr s)))).
Proof.
  split; [|split; [|split]].
  - intros t. split; [apply of_value_member | apply time_in_force_table].
  - repeat split.
  - intros order_data dir order t msg Hunwrap Htif H.
    apply build_inv in H.
    destruct H as [o items legs tif fee sub nonce expiration
                   Hu _ _ Ht _ _ _ _ ->].
    rewrite Hunwrap in Hu. injection Hu as <-.
    rewrite (get_present _ _ _ _ Htif), of_value_member in Ht.
    injection Ht as <-. reflexivity.
  - intros order_data dir order s Hunwrap Htif Hnot. split.
    + destruct (OrderApi.build_order_message_data order_data dir) as [msg|e] eqn:H.
      * exfalso. apply build_inv in H.
        destruct H as [o items legs tif fee sub nonce expiration
                       Hu _ _ Ht _ _ _ _ _].
        rewrite Hunwrap in Hu. injection Hu as <-.
        rewrite (get_present _ _ _ _ Htif) in Ht.
        apply of_value_Ok in Ht. injection Ht as Ht.
        exact (Hnot tif (eq_sym Ht)).
      * exists e. reflexivity.
    + intros items legs Hitems Hlegs.
      unfold OrderApi.build_order_message_data.
      rewrite Hunwrap. cbn [bind].
      peel Hitems as ls Hls. rewrite Hls. cbn [bind]. rewrite Hitems. cbn [bind].
      rewrite Hlegs. cbn [bind get_attr].
      rewrite (get_present _ _ _ _ Htif), (of_value_other s Hnot). reflexivity.
Qed.

Lemma time_in_force_bridging_witness :
  OrderApi.build_order_message_data
    (Fixtures.full_order "GOOD_TILL_CANCEL" (PStr "0.001") [Fixtures.leg_btc])
    Fixtures.directory = Raise (NotATimeInForce (PStr "GOOD_TILL_CANCEL")).
Proof.
  refine (proj2 (proj2 (proj2 (proj2 time_in_force_bridging))
            (Fixtures.full_order "GOOD_TILL_CANCEL" (PStr "0.001") [Fixtures.leg_btc])
            Fixtures.directory _ "GOOD_TILL_CANCEL" _ _ _)
          [Fixtures.leg_btc] _ _ _).
  - reflexivity.
  - reflexivity.
  - intros t. destruct t; discriminate.
  - reflexivity.
  - vm_compute. reflexivity.
Defined.

(** *** Unknown instruments *)

Lemma build_legs_Raise (order_data : pydict) (dir : OrderApi.instruments)
    (order : pydict) (items : list pyval) (e : exn) :
  OrderApi.unwrap order_data = Ok (PDict order) ->
  x <- subscript (PDict order) "legs" ;; iterate x = Ok items ->
  mapM (OrderApi.build_leg dir) items = Raise e ->
  OrderApi.build_order_message_data order_data dir = Raise e.
Proof.
  intros Hunwrap Hitems Hlegs. unfold OrderApi.build_order_message_data.
  rewrite Hunwrap. cbn [bind].
  peel Hitems as ls Hls. rewrite Hls. cbn [bind]. rewrite Hitems. cbn [bind].
  rewrite Hlegs. reflexivity.
Qed.

Lemma build_leg_unknown (dir : OrderApi.instruments) (leg : pyval) (name : string) :
  subscript leg "instrument" = Ok (PStr name) ->
  OrderApi.find_instrument name dir = None ->
  OrderApi.build_leg dir leg = Raise (InstrumentNotFound (PStr name)).
Proof.
  intros Hname Hfind. unfold OrderApi.build_leg. rewrite Hname. cbn [bind].
  unfold OrderApi.resolve. rewrite Hfind. reflexivity.
Qed.

(** C6.  An order with a leg whose instrument name is not in the
    directory is never signed: the builder raises and [sign_order]
    raises the same exception, whatever the library would do, so no
    signed order and no signature come back.  When the legs before it
    build, the exception is the one for the unknown instrument. *)
Theorem unknown_instrument_aborts (lib : Eth.library) (order_data : pydict)
    (dir : OrderApi.instruments) (key : string) (env : OrderApi.GrvtEnv)
    (order : pydict) (items : list pyval) (leg : pyval) (name : string) :
  OrderApi.unwrap order_data = Ok (PDict order) ->
  x <- subscript (PDict order) "legs" ;; iterate x = Ok items ->
  In leg items ->
  subscript leg "instrument" = Ok (PStr name) ->
  OrderApi.find_instrument name dir = None ->
  (exists e,
     OrderApi.build_order_message_data order_data dir = Raise e /\
     OrderApi.sign_order lib order_data dir key env = Raise e) /\
  (forall pre post built_legs,
     items = (pre ++ leg :: post)%list ->
     mapM (OrderApi.build_leg dir) pre = Ok built_legs ->
     OrderApi.build_order_message_data order_data dir =
       Raise (InstrumentNotFound (PStr name)) /\
     OrderApi.sign_order lib order_data dir key env =
       Raise (InstrumentNotFound (PStr name))).
Proof.
  intros Hunwrap Hitems Hin Hname Hfind.
  pose proof (build_leg_unknown dir leg name Hname Hfind) as Hleg.
  split.
  - destruct (mapM_In_Raise _ items leg _ Hin Hleg) as [e He].
    exists e. apply conj_then.
    + exact (build_legs_Raise _ _ _ _ _ Hunwrap Hitems He).
    + apply sign_order_Raise.
  - intros pre post built_legs -> Hpre. apply conj_then.
    + apply (build_legs_Raise _ _ _ _ _ Hunwrap Hitems).
      exact (mapM_app_Raise _ pre post leg built_legs _ Hpre Hleg).
    + apply sign_order_Raise.
Qed.

Lemma unknown_instrument_aborts_witness :
  OrderApi.sign_order Fixtures.stub
    (Fixtures.bare_order [Fixtures.leg_btc; Fixtures.leg_unknown])
    Fixtures.directory "0xa11ce" OrderApi.TESTNET =
  Raise (InstrumentNotFound (PStr "DOGE_USDT_Perp")).
Proof.
  refine (proj2 (proj2 (unknown_instrument_aborts Fixtures.stub
            (Fixtures.bare_order [Fixtures.leg_btc; Fixtures.leg_unknown])
            Fixtures.directory "0xa11ce" OrderApi.TESTNET
            (Fixtures.bare_order [Fixtures.leg_btc; Fixtures.leg_unknown])
            [Fixtures.leg_btc; Fixtures.leg_unknown] Fixtures.leg_unknown
            "DOGE_USDT_Perp" _ _ _ _ _)
          [Fixtures.leg_btc] [] _ _ _)).
  - reflexivity.
  - reflexivity.
  - right. left. reflexivity.
  - reflexivity.
  - reflexivity.
  - reflexivity.
  - vm_compute. reflexivity.
Defined.

(** *** No width check *)

Lemma Decimal_coeff_nonneg (v : pyval) (s : bool) (c e : Z) :
  PyDecimal.Decimal v = Ok (PyDecimal.DFinite s c e) -> 0 <= c.
Proof.
  destruct v as [| b | n | f | str | l | d]; cbn [PyDecimal.Decimal];
    try discriminate.
  - unfold PyDecimal.of_int. intros H. injection H as _ <- _. apply Z.abs_nonneg.
  - unfold PyDecimal.of_int. intros H. injection H as _ <- _. apply Z.abs_nonneg.
  - destruct f as [sz | si | | sf m ef]; unfold PyDecimal.of_float;
      try discriminate.
    + intros H. injection H as _ <- _. lia.
    + destruct (0 <=? ef); intros H; injection H as _ <- _.
      * change (0 <= Z.pos m * 2 ^ ef).
        apply Z.mul_nonneg_nonneg; [lia | apply Z.pow_nonneg; lia].
      * change (0 <= Z.pos m / 2 ^ Z.min (PyDecimal.trailing_zeros m) (- ef)
                     * 5 ^ (- ef - Z.min (PyDecimal.trailing_zeros m) (- ef))).
        apply Z.mul_nonneg_nonneg; [|apply Z.pow_nonneg; lia].
        apply Z_div_nonneg_nonneg; [lia | apply Z.pow_nonneg; lia].
  - apply of_str_coeff_nonneg.
Qed.

(** Scaling any finite decimal whose product needs no rounding. *)
Lemma scale_exact (v : pyval) (k : Z) (s : bool) (c e : Z) :
  PyDecimal.Decimal v = Ok (PyDecimal.DFinite s c e) ->
  0 < k -> c * k < 10 ^ 28 ->
  PyDecimal.Etiny <= e <= PyDecimal.Etop ->
  PyDecimal.scale v k = Ok (Spec.Qtrunc (Spec.dec_value s c e * inject_Z k)).
Proof.
  intros Hd Hk Hlt He.
  pose proof (Decimal_coeff_nonneg v s c e Hd) as Hc.
  rewrite (scale_finite v k s c e Hd Hc Hk Hlt He).
  apply to_int_truncates; assumption.
Qed.

(** **** Where the decimal arithmetic itself overflows *)

Lemma ndigits_fuel_lower (fuel : nat) (n : Z) :
  0 < n -> 10 ^ (PyDecimal.ndigits_fuel fuel n - 1) <= n.
Proof.
  revert n. induction fuel as [|fuel IH]; intros n Hn;
    cbn [PyDecimal.ndigits_fuel].
  - change (10 ^ (1 - 1)) with 1. lia.
  - destruct (Z.ltb_spec n 10) as [Hlt|Hge].
    + change (10 ^ (1 - 1)) with 1. lia.
    + assert (Hq : 0 < n / 10) by (apply Z.div_str_pos; lia).
      specialize (IH (n / 10) Hq).
      pose proof (ndigits_fuel_pos fuel (n / 10)) as Hpos.
      replace (1 + PyDecimal.ndigits_fuel fuel (n / 10) - 1)
        with (Z.succ (PyDecimal.ndigits_fuel fuel (n / 10) - 1)) by lia.
      rewrite Z.pow_succ_r by lia.
      pose proof (Z.mul_div_le n 10 ltac:(lia)). lia.
Qed.

Lemma ndigits_lower (n : Z) : 0 < n -> 10 ^ (PyDecimal.ndigits n - 1) <= n.
Proof. apply ndigits_fuel_lower. Qed.

(** [_fix] raises nothing but [Overflow], and only for a coefficient
    whose digits reach beyond [Emax]. *)
Lemma fix_finite_Raise (s : bool) (c e : Z) (x : exn) :
  PyDecimal.fix_finite s c e = Raise x ->
  x = DecimalOverflow /\ c <> 0 /\ PyDecimal.Emax < PyDecimal.ndigits c + e.
Proof.
  unfold PyDecimal.fix_finite.
  destruct (Z.eqb_spec c 0) as [|Hnz]; [discriminate|].
  destruct (Z.gtb_spec (PyDecimal.ndigits c + e - PyDecimal.prec) PyDecimal.Etop)
    as [Hgt|Hle].
  - intros H. injection H as <-. split; [reflexivity|]. split; [exact Hnz|].
    unfold PyDecimal.Etop, PyDecimal.prec in Hgt. lia.
  - set (exp_min := Z.max (PyDecimal.ndigits c + e - PyDecimal.prec) PyDecimal.Etiny).
    assert (Hexp : exp_min <= PyDecimal.Etop).
    { unfold exp_min, PyDecimal.Etiny, PyDecimal.Etop, PyDecimal.Emin,
        PyDecimal.Emax, PyDecimal.prec in *. lia. }
    destruct (e <? exp_min); [|discriminate].
    destruct (PyDecimal.ndigits c + e - exp_min <? 0).
    + set (up := _ || _). set (coeff := if up then _ else _).
      destruct (up && (PyDecimal.ndigits coeff >? PyDecimal.prec)).
      * destruct (Z.gtb_spec (exp_min + 1) PyDecimal.Etop) as [Hg|_];
          [|discriminate].
        intros H. injection H as <-. split; [reflexivity|]. split; [exact Hnz|].
        unfold exp_min, PyDecimal.Etiny, PyDecimal.Etop, PyDecimal.Emin,
          PyDecimal.Emax, PyDecimal.prec in *. lia.
      * destruct (Z.gtb_spec exp_min PyDecimal.Etop) as [Hg|_];
          [lia | discriminate].
    + set (up := _ || _). set (coeff := if up then _ else _).
      destruct (up && (PyDecimal.ndigits coeff >? PyDecimal.prec)).
      * destruct (Z.gtb_spec (exp_min + 1) PyDecimal.Etop) as [Hg|_];
          [|discriminate].
        intros H. injection H as <-. split; [reflexivity|]. split; [exact Hnz|].
        unfold exp_min, PyDecimal.Etiny, PyDecimal.Etop, PyDecimal.Emin,
          PyDecimal.Emax, PyDecimal.prec in *. lia.
      * destruct (Z.gtb_spec exp_min PyDecimal.Etop) as [Hg|_];
          [lia | discriminate].
Qed.

Lemma fix_finite_Ok (s : bool) (c e : Z) (d : PyDecimal.decimal) :
  PyDecimal.fix_finite s c e = Ok d -> exists c' e', d = PyDecimal.DFinite s c' e'.
Proof.
  unfold PyDecimal.fix_finite.
  destruct (c =? 0); [intros H; injection H as <-; eauto|].
  destruct (_ >? _); [discriminate|].
  destruct (e <? _); [|intros H; injection H as <-; eauto].
  destruct (_ <? 0);
    match goal with
    | |- context [if ?b then (?x, ?y) else (?u, ?w)] => destruct b
    end;
    (destruct (_ >? _); [discriminate | intros H; injection H as <-; eauto]).
Qed.

Lemma parse_special_Raise (sign : bool) (l : list ascii) (x : exn) :
  PyDecimal.parse_special sign l = Raise x -> x = InvalidOperation.
Proof.
  unfold PyDecimal.parse_special.
  destruct (_ || _); [discriminate|].
  repeat (match goal with
          | |- context [match ?y with _ => _ end] => destruct y
          end; try discriminate;
          try (intros H; injection H as <-; reflexivity)).
Qed.

(** The constructor raises neither [Overflow] nor [OverflowError]. *)
Lemma Decimal_Raise (v : pyval) (x : exn) :
  PyDecimal.Decimal v = Raise x ->
  x = InvalidOperation \/ x = ValueError \/ x = TypeError.
Proof.
  destruct v as [| b | n | f | str | l | d]; cbn [PyDecimal.Decimal];
    try discriminate;
    try (intros H; injection H as <-; tauto).
  unfold PyDecimal.of_str.
  destruct (split_sign _) as [sign body].
  destruct (split_fraction _) as [fracpart rest].
  destruct (take_while is_digit body ++ fracpart)%list.
  - intros H. left. exact (parse_special_Raise _ _ _ H).
  - destruct (parse_exponent rest); [discriminate|].
    intros H. injection H as <-. left. reflexivity.
Qed.

(** The magnitude of a coefficient whose digits reach beyond [Emax]. *)
Lemma beyond_Emax (n e : Z) :
  0 < n -> PyDecimal.Emax < PyDecimal.ndigits n + e ->
  (inject_Z 10 ^ PyDecimal.Emax <= Spec.dec_value false n e)%Q.
Proof.
  intros Hn Hd. unfold Spec.dec_value.
  pose proof (ndigits_lower n Hn) as Hlow.
  pose proof (ndigits_fuel_pos (Z.to_nat (Z.log2 n)) n) as Hpos.
  fold (PyDecimal.ndigits n) in Hpos.
  assert (H10 : ~ (inject_Z 10 == 0)%Q) by discriminate.
  apply Qle_trans with (inject_Z 10 ^ ((PyDecimal.ndigits n - 1) + e))%Q.
  - apply Qpower_le_compat_l; [lia | discriminate].
  - rewrite (Qpower_plus _ _ _ H10).
    apply Qmult_le_compat_r; [|apply Qpower_0_le; discriminate].
    rewrite <- (Zpower_Qpower 10 (PyDecimal.ndigits n - 1)) by lia.
    rewrite <- Zle_Qle. exact Hlow.
Qed.

Lemma scale_Raise (v : pyval) (k : Z) (x : exn) :
  0 < k -> PyDecimal.scale v k = Raise x ->
  PyDecimal.Decimal v = Raise x \/
  (x = DecimalOverflow /\
   exists s c e, PyDecimal.Decimal v = Ok (PyDecimal.DFinite s c e) /\
                 0 < c /\ PyDecimal.Emax < PyDecimal.ndigits (c * k) + e) \/
  (x = OverflowError /\ exists sg, PyDecimal.Decimal v = Ok (PyDecimal.DInf sg)) \/
  (x = ValueError /\ exists sg, PyDecimal.Decimal v = Ok (PyDecimal.DNaN sg)) \/
  (x = InvalidOperation /\ PyDecimal.Decimal v = Ok (PyDecimal.DNaN true)).
Proof.
  intros Hk. unfold PyDecimal.scale.
  destruct (PyDecimal.Decimal v) as [d|x'] eqn:Hd; cbn [bind];
    [|intros H; injection H as <-; left; reflexivity].
  unfold PyDecimal.of_int.
  assert (Hneg : (k <? 0) = false) by (apply Z.ltb_ge; lia).
  rewrite Hneg, (Z.abs_eq k) by lia.
  destruct d as [s c e | sg | [|]]; cbn [PyDecimal.mul].
  - rewrite xorb_false_r, Z.add_0_r.
    destruct (PyDecimal.fix_finite s (c * k) e) as [p|x'] eqn:Hfix; cbn [bind].
    + destruct (fix_finite_Ok _ _ _ _ Hfix) as (c' & e' & ->).
      cbn [PyDecimal.to_int]. discriminate.
    + intros H. injection H as <-.
      destruct (fix_finite_Raise _ _ _ _ Hfix) as (-> & Hnz & Hbeyond).
      right. left. split; [reflexivity|]. exists s, c, e.
      pose proof (Decimal_coeff_nonneg v s c e Hd) as Hc.
      split; [reflexivity|]. split; [nia | exact Hbeyond].
  - destruct (Z.eqb_spec k 0) as [->|_]; [lia|]. cbn [bind PyDecimal.to_int].
    intros H. injection H as <-. right. right. left.
    split; [reflexivity|]. exists sg. reflexivity.
  - cbn [bind]. intros H. injection H as <-. do 4 right.
    split; reflexivity.
  - cbn [bind PyDecimal.to_int]. intros H. injection H as <-.
    right. right. right. left. split; [reflexivity|]. exists false. reflexivity.
Qed.

(** A product whose digits reach beyond [Emax + 1] is refused, and so
    is an infinity. *)
Lemma scale_beyond_Emax (v : pyval) (k : Z) (s : bool) (c e : Z) :
  PyDecimal.Decimal v = Ok (PyDecimal.DFinite s c e) ->
  0 < c -> 0 < k ->
  PyDecimal.Emax + 1 < PyDecimal.ndigits (c * k) + e ->
  PyDecimal.scale v k = Raise DecimalOverflow.
Proof.
  intros Hd Hc Hk Hb. unfold PyDecimal.scale. rewrite Hd. cbn [bind].
  unfold PyDecimal.of_int.
  assert (Hneg : (k <? 0) = false) by (apply Z.ltb_ge; lia).
  rewrite Hneg, (Z.abs_eq k) by lia. cbn [PyDecimal.mul].
  rewrite xorb_false_r, Z.add_0_r. unfold PyDecimal.fix_finite.
  destruct (Z.eqb_spec (c * k) 0) as [H0|_]; [nia|].
  destruct (Z.gtb_spec (PyDecimal.ndigits (c * k) + e - PyDecimal.prec)
                       PyDecimal.Etop) as [_|Hle]; [reflexivity|].
  unfold PyDecimal.Etop, PyDecimal.prec in Hle. lia.
Qed.

Lemma scale_infinity (v : pyval) (k : Z) (sg : bool) :
  PyDecimal.Decimal v = Ok (PyDecimal.DInf sg) -> 0 < k ->
  PyDecimal.scale v k = Raise OverflowError.
Proof.
  intros Hd Hk. unfold PyDecimal.scale. rewrite Hd. cbn [bind].
  unfold PyDecimal.of_int. rewrite (Z.abs_eq k) by lia. cbn [PyDecimal.mul].
  destruct (Z.eqb_spec k 0) as [->|_]; [lia | reflexivity].
Qed.

(** **** The binary64 conversion of the fee rates *)

Lemma float_parse_special_Raise (sign : bool) (l : list ascii) (x : exn) :
  PyFloat.parse_special sign l = Raise x -> x = ValueError.
Proof.
  unfold PyFloat.parse_special.
  destruct (_ || _); [discriminate|].
  destruct (chars_eqb _ _); [discriminate|].
  intros H. injection H as <-. reflexivity.
Qed.

Lemma float_of_str_Raise (s : string) (x : exn) :
  PyFloat.of_str s = Raise x -> x = ValueError.
Proof.
  unfold PyFloat.of_str.
  destruct (ungroup false _) as [l|]; [|intros H; injection H as <-; reflexivity].
  destruct (split_sign l) as [sign body].
  destruct (split_fraction _) as [fracpart rest].
  destruct (take_while is_digit body ++ fracpart)%list.
  - apply float_parse_special_Raise.
  - destruct (parse_exponent rest); [discriminate|].
    intros H. injection H as <-. reflexivity.
Qed.

(** [int(float(fee) * 10_000)] raises [OverflowError] exactly when the
    binary64 product is an infinity. *)
Lemma fee_rate_overflow (fee : string) :
  Authorize.fee_rate_uint32 fee = Raise OverflowError <->
  exists f sg,
    PyFloat.of_str fee = Ok f /\
    PyFloat.mul f (PyFloat.of_int 10000) = S754_infinity sg.
Proof.
  unfold Authorize.fee_rate_uint32. split.
  - destruct (PyFloat.of_str fee) as [f|x] eqn:Hf; cbn [bind].
    + unfold PyFloat.to_int, int_of_float.
      destruct (PyFloat.mul f (PyFloat.of_int 10000)) as [sz|sg| |sf m e] eqn:Hm;
        try discriminate.
      intros _. exists f, sg. split; [reflexivity | exact Hm].
    + intros H. injection H as ->.
      pose proof (float_of_str_Raise _ _ Hf). discriminate.
  - intros (f & sg & -> & Hm). cbn [bind]. rewrite Hm. reflexivity.
Qed.

(** C7, as the code has it.  No scaling site checks a width.  On the
    [Decimal] path a finite quantity whose product with the positive
    factor [k] needs no rounding comes back as that product truncated
    toward zero, also when its magnitude is [2^width] or more, for any
    width; the builder fee and the contract size and limit price of a
    leg reach the message as [scale] returned them.  The path raises
    [decimal.Overflow] whenever the digits of the product reach beyond
    [Emax + 1] and only when they reach beyond [Emax], a magnitude of
    [10^Emax] at least, and [OverflowError] exactly for an infinity.
    The fee conversion of [authorize_builder] returns
    the truncated binary64 product whenever it is finite, raises
    [OverflowError] exactly when it is an infinity, and its results
    reach the typed data as they are. *)
Theorem scale_has_no_width_check :
  (forall (v : pyval) (s : bool) (c e k width : Z),
     PyDecimal.Decimal v = Ok (PyDecimal.DFinite s c e) ->
     0 < k -> c * k < 10 ^ 28 ->
     PyDecimal.Etiny <= e <= PyDecimal.Etop ->
     2 ^ width <= Z.abs (Spec.Qtrunc (Spec.dec_value s c e * inject_Z k)) ->
     PyDecimal.scale v k =
     Ok (Spec.Qtrunc (Spec.dec_value s c e * inject_Z k))) /\
  (forall (order_data : pydict) (dir : OrderApi.instruments) (msg : pydict),
     OrderApi.build_order_message_data order_data dir = Ok msg ->
     exists order fee,
       OrderApi.unwrap order_data = Ok (PDict order) /\
       PyDecimal.scale (get "builder_fee" (PStr "0.001") order) 10000 = Ok fee /\
       lookup "builderFee" msg = Some (PInt fee)) /\
  (forall (dir : OrderApi.instruments) (leg built_leg : pyval),
     OrderApi.build_leg dir leg = Ok built_leg ->
     exists name instrument size price size_int price_int,
       subscript leg "instrument" = Ok name /\
       OrderApi.resolve dir name = Ok instrument /\
       subscript leg "size" = Ok size /\
       PyDecimal.scale size (10 ^ Z.of_N (OrderApi.base_decimals instrument))
         = Ok size_int /\
       subscript leg "limit_price" = Ok price /\
       PyDecimal.scale price OrderApi.PRICE_MULTIPLIER = Ok price_int /\
       subscript built_leg "contractSize" = Ok (PInt size_int) /\
       subscript built_leg "limitPrice" = Ok (PInt price_int)) /\
  (forall (v : pyval) (k : Z),
     0 < k ->
     PyDecimal.scale v k = Raise DecimalOverflow ->
     exists s c e,
       PyDecimal.Decimal v = Ok (PyDecimal.DFinite s c e) /\
       0 < c /\
       PyDecimal.Emax < PyDecimal.ndigits (c * k) + e /\
       (inject_Z 10 ^ PyDecimal.Emax <= Spec.dec_value false (c * k) e)%Q) /\
  (forall (v : pyval) (k : Z) (s : bool) (c e : Z),
     PyDecimal.Decimal v = Ok (PyDecimal.DFinite s c e) ->
     0 < c -> 0 < k ->
     PyDecimal.Emax + 1 < PyDecimal.ndigits (c * k) + e ->
     PyDecimal.scale v k = Raise DecimalOverflow) /\
  (forall (v : pyval) (k : Z),
     0 < k ->
     (PyDecimal.scale v k = Raise OverflowError <->
      exists sg, PyDecimal.Decimal v = Ok (PyDecimal.DInf sg))) /\
  (forall (fee : string) (f : spec_float) (s : bool) (m : positive) (e : Z),
     PyFloat.of_str fee = Ok f ->
     PyFloat.mul f (PyFloat.of_int 10000) = S754_finite s m e ->
     Authorize.fee_rate_uint32 fee = int_of_float (S754_finite s m e) /\
     exists n, int_of_float (S754_finite s m e) = Ok n) /\
  (forall fee : string,
     Authorize.fee_rate_uint32 fee = Raise OverflowError <->
     exists f sg,
       PyFloat.of_str fee = Ok f /\
       PyFloat.mul f (PyFloat.of_int 10000) = S754_infinity sg) /\
  (forall (lib : Eth.library) (env : Authorize.EnvConfig)
          (main builder user_key signer_key label permissions fut spot : string)
          (nonce : Z) (now : spec_float) (typed payload : pydict),
     Authorize.authorize_builder lib env main builder user_key signer_key label
       permissions fut spot nonce now = Ok (typed, payload) ->
     exists mf ms,
       Authorize.fee_rate_uint32 fut = Ok mf /\
       Authorize.fee_rate_uint32 spot = Ok ms /\
       Spec.at2 typed "message" "maxFutureFeeRate" = Ok (PInt mf) /\
       Spec.at2 typed "message" "maxSpotFeeRate" = Ok (PInt ms)).
Proof.
  split; [|split; [|split; [|split; [|split; [|split; [|split; [|split]]]]]]].
  - intros v s c e k width Hd Hk Hlt He _. exact (scale_exact v k s c e Hd Hk Hlt He).
  - intros order_data dir msg H. apply build_inv in H.
    destruct H as [o items legs tif fee sub nonce expiration
                   Hu _ _ _ Hf _ _ _ ->].
    exists o, fee. split; [exact Hu|]. split; [exact Hf | reflexivity].
  - intros dir leg built_leg H.
    destruct (build_leg_inv dir leg built_leg H)
      as (name & inst & size & price & buying & si & pi & H1 & H2 & H3 & H4
          & H5 & H6 & _ & ->).
    exists name, inst, size, price, si, pi.
    repeat (split; [assumption|]). split; reflexivity.
  - intros v k Hk H.
    destruct (scale_Raise v k _ Hk H)
      as [Hd | [(_ & s & c & e & Hd & Hc & Hb) | [(Hx & _) | [(Hx & _) | (Hx & _)]]]];
      try discriminate Hx.
    + destruct (Decimal_Raise v _ Hd) as [Hx | [Hx | Hx]]; discriminate Hx.
    + exists s, c, e. split; [exact Hd|]. split; [exact Hc|].
      split; [exact Hb|]. apply beyond_Emax; [nia | exact Hb].
  - intros v k s c e Hd Hc Hk Hb. exact (scale_beyond_Emax v k s c e Hd Hc Hk Hb).
  - intros v k Hk. split.
    + intros H.
      destruct (scale_Raise v k _ Hk H)
        as [Hd | [(Hx & _) | [(_ & sg & Hd) | [(Hx & _) | (Hx & _)]]]];
        try discriminate Hx.
      * destruct (Decimal_Raise v _ Hd) as [Hx | [Hx | Hx]]; discriminate Hx.
      * exists sg. exact Hd.
    + intros (sg & Hd). exact (scale_infinity v k sg Hd Hk).
  - intros fee f s m e Hf Hm. unfold Authorize.fee_rate_uint32.
    rewrite Hf. cbn [bind]. rewrite Hm. split; [reflexivity|].
    cbn [int_of_float]. eexists. reflexivity.
  - exact fee_rate_overflow.
  - intros lib env main builder user_key signer_key label permissions fut spot
      nonce now typed payload H.
    destruct (authorize_builder_inv _ _ _ _ _ _ _ _ _ _ _ _ _ _ H)
      as (acct & mf & ms & expiration & _ & Hmf & Hms & _ & ->).
    exists mf, ms. repeat split; assumption.
Qed.

Lemma scale_has_no_width_check_witness :
  PyDecimal.scale (PStr "429496.7296") 10000 = Ok (2 ^ 32) /\
  (exists msg,
     OrderApi.build_order_message_data Fixtures.oversized_order Fixtures.directory
       = Ok msg /\
     lookup "builderFee" msg = Some (PInt (500000 * 10000))) /\
  PyDecimal.scale (PStr "1e999999") 10000 = Raise DecimalOverflow.
Proof.
  split; [|split].
  - refine (proj1 scale_has_no_width_check (PStr "429496.7296")
              false 4294967296 (-4) 10000 32 _ _ _ _ _).
    + reflexivity.
    + lia.
    + reflexivity.
    + unfold PyDecimal.Etiny, PyDecimal.Etop, PyDecimal.Emin, PyDecimal.Emax,
        PyDecimal.prec. lia.
    + vm_compute. discriminate.
  - eexists. apply conj_then.
    + vm_compute. reflexivity.
    + intros Hrun.
      destruct (proj1 (proj2 scale_has_no_width_check) _ _ _ Hrun)
        as (order & fee & Hu & Hf & Hm).
      injection Hu as <-. vm_compute in Hf. injection Hf as <-. exact Hm.
  - refine (proj1 (proj2 (proj2 (proj2 (proj2 scale_has_no_width_check))))
              (PStr "1e999999") 10000 false 1 999999 _ _ _ _).
    + reflexivity.
    + lia.
    + lia.
    + vm_compute. reflexivity.
Defined.

(** C7 as stated fails.  A builder fee of ["500000"] scales to
    5,000,000,000, above uint32, and a size of ["100000000000"] at nine
    decimals to 10^20, above uint64; both are returned in the message,
    and the fee conversion of [authorize_builder] returns the former
    too. *)
Lemma scaled_value_exceeds_width :
  OrderApi.build_order_message_data Fixtures.oversized_order Fixtures.directory =
  Ok [("subAccountID", PInt 8289849667772468);
      ("isMarket", PBool false);
      ("timeInForce", PInt 1);
      ("postOnly", PBool false);
      ("reduceOnly", PBool false);
      ("legs", PList [PDict [("assetID", PStr "0x030501");
                             ("contractSize", PInt 100000000000000000000);
                             ("limitPrice", PInt 65000000000000);
                             ("isBuyingContract", PBool true)]]);
      ("builder", PStr "0x42c9f56f2c9da534f64b8806d64813b29c62a01d");
      ("builderFee", PInt 5000000000);
      ("nonce", PInt 828700936);
      ("expiration", PStr "1730800796000000000")] /\
  Spec.uint32_max < 5000000000 /\
  Spec.uint64_max < 100000000000000000000 /\
  Authorize.fee_rate_uint32 "500000" = Ok 5000000000.
Proof. repeat split. Qed.

(** Where the arithmetic overflows, an error is raised: the product of
    ["1e999999"] and 10,000 is beyond the exponent range of the context,
    and the binary64 nearest to ["1e400"] is an infinity. *)
Lemma arithmetic_overflow_is_raised :
  PyDecimal.scale (PStr "1e999999") 10000 = Raise DecimalOverflow /\
  PyDecimal.scale (PStr "Infinity") 10000 = Raise OverflowError /\
  Authorize.fee_rate_uint32 "1e400" = Raise OverflowError.
Proof. repeat split; vm_compute; reflexivity. Qed.

(** *** The order of the legs *)

Lemma at2_set_other (k k1 k2 : string) (v : pyval) (d : pydict) :
  k1 <> k -> Spec.at2 (set k v d) k1 k2 = Spec.at2 d k1 k2.
Proof.
  intros H. unfold Spec.at2. cbn [subscript].
  rewrite (lookup_set_other k1 k v d H). reflexivity.
Qed.

Lemma order_message_set_legs (v : pyval) (o : pydict) (sub tif : Z)
    (legs : list pyval) (fee : Z) (nonce expiration : pyval) :
  Spec.order_message (set "legs" v o) sub tif legs fee nonce expiration =
  Spec.order_message o sub tif legs fee nonce expiration.
Proof.
  unfold Spec.order_message.
  rewrite !(get_set_other _ "legs") by discriminate. reflexivity.
Qed.

(** Signing depends on the order through the message and the
    replay-prevention fields only. *)
Lemma signature_of_set_legs (lib : Eth.library) (od1 od2 : pydict)
    (dir : OrderApi.instruments) (key : string) (env : OrderApi.GrvtEnv)
    (o1 : pydict) (v : pyval) (msg : pydict) :
  OrderApi.unwrap od1 = Ok (PDict o1) ->
  OrderApi.unwrap od2 = Ok (PDict (set "legs" v o1)) ->
  OrderApi.build_order_message_data od1 dir = Ok msg ->
  OrderApi.build_order_message_data od2 dir = Ok msg ->
  Spec.signature_of (OrderApi.sign_order lib od1 dir key env) =
  Spec.signature_of (OrderApi.sign_order lib od2 dir key env).
Proof.
  intros Hu1 Hu2 Hb1 Hb2. unfold OrderApi.sign_order.
  rewrite Hb1, Hb2, Hu1, Hu2. cbn [bind copy].
  destruct (OrderApi.get_eip712_domain_data env) as [domain|]; [|reflexivity].
  cbn [bind].
  destruct (Eth.encode_typed_data lib domain _ msg) as [sm|]; [|reflexivity].
  cbn [bind].
  destruct (Eth.from_key lib _) as [acct|]; [|reflexivity]. cbn [bind].
  destruct (Eth.sign_message lib acct sm) as [sg|]; [|reflexivity]. cbn [bind].
  destruct (to_bytes32_hex (Eth.sig_r sg)) as [r|]; [|reflexivity]. cbn [bind].
  destruct (to_bytes32_hex (Eth.sig_s sg)) as [s|]; [|reflexivity]. cbn [bind].
  cbn [subscript lookup String.eqb Ascii.eqb Bool.eqb bind].
  rewrite (lookup_set_other "signature" "legs" v o1) by discriminate.
  destruct (lookup "signature" o1) as [old|]; [|reflexivity]. cbn [bind].
  destruct (subscript old "expiration") as [expiration|]; [|reflexivity].
  cbn [bind].
  destruct (subscript old "nonce") as [nonce|]; [|reflexivity]. cbn [bind].
  unfold Spec.signature_of, Spec.at2. cbn [bind subscript lookup String.eqb Ascii.eqb Bool.eqb].
  rewrite !lookup_set_same. reflexivity.
Qed.

Lemma copy_Ok (v : pyval) (d : pydict) : copy v = Ok d -> v = PDict d.
Proof. destruct v; try discriminate. intros H. injection H as ->. reflexivity. Qed.

(** What a successful run of [sign_order] went through, and what it
    returns. *)
Lemma sign_order_inv (lib : Eth.library) (order_data : pydict)
    (dir : OrderApi.instruments) (key : string) (env : OrderApi.GrvtEnv)
    (out : pydict) :
  OrderApi.sign_order lib order_data dir key env = Ok out ->
  exists order old expiration nonce msg domain sm acct sg r s,
    OrderApi.unwrap order_data = Ok (PDict order) /\
    lookup "signature" order = Some old /\
    subscript old "expiration" = Ok expiration /\
    subscript old "nonce" = Ok nonce /\
    OrderApi.build_order_message_data order_data dir = Ok msg /\
    OrderApi.get_eip712_domain_data env = Ok domain /\
    Eth.encode_typed_data lib domain OrderApi.EIP712_ORDER_MESSAGE_TYPE msg = Ok sm /\
    Eth.from_key lib (if startswith "0x" key then drop 2 key else key) = Ok acct /\
    Eth.sign_message lib acct sm = Ok sg /\
    to_bytes32_hex (Eth.sig_r sg) = Ok r /\
    to_bytes32_hex (Eth.sig_s sg) = Ok s /\
    out = [("order",
            PDict (set "signature"
                     (PDict [("r", PStr ("0x" ++ r));
                             ("s", PStr ("0x" ++ s));
                             ("v", PInt (Eth.sig_v sg));
                             ("expiration", expiration);
                             ("nonce", nonce);
                             ("signer", PStr (Eth.address lib acct))])
                     order))].
Proof.
  unfold OrderApi.sign_order. cbv zeta. intros H.
  peel H as msg Hmsg. peel H as domain Hdomain. peel H as sm Hsm.
  peel H as acct Hacct. peel H as sg Hsg. peel H as r Hr. peel H as s Hs.
  peel H as order Hunwrap. peel H as o Hcopy.
  apply copy_Ok in Hcopy. subst order.
  cbn [bind subscript lookup String.eqb Ascii.eqb Bool.eqb] in H.
  destruct (lookup "signature" o) as [old|] eqn:Hold; [|discriminate H].
  cbn [bind] in H.
  peel H as expiration Hexp. peel H as nonce Hnonce.
  injection H as <-.
  exists o, old, expiration, nonce, msg, domain, sm, acct, sg, r, s.
  repeat (split; [assumption || reflexivity|]). reflexivity.
Qed.

(** **** The hexadecimal text of a 32-byte number *)

Lemma hex_val_hex_char (d : Z) :
  0 <= d < 16 -> Spec.hex_val (hex_char d) = Some d.
Proof.
  intros H.
  assert (Hd : d = 0 \/ d = 1 \/ d = 2 \/ d = 3 \/ d = 4 \/ d = 5 \/ d = 6 \/
               d = 7 \/ d = 8 \/ d = 9 \/ d = 10 \/ d = 11 \/ d = 12 \/
               d = 13 \/ d = 14 \/ d = 15) by lia.
  repeat (destruct Hd as [-> | Hd]; [reflexivity|]). subst d. reflexivity.
Qed.

Lemma length_hex_digits (k : nat) (n : Z) (acc : string) :
  String.length (hex_digits k n acc) = (k + String.length acc)%nat.
Proof.
  revert n acc. induction k as [|k IH]; intros n acc; cbn [hex_digits].
  - reflexivity.
  - rewrite IH. cbn [String.length]. lia.
Qed.

Lemma hex_decode_digits (k : nat) (n a : Z) (acc : string) :
  0 <= n ->
  Spec.hex_decode a (hex_digits k n acc) =
  Spec.hex_decode (a * 16 ^ Z.of_nat k + n mod 16 ^ Z.of_nat k) acc.
Proof.
  revert n acc. induction k as [|k IH]; intros n acc Hn; cbn [hex_digits].
  - change (16 ^ Z.of_nat 0) with 1. rewrite Z.mod_1_r, Z.mul_1_r, Z.add_0_r.
    reflexivity.
  - rewrite IH by (apply Z.div_pos; lia).
    cbn [Spec.hex_decode].
    rewrite hex_val_hex_char by (apply Z.mod_pos_bound; lia).
    f_equal. rewrite Nat2Z.inj_succ, Z.pow_succ_r by lia.
    assert (Hp : 0 < 16 ^ Z.of_nat k) by (apply Z.pow_pos_nonneg; lia).
    rewrite (Z.rem_mul_r n 16 (16 ^ Z.of_nat k)) by lia. ring.
Qed.

Lemma hex32_round_trip_aux (n : Z) :
  (0 <= n < 2 ^ 256 ->
   exists h,
     to_bytes32_hex n = Ok h /\
     Authorize._hex32 n = Ok ("0x" ++ h) /\
     String.length h = 64%nat /\
     Spec.hex_decode 0 h = Some n) /\
  (n < 0 \/ 2 ^ 256 <= n ->
   to_bytes32_hex n = Raise OverflowError /\
   Authorize._hex32 n = Raise OverflowError).
Proof.
  unfold Authorize._hex32, to_bytes32_hex. split.
  - intros [H0 H1].
    destruct (Z.ltb_spec n 0) as [|_]; [lia|].
    destruct (Z.leb_spec (2 ^ 256) n) as [|_]; [lia|].
    cbn [orb bind]. exists (hex_digits 64 n "").
    split; [reflexivity|]. split; [reflexivity|].
    split; [apply length_hex_digits|].
    rewrite hex_decode_digits by exact H0.
    cbn [Spec.hex_decode]. f_equal.
    change (16 ^ Z.of_nat 64) with (2 ^ 256).
    rewrite Z.mod_small by lia. lia.
  - intros H.
    destruct (Z.ltb_spec n 0) as [|Hge]; [split; reflexivity|].
    destruct (Z.leb_spec (2 ^ 256) n) as [|]; [split; reflexivity | lia].
Qed.

(** Two numbers with the same 32-byte text are the same number. *)
Lemma to_bytes32_hex_inj (a b : Z) (h : string) :
  to_bytes32_hex a = Ok h -> to_bytes32_hex b = Ok h -> a = b.
Proof.
  intros Ha Hb.
  assert (Hrange : forall n, to_bytes32_hex n = Ok h -> Spec.hex_decode 0 h = Some n).
  { intros n Hn.
    assert (Hr : 0 <= n < 2 ^ 256).
    { unfold to_bytes32_hex in Hn.
      destruct (Z.ltb_spec n 0); [discriminate Hn|].
      destruct (Z.leb_spec (2 ^ 256) n); [discriminate Hn | lia]. }
    destruct (proj1 (hex32_round_trip_aux n) Hr) as (h' & Hh & _ & _ & Hdec).
    rewrite Hn in Hh. injection Hh as <-. exact Hdec. }
  pose proof (Hrange a Ha) as Da. pose proof (Hrange b Hb) as Db.
  rewrite Da in Db. injection Db as ->. reflexivity.
Qed.

(** The signature record of a signed order tells two signatures apart. *)
Lemma signature_record_inj (sg1 sg2 : Eth.signed_message) (r1 s1 r2 s2 : string)
    (e1 n1 a1 e2 n2 a2 : pyval) :
  to_bytes32_hex (Eth.sig_r sg1) = Ok r1 ->
  to_bytes32_hex (Eth.sig_s sg1) = Ok s1 ->
  to_bytes32_hex (Eth.sig_r sg2) = Ok r2 ->
  to_bytes32_hex (Eth.sig_s sg2) = Ok s2 ->
  PDict [("r", PStr ("0x" ++ r1)); ("s", PStr ("0x" ++ s1));
         ("v", PInt (Eth.sig_v sg1)); ("expiration", e1); ("nonce", n1);
         ("signer", a1)] =
  PDict [("r", PStr ("0x" ++ r2)); ("s", PStr ("0x" ++ s2));
         ("v", PInt (Eth.sig_v sg2)); ("expiration", e2); ("nonce", n2);
         ("signer", a2)] ->
  sg1 = sg2.
Proof.
  intros Hr1 Hs1 Hr2 Hs2 H. injection H as Hr Hs Hv _ _ _.
  subst r2 s2.
  pose proof (to_bytes32_hex_inj _ _ _ Hr1 Hr2) as Er.
  pose proof (to_bytes32_hex_inj _ _ _ Hs1 Hs2) as Es.
  destruct sg1 as [ra sa va], sg2 as [rb sb vb]. cbn in *. congruence.
Qed.

(** C8.  The legs of the typed message are the caller's legs, built one
    by one and kept at their positions, so two orders that differ only
    in their list of legs get different messages exactly when the two
    lists build to different sequences of leg records.  When they do,
    and the library tells the two messages apart (no collision of its
    digest on them, no clash of its signature on their digests), the
    two orders are signed over different digests and carry different
    signature records; when the two lists build to the same sequence,
    message and signature record are the same. *)
Theorem leg_order_preserved (od1 od2 : pydict) (dir : OrderApi.instruments)
    (o1 : pydict) (items1 items2 : list pyval) (msg1 msg2 : pydict) :
  OrderApi.unwrap od1 = Ok (PDict o1) ->
  lookup "legs" o1 = Some (PList items1) ->
  OrderApi.unwrap od2 = Ok (PDict (set "legs" (PList items2) o1)) ->
  OrderApi.build_order_message_data od1 dir = Ok msg1 ->
  OrderApi.build_order_message_data od2 dir = Ok msg2 ->
  exists legs1 legs2,
    lookup "legs" msg1 = Some (PList legs1) /\
    lookup "legs" msg2 = Some (PList legs2) /\
    Spec.built_in_order dir items1 legs1 /\
    Spec.built_in_order dir items2 legs2 /\
    (msg1 = msg2 <-> legs1 = legs2) /\
    (legs1 = legs2 ->
     forall lib key env,
       Spec.signature_of (OrderApi.sign_order lib od1 dir key env) =
       Spec.signature_of (OrderApi.sign_order lib od2 dir key env)) /\
    (legs1 <> legs2 ->
     forall lib key env out1 out2,
       Spec.digest_separates lib OrderApi.EIP712_ORDER_MESSAGE_TYPE msg1 msg2 ->
       Spec.signature_separates lib OrderApi.EIP712_ORDER_MESSAGE_TYPE msg1 msg2 ->
       OrderApi.sign_order lib od1 dir key env = Ok out1 ->
       OrderApi.sign_order lib od2 dir key env = Ok out2 ->
       (exists domain sm1 sm2,
          OrderApi.get_eip712_domain_data env = Ok domain /\
          Eth.encode_typed_data lib domain OrderApi.EIP712_ORDER_MESSAGE_TYPE msg1
            = Ok sm1 /\
          Eth.encode_typed_data lib domain OrderApi.EIP712_ORDER_MESSAGE_TYPE msg2
            = Ok sm2 /\
          sm1 <> sm2) /\
       Spec.signature_of (Ok out1) <> Spec.signature_of (Ok out2)).
Proof.
  intros Hu1 Hl1 Hu2 Hb1 Hb2.
  pose proof Hb1 as Hi1. pose proof Hb2 as Hi2.
  apply build_inv in Hi1. apply build_inv in Hi2.
  destruct Hi1 as [o items legs1 tif1 fee1 sub1 nonce1 exp1
                   Hu Hit1 Hlegs1 Htif1 Hfee1 Hsub1 Hn1 He1 Hm1].
  rewrite Hu1 in Hu. injection Hu as <-.
  destruct Hi2 as [o items' legs2 tif2 fee2 sub2 nonce2 exp2
                   Hu Hit2 Hlegs2 Htif2 Hfee2 Hsub2 Hn2 He2 Hm2].
  rewrite Hu2 in Hu. injection Hu as <-.
  cbn [subscript] in Hit1, Hit2, Hsub1, Hsub2.
  rewrite Hl1 in Hit1. cbn [bind iterate] in Hit1. injection Hit1 as <-.
  rewrite lookup_set_same in Hit2. cbn [bind iterate] in Hit2. injection Hit2 as <-.
  rewrite (get_set_other _ "legs") in Htif2 by discriminate.
  rewrite (get_set_other _ "legs") in Hfee2 by discriminate.
  rewrite (lookup_set_other _ "legs") in Hsub2 by discriminate.
  rewrite (at2_set_other "legs") in Hn2 by discriminate.
  rewrite (at2_set_other "legs") in He2 by discriminate.
  rewrite Htif1 in Htif2. injection Htif2 as <-.
  rewrite Hfee1 in Hfee2. injection Hfee2 as <-.
  rewrite Hsub1 in Hsub2. injection Hsub2 as <-.
  rewrite Hn1 in Hn2. injection Hn2 as <-.
  rewrite He1 in He2. injection He2 as <-.
  rewrite order_message_set_legs in Hm2.
  assert (Hiff : msg1 = msg2 <-> legs1 = legs2).
  { split.
    - intros Heq. rewrite Hm1, Hm2 in Heq. unfold Spec.order_message in Heq.
      injection Heq as Heq. exact Heq.
    - intros ->. rewrite Hm1, Hm2. reflexivity. }
  exists legs1, legs2.
  split; [subst msg1; reflexivity|].
  split; [subst msg2; reflexivity|].
  split; [exact (mapM_nth _ _ _ Hlegs1)|].
  split; [exact (mapM_nth _ _ _ Hlegs2)|].
  split; [exact Hiff|].
  split.
  - intros Heq lib key env.
    assert (Hmsg : msg2 = msg1) by (symmetry; apply Hiff; exact Heq).
    rewrite Hmsg in Hb2.
    exact (signature_of_set_legs lib od1 od2 dir key env o1 _ msg1 Hu1 Hu2 Hb1 Hb2).
  - intros Hne lib key env out1 out2 Hdigest Hsig Hs1 Hs2.
    destruct (sign_order_inv _ _ _ _ _ _ Hs1)
      as (oa & olda & ea & na & ma & da & sma & aa & sga & ra & sa
          & Hua & Holda & _ & _ & Hba & Hda & Hea & Hka & Hga & Hra & Hsa & ->).
    destruct (sign_order_inv _ _ _ _ _ _ Hs2)
      as (ob & oldb & eb & nb & mb & db & smb & ab & sgb & rb & sb
          & Hub & Holdb & _ & _ & Hbb & Hdb & Heb & Hkb & Hgb & Hrb & Hsb & ->).
    rewrite Hb1 in Hba. injection Hba as <-.
    rewrite Hb2 in Hbb. injection Hbb as <-.
    rewrite Hda in Hdb. injection Hdb as <-.
    rewrite Hka in Hkb. injection Hkb as <-.
    assert (Hsm : sma <> smb).
    { intros Heq. subst smb. apply Hne, Hiff.
      exact (Hdigest da sma Hea Heb). }
    split.
    + exists da, sma, smb. repeat split; assumption.
    + unfold Spec.signature_of, Spec.at2.
      cbn [bind subscript lookup String.eqb Ascii.eqb Bool.eqb].
      rewrite !lookup_set_same. cbn [bind]. intros Heq.
      apply (f_equal (fun x => match x with Ok v => v | Raise _ => PNone end))
        in Heq.
      pose proof (signature_record_inj _ _ _ _ _ _ _ _ _ _ _ _
                    Hra Hsa Hrb Hsb Heq) as Hsg.
      subst sgb. apply Hsm.
      exact (Hsig da aa sma smb sga Hea Heb Hga Hgb).
Qed.

Lemma leg_order_preserved_witness :
  exists out1 out2,
    OrderApi.sign_order Fixtures.echo
      (Fixtures.full_order "GOOD_TILL_TIME" (PStr "0.001")
         [Fixtures.leg_btc; Fixtures.leg_eth])
      Fixtures.directory "0xa11ce" OrderApi.TESTNET = Ok out1 /\
    OrderApi.sign_order Fixtures.echo
      (Fixtures.full_order "GOOD_TILL_TIME" (PStr "0.001")
         [Fixtures.leg_eth; Fixtures.leg_btc])
      Fixtures.directory "0xa11ce" OrderApi.TESTNET = Ok out2 /\
    Spec.signature_of (Ok out1) <> Spec.signature_of (Ok out2).
Proof.
  eexists. eexists. apply conj_then; [vm_compute; reflexivity|]. intros H1.
  apply conj_then; [vm_compute; reflexivity|]. intros H2.
  destruct (OrderApi.build_order_message_data
              (Fixtures.full_order "GOOD_TILL_TIME" (PStr "0.001")
                 [Fixtures.leg_btc; Fixtures.leg_eth]) Fixtures.directory)
    as [msg1|] eqn:Hb1; [|vm_compute in Hb1; discriminate Hb1].
  destruct (OrderApi.build_order_message_data
              (Fixtures.full_order "GOOD_TILL_TIME" (PStr "0.001")
                 [Fixtures.leg_eth; Fixtures.leg_btc]) Fixtures.directory)
    as [msg2|] eqn:Hb2; [|vm_compute in Hb2; discriminate Hb2].
  destruct (leg_order_preserved
              (Fixtures.full_order "GOOD_TILL_TIME" (PStr "0.001")
                 [Fixtures.leg_btc; Fixtures.leg_eth])
              (Fixtures.full_order "GOOD_TILL_TIME" (PStr "0.001")
                 [Fixtures.leg_eth; Fixtures.leg_btc])
              Fixtures.directory _
              [Fixtures.leg_btc; Fixtures.leg_eth]
              [Fixtures.leg_eth; Fixtures.leg_btc] _ _
              eq_refl eq_refl eq_refl Hb1 Hb2)
    as (legs1 & legs2 & Hl1 & Hl2 & _ & _ & _ & _ & Hdiff).
  vm_compute in Hb1. injection Hb1 as <-.
  vm_compute in Hb2. injection Hb2 as <-.
  vm_compute in Hl1. injection Hl1 as <-.
  vm_compute in Hl2. injection Hl2 as <-.
  refine (proj2 (Hdiff _ Fixtures.echo "0xa11ce" OrderApi.TESTNET _ _ _ _ H1 H2)).
  - discriminate.
  - intros domain sm Ha Hb. cbn in Ha, Hb. rewrite <- Ha in Hb.
    discriminate Hb.
  - intros domain acct sm1 sm2 sg Ha Hb Hc Hd.
    cbn in Ha, Hb. injection Ha as <-. injection Hb as <-.
    rewrite <- Hc in Hd. vm_compute in Hd. discriminate Hd.
Defined.

(** *** Signing *)

(** C9, as the code has it.  In the order [sign_order] returns, the
    signature sub-record is a fresh record of six keys: the computed
    [r], [s], [v] and [signer] next to the [expiration] and [nonce] the
    caller supplied.  Any other key of the caller's sub-record is gone.
    Every other field of the order, with the order of the fields, is as
    in the input. *)
Theorem sign_order_frame (lib : Eth.library) (order_data : pydict)
    (dir : OrderApi.instruments) (key : string) (env : OrderApi.GrvtEnv)
    (out : pydict) :
  OrderApi.sign_order lib order_data dir key env = Ok out ->
  exists order order' old expiration nonce msg domain sm acct sg r s,
    OrderApi.unwrap order_data = Ok (PDict order) /\
    out = [("order", PDict order')] /\
    (forall k, k <> "signature" -> lookup k order' = lookup k order) /\
    keys order' = keys order /\
    lookup "signature" order = Some old /\
    subscript old "expiration" = Ok expiration /\
    subscript old "nonce" = Ok nonce /\
    OrderApi.build_order_message_data order_data dir = Ok msg /\
    OrderApi.get_eip712_domain_data env = Ok domain /\
    Eth.encode_typed_data lib domain OrderApi.EIP712_ORDER_MESSAGE_TYPE msg = Ok sm /\
    Eth.from_key lib (if startswith "0x" key then drop 2 key else key) = Ok acct /\
    Eth.sign_message lib acct sm = Ok sg /\
    to_bytes32_hex (Eth.sig_r sg) = Ok r /\
    to_bytes32_hex (Eth.sig_s sg) = Ok s /\
    lookup "signature" order' =
      Some (PDict [("r", PStr ("0x" ++ r));
                   ("s", PStr ("0x" ++ s));
                   ("v", PInt (Eth.sig_v sg));
                   ("expiration", expiration);
                   ("nonce", nonce);
                   ("signer", PStr (Eth.address lib acct))]) /\
    Spec.keys_at order' "signature" = Some Spec.signature_keys /\
    (forall k, k = "expiration" \/ k = "nonce" ->
       Spec.at2 order' "signature" k = Spec.at2 order "signature" k) /\
    (forall k, ~ In k Spec.signature_keys ->
       Spec.at2 order' "signature" k = Raise (KeyError k)).
Proof.
  unfold OrderApi.sign_order. cbv zeta. intros H.
  peel H as msg Hmsg. peel H as domain Hdomain. peel H as sm Hsm.
  peel H as acct Hacct. peel H as sg Hsg. peel H as r Hr. peel H as s Hs.
  peel H as order Hunwrap. peel H as o Hcopy.
  apply copy_Ok in Hcopy. subst order.
  cbn [bind subscript lookup String.eqb Ascii.eqb Bool.eqb] in H.
  destruct (lookup "signature" o) as [old|] eqn:Hold; [|discriminate H].
  cbn [bind] in H.
  peel H as expiration Hexp. peel H as nonce Hnonce.
  injection H as <-.
  exists o. eexists. exists old, expiration, nonce, msg, domain, sm, acct, sg, r, s.
  split; [exact Hunwrap|]. split; [reflexivity|].
  split; [intros k Hk; apply lookup_set_other; exact Hk|].
  split; [exact (keys_set_present _ _ _ _ Hold)|].
  do 10 (split; [assumption || reflexivity|]).
  split; [apply lookup_set_same|].
  split; [unfold Spec.keys_at; rewrite lookup_set_same; reflexivity|].
  split.
  - intros k Hk. unfold Spec.at2. cbn [subscript].
    rewrite lookup_set_same, Hold. cbn [bind].
    destruct Hk as [-> | ->].
    + rewrite Hexp. reflexivity.
    + rewrite Hnonce. reflexivity.
  - intros k Hk. unfold Spec.at2. cbn [subscript].
    rewrite lookup_set_same. cbn [bind subscript lookup].
    repeat match goal with
           | |- context [String.eqb k ?x] =>
               destruct (String.eqb_spec k x) as [->|_];
               [exfalso; apply Hk; unfold Spec.signature_keys; simpl; tauto|]
           end.
    reflexivity.
Qed.

Lemma sign_order_frame_witness :
  exists out order',
    OrderApi.sign_order Fixtures.stub
      (Fixtures.full_order "GOOD_TILL_TIME" (PStr "0.001") [Fixtures.leg_btc])
      Fixtures.directory "0xa11ce" OrderApi.TESTNET = Ok out /\
    out = [("order", PDict order')] /\
    lookup "metadata" order' = Some (PDict [("client_order_id", PStr "23042")]) /\
    Spec.at2 order' "signature" "nonce" = Ok (PInt 828700936) /\
    Spec.at2 order' "signature" "chain_id" = Raise (KeyError "chain_id").
Proof.
  eexists. eexists. apply conj_then; [vm_compute; reflexivity|]. intros Hrun.
  destruct (sign_order_frame _ _ _ _ _ _ Hrun)
    as (order & order' & old & expiration & nonce & msg & domain & sm & acct
        & sg & r & s & Hu & Hout & Hframe & _ & Hold & _ & Hn & _ & _ & _ & _
        & _ & _ & _ & Hsig & _ & _ & Hgone).
  split; [reflexivity|].
  injection Hout as Hout. injection Hu as Hu.
  split; [|split].
  - rewrite Hout, (Hframe "metadata") by discriminate. rewrite <- Hu. reflexivity.
  - rewrite Hout. unfold Spec.at2. cbn [subscript]. rewrite Hsig.
    cbn [bind subscript lookup String.eqb Ascii.eqb Bool.eqb].
    rewrite <- Hu in Hold. injection Hold as Hold. rewrite <- Hold in Hn.
    injection Hn as Hn. rewrite Hn. reflexivity.
  - rewrite Hout. apply Hgone. unfold Spec.signature_keys. simpl.
    intros [H|[H|[H|[H|[H|[H|[]]]]]]]; discriminate H.
Defined.

(** C9 as stated fails.  A sub-record that also holds ["chain_id"] comes
    back without it: [sign_order] replaces the whole sub-record, and not
    only [signer], [r], [s] and [v]. *)
Lemma signature_subrecord_is_rebuilt :
  Spec.at2 (Fixtures.order_naming_chain [Fixtures.leg_btc])
    "order" "signature" =
  Ok (PDict [("r", PStr ""); ("s", PStr ""); ("v", PInt 0);
             ("expiration", PStr "1730800796000000000");
             ("nonce", PInt 828700936);
             ("signer", PStr "");
             ("chain_id", PStr "326")]) /\
  Spec.signature_of
    (OrderApi.sign_order Fixtures.stub
       (Fixtures.order_naming_chain [Fixtures.leg_btc])
       Fixtures.directory "0xa11ce" OrderApi.TESTNET) =
  Ok (PDict [("r", PStr "0x00000000000000000000000000000000000000000000000000000000000000ff");
             ("s", PStr "0x0000000000000000000000000000000000000000000000000000000000001000");
             ("v", PInt 27);
             ("expiration", PStr "1730800796000000000");
             ("nonce", PInt 828700936);
             ("signer", PStr "0x5ec0a11ce")]).
Proof. split; vm_compute; reflexivity. Qed.

(** *** Optional fields *)

(** C10.  A missing optional key is replaced by its default in the
    message: [time_in_force] by the signing value 1 of GOOD_TILL_TIME,
    [is_market], [post_only] and [reduce_only] by false, [builder] by the
    empty string, and [builder_fee] by the scaled ["0.001"], 10.  The
    absence is no failure: when the mandatory fields go through and all
    six keys are missing, the builder returns the message with the six
    defaults. *)
Theorem optional_fields_default (order_data : pydict)
    (dir : OrderApi.instruments) (order : pydict) :
  OrderApi.unwrap order_data = Ok (PDict order) ->
  (forall msg,
     OrderApi.build_order_message_data order_data dir = Ok msg ->
     (lookup "time_in_force" order = None ->
      lookup "timeInForce" msg = Some (PInt 1)) /\
     (lookup "is_market" order = None ->
      lookup "isMarket" msg = Some (PBool false)) /\
     (lookup "post_only" order = None ->
      lookup "postOnly" msg = Some (PBool false)) /\
     (lookup "reduce_only" order = None ->
      lookup "reduceOnly" msg = Some (PBool false)) /\
     (lookup "builder" order = None ->
      lookup "builder" msg = Some (PStr "")) /\
     (lookup "builder_fee" order = None ->
      lookup "builderFee" msg = Some (PInt 10))) /\
  (forall items legs sub nonce expiration,
     x <- subscript (PDict order) "legs" ;; iterate x = Ok items ->
     mapM (OrderApi.build_leg dir) items = Ok legs ->
     x <- subscript (PDict order) "sub_account_id" ;; int x = Ok sub ->
     Spec.at2 order "signature" "nonce" = Ok nonce ->
     Spec.at2 order "signature" "expiration" = Ok expiration ->
     lookup "time_in_force" order = None ->
     lookup "is_market" order = None ->
     lookup "post_only" order = None ->
     lookup "reduce_only" order = None ->
     lookup "builder" order = None ->
     lookup "builder_fee" order = None ->
     OrderApi.build_order_message_data order_data dir =
     Ok [("subAccountID", PInt sub);
         ("isMarket", PBool false);
         ("timeInForce", PInt 1);
         ("postOnly", PBool false);
         ("reduceOnly", PBool false);
         ("legs", PList legs);
         ("builder", PStr "");
         ("builderFee", PInt 10);
         ("nonce", nonce);
         ("expiration", expiration)]).
Proof.
  intros Hunwrap. split.
  - intros msg H. apply build_inv in H.
    destruct H as [o items legs tif fee sub nonce expiration
                   Hu _ _ Htif Hfee _ _ _ ->].
    rewrite Hunwrap in Hu. injection Hu as <-.
    unfold Spec.order_message. cbn [lookup String.eqb Ascii.eqb Bool.eqb].
    repeat split; intros Habs; rewrite ?(get_absent _ _ _ Habs); try reflexivity.
    + rewrite (get_absent _ _ _ Habs) in Htif.
      injection Htif as <-. reflexivity.
    + rewrite (get_absent _ _ _ Habs) in Hfee.
      assert (E : PyDecimal.scale (PStr "0.001") 10000 = Ok 10)
        by (vm_compute; reflexivity).
      rewrite E in Hfee. injection Hfee as <-. reflexivity.
  - intros items legs sub nonce expiration Hitems Hlegs Hsub Hnonce Hexp
      Htif Hmarket Hpost Hreduce Hbuilder Hfee.
    apply build_intro.
    apply (Spec.Built _ _ _ order items legs OrderApi.TimeInForce.GOOD_TILL_TIME
             10 sub nonce expiration); try assumption.
    + rewrite (get_absent _ _ _ Htif). reflexivity.
    + rewrite (get_absent _ _ _ Hfee). vm_compute. reflexivity.
    + unfold Spec.order_message.
      rewrite (get_absent _ _ _ Hmarket), (get_absent _ _ _ Hpost),
        (get_absent _ _ _ Hreduce), (get_absent _ _ _ Hbuilder).
      reflexivity.
Qed.

Lemma optional_fields_default_witness :
  OrderApi.build_order_message_data (Fixtures.bare_order [Fixtures.leg_btc])
    Fixtures.directory =
  Ok [("subAccountID", PInt 8289849667772468);
      ("isMarket", PBool false);
      ("timeInForce", PInt 1);
      ("postOnly", PBool false);
      ("reduceOnly", PBool false);
      ("legs", PList [PDict [("assetID", PStr "0x030501");
                             ("contractSize", PInt 10000000);
                             ("limitPrice", PInt 65000500000000);
                             ("isBuyingContract", PBool true)]]);
      ("builder", PStr "");
      ("builderFee", PInt 10);
      ("nonce", PInt 828700936);
      ("expiration", PStr "1730800796000000000")].
Proof.
  refine (proj2 (optional_fields_default (Fixtures.bare_order [Fixtures.leg_btc])
                   Fixtures.directory (Fixtures.bare_order [Fixtures.leg_btc]) _)
            [Fixtures.leg_btc] _ _ _ _ _ _ _ _ _ _ _ _ _ _ _);
    reflexivity.
Defined.

(** ** Further properties of the order path *)

Lemma unwrap_wrapped (order_data : pydict) (v : pyval) :
  lookup "order" order_data = Some v -> OrderApi.unwrap order_data = Ok v.
Proof.
  intros H. unfold OrderApi.unwrap, contains. rewrite H.
  cbn [subscript]. rewrite H. reflexivity.
Qed.

Lemma unwrap_bare (order_data : pydict) :
  lookup "order" order_data = None ->
  OrderApi.unwrap order_data = Ok (PDict order_data).
Proof. intros H. unfold OrderApi.unwrap, contains. rewrite H. reflexivity. Qed.

Lemma build_unwrap_ext (od1 od2 : pydict) (dir : OrderApi.instruments) :
  OrderApi.unwrap od1 = OrderApi.unwrap od2 ->
  OrderApi.build_order_message_data od1 dir =
  OrderApi.build_order_message_data od2 dir.
Proof. intros H. unfold OrderApi.build_order_message_data. rewrite H. reflexivity. Qed.

Lemma sign_order_unwrap_ext (lib : Eth.library) (od1 od2 : pydict)
    (dir : OrderApi.instruments) (key : string) (env : OrderApi.GrvtEnv) :
  OrderApi.unwrap od1 = OrderApi.unwrap od2 ->
  OrderApi.sign_order lib od1 dir key env = OrderApi.sign_order lib od2 dir key env.
Proof.
  intros H. unfold OrderApi.sign_order.
  rewrite (build_unwrap_ext od1 od2 dir H), H. reflexivity.
Qed.

(** X1.  The wrapped and the bare form of one order are treated alike:
    when [order_data["order"]] is the dict [order], and [order] itself
    has no key ["order"], building and signing [order_data] give what
    building and signing [order] give. *)
Theorem wrapped_and_bare_orders_agree (lib : Eth.library)
    (order_data order : pydict) (dir : OrderApi.instruments) (key : string)
    (env : OrderApi.GrvtEnv) :
  lookup "order" order_data = Some (PDict order) ->
  lookup "order" order = None ->
  OrderApi.build_order_message_data order_data dir =
    OrderApi.build_order_message_data order dir /\
  OrderApi.sign_order lib order_data dir key env =
    OrderApi.sign_order lib order dir key env.
Proof.
  intros Hw Hb.
  assert (H : OrderApi.unwrap order_data = OrderApi.unwrap order)
    by (rewrite (unwrap_wrapped _ _ Hw), (unwrap_bare _ Hb); reflexivity).
  split; [exact (build_unwrap_ext _ _ dir H) | exact (sign_order_unwrap_ext _ _ _ _ _ _ H)].
Qed.

Lemma wrapped_and_bare_orders_agree_witness :
  OrderApi.sign_order Fixtures.stub
    [("order", PDict (Fixtures.bare_order [Fixtures.leg_btc]))]
    Fixtures.directory "0xa11ce" OrderApi.PROD =
  OrderApi.sign_order Fixtures.stub (Fixtures.bare_order [Fixtures.leg_btc])
    Fixtures.directory "0xa11ce" OrderApi.PROD.
Proof.
  exact (proj2 (wrapped_and_bare_orders_agree Fixtures.stub
                  [("order", PDict (Fixtures.bare_order [Fixtures.leg_btc]))]
                  (Fixtures.bare_order [Fixtures.leg_btc])
                  Fixtures.directory "0xa11ce" OrderApi.PROD eq_refl eq_refl)).
Defined.

Lemma set_set_same (k : string) (v v' : pyval) (d : pydict) :
  set k v (set k v' d) = set k v d.
Proof.
  induction d as [|[k0 v0] d IH]; cbn [set].
  - rewrite String.eqb_refl. reflexivity.
  - destruct (String.eqb k k0) eqn:E; cbn [set].
    + rewrite String.eqb_refl. reflexivity.
    + rewrite E, IH. reflexivity.
Qed.

Lemma order_message_set_signature (v : pyval) (o : pydict) (sub tif : Z)
    (legs : list pyval) (fee : Z) (nonce expiration : pyval) :
  Spec.order_message (set "signature" v o) sub tif legs fee nonce expiration =
  Spec.order_message o sub tif legs fee nonce expiration.
Proof.
  unfold Spec.order_message.
  rewrite !(get_set_other _ "signature") by discriminate. reflexivity.
Qed.

(** The message depends on the signature sub-record through its nonce
    and expiration only. *)
Lemma build_set_signature (order_data : pydict) (dir : OrderApi.instruments)
    (order : pydict) (msg : pydict) (sig : pyval) (nonce expiration : pyval) :
  OrderApi.unwrap order_data = Ok (PDict order) ->
  OrderApi.build_order_message_data order_data dir = Ok msg ->
  subscript sig "nonce" = Ok nonce ->
  subscript sig "expiration" = Ok expiration ->
  OrderApi.build_order_message_data
    [("order", PDict (set "signature" sig order))] dir =
  Ok (set "expiration" expiration (set "nonce" nonce msg)).
Proof.
  intros Hunwrap Hb Hn He. apply build_inv in Hb.
  destruct Hb as [o items legs tif fee sub nonce0 exp0
                  Hu Hit Hlegs Htif Hfee Hsub _ _ ->].
  rewrite Hunwrap in Hu. injection Hu as <-.
  apply build_intro.
  apply (Spec.Built _ _ _ (set "signature" sig order) items legs tif fee sub
           nonce expiration).
  - reflexivity.
  - cbn [subscript] in Hit |- *.
    rewrite (lookup_set_other "legs" "signature") by discriminate. exact Hit.
  - exact Hlegs.
  - rewrite (get_set_other _ "signature") by discriminate. exact Htif.
  - rewrite (get_set_other _ "signature") by discriminate. exact Hfee.
  - cbn [subscript] in Hsub |- *.
    rewrite (lookup_set_other "sub_account_id" "signature") by discriminate.
    exact Hsub.
  - unfold Spec.at2. cbn [subscript]. rewrite lookup_set_same. cbn [bind].
    exact Hn.
  - unfold Spec.at2. cbn [subscript]. rewrite lookup_set_same. cbn [bind].
    exact He.
  - rewrite order_message_set_signature. reflexivity.
Qed.

(** X2.  Signing is idempotent: the order [sign_order] returns, signed
    again with the same key for the same environment, comes back
    unchanged.  The placeholder values of [r], [s], [v] and [signer]
    never reach the message. *)
Theorem sign_order_idempotent (lib : Eth.library) (order_data : pydict)
    (dir : OrderApi.instruments) (key : string) (env : OrderApi.GrvtEnv)
    (out : pydict) :
  OrderApi.sign_order lib order_data dir key env = Ok out ->
  OrderApi.sign_order lib out dir key env = Ok out.
Proof.
  intros H. apply sign_order_inv in H.
  destruct H as (order & old & expiration & nonce & msg & domain & sm & acct
                 & sg & r & s & Hu & Hold & Hexp & Hnonce & Hb & Hd & Hsm
                 & Hacct & Hsg & Hr & Hs & ->).
  set (sig := PDict [("r", PStr ("0x" ++ r)); ("s", PStr ("0x" ++ s));
                     ("v", PInt (Eth.sig_v sg)); ("expiration", expiration);
                     ("nonce", nonce); ("signer", PStr (Eth.address lib acct))]).
  assert (Hmsg : set "expiration" expiration (set "nonce" nonce msg) = msg).
  { apply build_inv in Hb.
    destruct Hb as [o items legs tif fee sub nonce0 exp0
                    Hu' _ _ _ _ _ Hn0 He0 ->].
    rewrite Hu in Hu'. injection Hu' as <-.
    unfold Spec.at2 in Hn0, He0. cbn [subscript] in Hn0, He0.
    rewrite Hold in Hn0, He0. cbn [bind] in Hn0, He0.
    rewrite Hnonce in Hn0. rewrite Hexp in He0.
    injection Hn0 as <-. injection He0 as <-. reflexivity. }
  assert (Hb' : OrderApi.build_order_message_data
                  [("order", PDict (set "signature" sig order))] dir = Ok msg).
  { rewrite (build_set_signature order_data dir order msg sig nonce expiration
               Hu Hb eq_refl eq_refl). rewrite Hmsg. reflexivity. }
  unfold OrderApi.sign_order. cbv zeta.
  rewrite Hb'. cbn [bind]. rewrite Hd. cbn [bind]. rewrite Hsm. cbn [bind].
  rewrite Hacct. cbn [bind]. rewrite Hsg. cbn [bind].
  rewrite Hr. cbn [bind]. rewrite Hs. cbn [bind].
  change (OrderApi.unwrap [("order", PDict (set "signature" sig order))])
    with (Ok (PDict (set "signature" sig order))).
  cbn [bind copy subscript lookup String.eqb Ascii.eqb Bool.eqb].
  rewrite lookup_set_same. cbn [bind].
  subst sig. cbn [bind subscript lookup String.eqb Ascii.eqb Bool.eqb].
  rewrite set_set_same. reflexivity.
Qed.

Lemma sign_order_idempotent_witness :
  exists out,
    OrderApi.sign_order Fixtures.stub
      (Fixtures.full_order "FILL_OR_KILL" (PStr "0.0005")
         [Fixtures.leg_eth; Fixtures.leg_btc])
      Fixtures.directory "a11ce" OrderApi.DEV = Ok out /\
    OrderApi.sign_order Fixtures.stub out Fixtures.directory "a11ce" OrderApi.DEV
      = Ok out.
Proof.
  eexists. apply conj_then; [vm_compute; reflexivity|].
  apply sign_order_idempotent.
Defined.

(** X3.  What is signed is what is sent: the nonce and the expiration of
    the typed message are the nonce and the expiration of the signature
    sub-record of the returned order. *)
Theorem signed_replay_fields_are_sent (lib : Eth.library)
    (order_data : pydict) (dir : OrderApi.instruments) (key : string)
    (env : OrderApi.GrvtEnv) (out : pydict) :
  OrderApi.sign_order lib order_data dir key env = Ok out ->
  exists msg order' nonce expiration,
    OrderApi.build_order_message_data order_data dir = Ok msg /\
    out = [("order", PDict order')] /\
    lookup "nonce" msg = Some nonce /\
    Spec.at2 order' "signature" "nonce" = Ok nonce /\
    lookup "expiration" msg = Some expiration /\
    Spec.at2 order' "signature" "expiration" = Ok expiration.
Proof.
  intros H. apply sign_order_inv in H.
  destruct H as (order & old & expiration & nonce & msg & domain & sm & acct
                 & sg & r & s & Hu & Hold & Hexp & Hnonce & Hb & _ & _
                 & _ & _ & _ & _ & ->).
  exists msg. eexists. exists nonce, expiration.
  split; [exact Hb|]. split; [reflexivity|].
  apply build_inv in Hb.
  destruct Hb as [o items legs tif fee sub nonce0 exp0
                  Hu' _ _ _ _ _ Hn0 He0 ->].
  rewrite Hu in Hu'. injection Hu' as <-.
  unfold Spec.at2 in Hn0, He0. cbn [subscript] in Hn0, He0.
  rewrite Hold in Hn0, He0. cbn [bind] in Hn0, He0.
  rewrite Hnonce in Hn0. rewrite Hexp in He0.
  injection Hn0 as <-. injection He0 as <-.
  unfold Spec.at2. cbn [subscript]. rewrite lookup_set_same.
  repeat split.
Qed.

Lemma signed_replay_fields_are_sent_witness :
  exists out msg order' nonce expiration,
    OrderApi.sign_order Fixtures.stub (Fixtures.bare_order [Fixtures.leg_btc])
      Fixtures.directory "0xa11ce" OrderApi.TESTNET = Ok out /\
    OrderApi.build_order_message_data (Fixtures.bare_order [Fixtures.leg_btc])
      Fixtures.directory = Ok msg /\
    out = [("order", PDict order')] /\
    lookup "nonce" msg = Some nonce /\
    Spec.at2 order' "signature" "nonce" = Ok nonce /\
    lookup "expiration" msg = Some expiration /\
    Spec.at2 order' "signature" "expiration" = Ok expiration.
Proof.
  eexists.
  assert (H : forall (A : Prop) (B : Prop), A -> (A -> B) -> B)
    by (intros A B a f; exact (f a)).
  refine (H (OrderApi.sign_order Fixtures.stub
               (Fixtures.bare_order [Fixtures.leg_btc])
               Fixtures.directory "0xa11ce" OrderApi.TESTNET = Ok _) _ _ _).
  - vm_compute. reflexivity.
  - intros Hrun.
    destruct (signed_replay_fields_are_sent _ _ _ _ _ _ Hrun)
      as (msg & order' & nonce & expiration & Hrest).
    exists msg, order', nonce, expiration. split; [exact Hrun | exact Hrest].
Defined.

(** The builder once the legs are built: what is left to run. *)
Lemma build_after_legs (order_data : pydict) (dir : OrderApi.instruments)
    (order : pydict) (items legs : list pyval) :
  OrderApi.unwrap order_data = Ok (PDict order) ->
  x <- subscript (PDict order) "legs" ;; iterate x = Ok items ->
  mapM (OrderApi.build_leg dir) items = Ok legs ->
  OrderApi.build_order_message_data order_data dir =
  (time_in_force <-
     OrderApi.TimeInForce.of_value
       (get "time_in_force" (PStr "GOOD_TILL_TIME") order) ;;
   builder_fee_int <-
     PyDecimal.scale (get "builder_fee" (PStr "0.001") order) 10000 ;;
   sub_account_id <- subscript (PDict order) "sub_account_id" ;;
   sub_account_id <- int sub_account_id ;;
   nonce <- Spec.at2 order "signature" "nonce" ;;
   expiration <- Spec.at2 order "signature" "expiration" ;;
   Ok (Spec.order_message order sub_account_id (Spec.sign_value time_in_force)
         legs builder_fee_int nonce expiration)).
Proof.
  intros Hunwrap Hitems Hlegs. unfold OrderApi.build_order_message_data.
  rewrite Hunwrap. cbn [bind].
  peel Hitems as ls Hls. rewrite Hls. cbn [bind]. rewrite Hitems. cbn [bind].
  rewrite Hlegs. cbn [bind get_attr].
  destruct (OrderApi.TimeInForce.of_value _) as [tif|]; [|reflexivity].
  cbn [bind].
  destruct (time_in_force_table tif) as (st & Hst & Hval).
  rewrite Hst. cbn [bind].
  destruct (PyDecimal.scale _ 10000) as [fee|]; [|reflexivity]. cbn [bind].
  destruct (subscript (PDict order) "sub_account_id") as [sub_v|]; [|reflexivity].
  cbn [bind].
  destruct (int sub_v) as [sub|]; [|reflexivity]. cbn [bind].
  unfold Spec.at2.
  destruct (subscript (PDict order) "signature") as [sig|]; [|reflexivity].
  cbn [bind].
  destruct (subscript sig "nonce") as [nonce|]; [|reflexivity]. cbn [bind].
  destruct (subscript sig "expiration") as [expiration|]; [|reflexivity].
  cbn [bind]. rewrite Hval. reflexivity.
Qed.

(** X4.  A mandatory key that is missing is reported as the [KeyError]
    of that key, by the builder and by [sign_order] alike: ["legs"]
    before anything else, ["sub_account_id"] once legs, time in force
    and builder fee went through, ["signature"] after that. *)
Theorem missing_mandatory_key (lib : Eth.library) (order_data : pydict)
    (dir : OrderApi.instruments) (key : string) (env : OrderApi.GrvtEnv)
    (order : pydict) :
  OrderApi.unwrap order_data = Ok (PDict order) ->
  (lookup "legs" order = None ->
   OrderApi.build_order_message_data order_data dir = Raise (KeyError "legs") /\
   OrderApi.sign_order lib order_data dir key env = Raise (KeyError "legs")) /\
  (forall items legs tif fee,
     x <- subscript (PDict order) "legs" ;; iterate x = Ok items ->
     mapM (OrderApi.build_leg dir) items = Ok legs ->
     OrderApi.TimeInForce.of_value
       (get "time_in_force" (PStr "GOOD_TILL_TIME") order) = Ok tif ->
     PyDecimal.scale (get "builder_fee" (PStr "0.001") order) 10000 = Ok fee ->
     (lookup "sub_account_id" order = None ->
      OrderApi.build_order_message_data order_data dir =
        Raise (KeyError "sub_account_id") /\
      OrderApi.sign_order lib order_data dir key env =
        Raise (KeyError "sub_account_id")) /\
     (forall sub,
        x <- subscript (PDict order) "sub_account_id" ;; int x = Ok sub ->
        lookup "signature" order = None ->
        OrderApi.build_order_message_data order_data dir =
          Raise (KeyError "signature") /\
        OrderApi.sign_order lib order_data dir key env =
          Raise (KeyError "signature"))).
Proof.
  intros Hunwrap. split.
  - intros Hlegs. apply conj_then; [|apply sign_order_Raise].
    unfold OrderApi.build_order_message_data. rewrite Hunwrap.
    cbn [bind subscript]. rewrite Hlegs. reflexivity.
  - intros items legs tif fee Hitems Hlegs Htif Hfee.
    pose proof (build_after_legs _ _ _ _ _ Hunwrap Hitems Hlegs) as Hb.
    rewrite Htif, Hfee in Hb. cbn [bind] in Hb. split.
    + intros Hsub. apply conj_then; [|apply sign_order_Raise].
      rewrite Hb. cbn [subscript]. rewrite Hsub. reflexivity.
    + intros sub Hsub Hsig. apply conj_then; [|apply sign_order_Raise].
      rewrite Hb. peel Hsub as sub_v Hsubv. rewrite Hsubv. cbn [bind].
      rewrite Hsub. cbn [bind]. unfold Spec.at2. cbn [subscript].
      rewrite Hsig. reflexivity.
Qed.

Lemma missing_mandatory_key_witness :
  OrderApi.sign_order Fixtures.stub
    [("sub_account_id", PStr "8289849667772468");
     ("signature", Fixtures.placeholder_signature)]
    Fixtures.directory "0xa11ce" OrderApi.TESTNET = Raise (KeyError "legs").
Proof.
  refine (proj2 (proj1 (missing_mandatory_key Fixtures.stub
            [("sub_account_id", PStr "8289849667772468");
             ("signature", Fixtures.placeholder_signature)]
            Fixtures.directory "0xa11ce" OrderApi.TESTNET _ _) _));
    reflexivity.
Defined.

(** X5.  A key that is present is never defaulted, whatever its value:
    a [time_in_force] that is not a string (JSON [null] included) makes
    the builder raise the [ValueError] of [TimeInForce(...)], and a
    [builder_fee] of [null] the [TypeError] of [Decimal(None)]. *)
Theorem present_key_is_not_defaulted (order_data : pydict)
    (dir : OrderApi.instruments) (order : pydict) (items legs : list pyval) :
  OrderApi.unwrap order_data = Ok (PDict order) ->
  x <- subscript (PDict order) "legs" ;; iterate x = Ok items ->
  mapM (OrderApi.build_leg dir) items = Ok legs ->
  (forall v,
     lookup "time_in_force" order = Some v ->
     (forall s, v <> PStr s) ->
     OrderApi.build_order_message_data order_data dir =
     Raise (NotATimeInForce v)) /\
  (forall tif,
     OrderApi.TimeInForce.of_value
       (get "time_in_force" (PStr "GOOD_TILL_TIME") order) = Ok tif ->
     lookup "builder_fee" order = Some PNone ->
     OrderApi.build_order_message_data order_data dir = Raise TypeError).
Proof.
  intros Hunwrap Hitems Hlegs.
  pose proof (build_after_legs _ _ _ _ _ Hunwrap Hitems Hlegs) as Hb.
  split.
  - intros v Hv Hnot. rewrite Hb, (get_present _ _ _ _ Hv).
    destruct v; try reflexivity. exfalso. exact (Hnot s eq_refl).
  - intros tif Htif Hfee. rewrite Hb, Htif, (get_present _ _ _ _ Hfee).
    reflexivity.
Qed.

Lemma present_key_is_not_defaulted_witness :
  OrderApi.build_order_message_data
    (Fixtures.full_order "GOOD_TILL_TIME" PNone [Fixtures.leg_btc])
    Fixtures.directory = Raise TypeError.
Proof.
  refine (proj2 (present_key_is_not_defaulted
            (Fixtures.full_order "GOOD_TILL_TIME" PNone [Fixtures.leg_btc])
            Fixtures.directory _ [Fixtures.leg_btc] _ _ _ _)
          OrderApi.TimeInForce.GOOD_TILL_TIME _ _); reflexivity.
Defined.

(** The scaling of a decimal string, when no rounding is needed. *)
Lemma scale_of_str (d : string) (k : Z) (s : bool) (c e : Z) :
  PyDecimal.of_str d = Ok (PyDecimal.DFinite s c e) ->
  0 < k -> c * k < 10 ^ 28 ->
  PyDecimal.Etiny <= e <= PyDecimal.Etop ->
  PyDecimal.scale (PStr d) k =
  Ok (Spec.Qtrunc (Spec.dec_value s c e * inject_Z k)).
Proof.
  intros Hd Hk Hlt He.
  pose proof (of_str_coeff_nonneg d s c e Hd) as Hc.
  rewrite (scale_finite (PStr d) k s c e Hd Hc Hk Hlt He).
  apply to_int_truncates; assumption.
Qed.

(** X6.  A leg is resolved and scaled with the data of its own
    instrument: the asset id is the instrument's hash, the contract size
    is the size times ten to the instrument's [base_decimals], the limit
    price is the price times 1,000,000,000, each truncated toward zero,
    and the side is passed through. *)
Theorem build_leg_uses_instrument_decimals (dir : OrderApi.instruments)
    (leg : pydict) (name : string) (inst : OrderApi.instrument)
    (size price : string) (buying : pyval)
    (ss : bool) (sc se : Z) (ps : bool) (pc pe : Z) :
  lookup "instrument" leg = Some (PStr name) ->
  OrderApi.find_instrument name dir = Some inst ->
  lookup "size" leg = Some (PStr size) ->
  PyDecimal.of_str size = Ok (PyDecimal.DFinite ss sc se) ->
  sc * 10 ^ Z.of_N (OrderApi.base_decimals inst) < 10 ^ 28 ->
  PyDecimal.Etiny <= se <= PyDecimal.Etop ->
  lookup "limit_price" leg = Some (PStr price) ->
  PyDecimal.of_str price = Ok (PyDecimal.DFinite ps pc pe) ->
  pc * 1000000000 < 10 ^ 28 ->
  PyDecimal.Etiny <= pe <= PyDecimal.Etop ->
  lookup "is_buying_asset" leg = Some buying ->
  OrderApi.build_leg dir (PDict leg) =
  Ok (PDict
        [("assetID", OrderApi.instrument_hash inst);
         ("contractSize",
          PInt (Spec.Qtrunc
                  (Spec.dec_value ss sc se *
                   inject_Z (10 ^ Z.of_N (OrderApi.base_decimals inst)))));
         ("limitPrice",
          PInt (Spec.Qtrunc (Spec.dec_value ps pc pe * inject_Z 1000000000)));
         ("isBuyingContract", buying)]).
Proof.
  intros Hname Hinst Hsize Hs Hsfit Hse Hprice Hp Hpfit Hpe Hbuy.
  unfold OrderApi.build_leg. cbn [subscript].
  rewrite Hname. cbn [bind]. unfold OrderApi.resolve. rewrite Hinst. cbn [bind].
  rewrite Hsize. cbn [bind].
  rewrite (scale_of_str size _ ss sc se Hs) by
    (try assumption; apply Z.pow_pos_nonneg; lia).
  cbn [bind]. rewrite Hprice. cbn [bind].
  unfold OrderApi.PRICE_MULTIPLIER.
  rewrite (scale_of_str price 1000000000 ps pc pe Hp) by (assumption || lia).
  cbn [bind]. rewrite Hbuy. reflexivity.
Qed.

Lemma build_leg_uses_instrument_decimals_witness :
  OrderApi.build_leg Fixtures.directory Fixtures.leg_btc =
  Ok (PDict
        [("assetID", PStr "0x030501");
         ("contractSize",
          PInt (Spec.Qtrunc (Spec.dec_value false 1 (-2) * inject_Z (10 ^ 9))));
         ("limitPrice",
          PInt (Spec.Qtrunc (Spec.dec_value false 650005 (-1)
                             * inject_Z 1000000000)));
         ("isBuyingContract", PBool true)]).
Proof.
  refine (build_leg_uses_instrument_decimals Fixtures.directory _
            "BTC_USDT_Perp"
            {| OrderApi.instrument_hash := PStr "0x030501";
               OrderApi.base_decimals := 9 |}
            "0.01" "65000.5" (PBool true) false 1 (-2) false 650005 (-1)
            _ _ _ _ _ _ _ _ _ _ _); try reflexivity.
  - unfold PyDecimal.Etiny, PyDecimal.Etop, PyDecimal.Emin, PyDecimal.Emax,
      PyDecimal.prec. lia.
  - unfold PyDecimal.Etiny, PyDecimal.Etop, PyDecimal.Emin, PyDecimal.Emax,
      PyDecimal.prec. lia.
Defined.

(** ** Refreshing the replay-prevention fields *)

Lemma set_signature_fields_Ok (order : pydict) (expiration nonce : pyval)
    (order' : pydict) :
  OrderApi.set_signature_fields order expiration nonce = Ok order' <->
  exists sig,
    lookup "signature" order = Some (PDict sig) /\
    order' = set "signature"
               (PDict (set "nonce" nonce (set "expiration" expiration sig)))
               order.
Proof.
  unfold OrderApi.set_signature_fields. cbn [subscript]. split.
  - destruct (lookup "signature" order) as [v|]; [|discriminate].
    cbn [bind]. destruct v; try discriminate. cbn [set_item bind].
    intros H. injection H as <-. exists d. split; reflexivity.
  - intros (sig & Hsig & ->). rewrite Hsig. reflexivity.
Qed.

Lemma lookup_contains (k : string) (d : pydict) :
  contains k d = match lookup k d with Some _ => true | None => false end.
Proof. reflexivity. Qed.

(** What a successful update went through, and what it returns. *)
Lemma update_inv (order_data : pydict) (hours : Z) (now : spec_float)
    (nonce : Z) (order_data' : pydict) :
  OrderApi.update_order_signature_fields order_data hours now nonce
    = Ok order_data' ->
  exists ns order sig,
    OrderApi.expiration_ns_after now hours = Ok ns /\
    OrderApi.unwrap order_data = Ok (PDict order) /\
    lookup "signature" order = Some (PDict sig) /\
    OrderApi.unwrap order_data' =
      Ok (PDict (set "signature"
                   (PDict (set "nonce" (PInt nonce)
                             (set "expiration" (PStr (str_int ns)) sig)))
                   order)) /\
    keys order_data' = keys order_data.
Proof.
  unfold OrderApi.update_order_signature_fields. intros H.
  peel H as ns Hns. unfold contains in H.
  destruct (lookup "order" order_data) as [v|] eqn:Hw.
  - cbn [subscript] in H. rewrite Hw in H. cbn [bind] in H.
    destruct v as [| | | | | |o]; try discriminate H.
    peel H as o' Ho'. injection H as <-.
    apply set_signature_fields_Ok in Ho'. destruct Ho' as (sig & Hsig & ->).
    exists ns, o, sig. split; [exact Hns|].
    split; [exact (unwrap_wrapped _ _ Hw)|]. split; [exact Hsig|].
    split; [apply unwrap_wrapped, lookup_set_same|].
    exact (keys_set_present _ _ _ _ Hw).
  - apply set_signature_fields_Ok in H. destruct H as (sig & Hsig & ->).
    exists ns, order_data, sig. split; [exact Hns|].
    split; [exact (unwrap_bare _ Hw)|]. split; [exact Hsig|].
    split.
    + apply unwrap_bare.
      rewrite (lookup_set_other "order" "signature") by discriminate. exact Hw.
    + exact (keys_set_present _ _ _ _ Hsig).
Qed.

(** X7.  The update succeeds exactly when the expiration can be
    computed and the order has a signature dict, which it never creates
    itself; it then sets [nonce] and [expiration] (as decimal text) in
    that sub-record and leaves every other field of the order, every
    other field of the sub-record, and the order of the keys as they
    were. *)
Theorem update_touches_replay_fields_only (order_data : pydict) (hours : Z)
    (now : spec_float) (nonce : Z) :
  ((exists order_data',
      OrderApi.update_order_signature_fields order_data hours now nonce
        = Ok order_data') <->
   (exists ns order sig,
      OrderApi.expiration_ns_after now hours = Ok ns /\
      OrderApi.unwrap order_data = Ok (PDict order) /\
      lookup "signature" order = Some (PDict sig))) /\
  (forall order_data',
     OrderApi.update_order_signature_fields order_data hours now nonce
       = Ok order_data' ->
     exists ns order order',
       OrderApi.expiration_ns_after now hours = Ok ns /\
       OrderApi.unwrap order_data = Ok (PDict order) /\
       OrderApi.unwrap order_data' = Ok (PDict order') /\
       Spec.at2 order' "signature" "nonce" = Ok (PInt nonce) /\
       Spec.at2 order' "signature" "expiration" = Ok (PStr (str_int ns)) /\
       (forall k, k <> "signature" -> lookup k order' = lookup k order) /\
       (forall k, k <> "nonce" -> k <> "expiration" ->
          Spec.at2 order' "signature" k = Spec.at2 order "signature" k) /\
       keys order' = keys order /\
       keys order_data' = keys order_data).
Proof.
  split; [split|].
  - intros [od' H]. apply update_inv in H.
    destruct H as (ns & order & sig & Hns & Hu & Hsig & _ & _).
    exists ns, order, sig. repeat split; assumption.
  - intros (ns & order & sig & Hns & Hu & Hsig).
    unfold OrderApi.update_order_signature_fields. rewrite Hns. cbn [bind].
    unfold OrderApi.unwrap in Hu. unfold contains in *.
    destruct (lookup "order" order_data) as [v|] eqn:Hw.
    + cbn [subscript] in Hu |- *. rewrite Hw in Hu |- *. cbn [bind].
      injection Hu as ->.
      rewrite (proj2 (set_signature_fields_Ok order
                        (PStr (str_int ns)) (PInt nonce) _)
                 (ex_intro _ sig (conj Hsig eq_refl))).
      cbn [bind]. eexists. reflexivity.
    + injection Hu as <-.
      rewrite (proj2 (set_signature_fields_Ok order_data
                        (PStr (str_int ns)) (PInt nonce) _)
                 (ex_intro _ sig (conj Hsig eq_refl))).
      eexists. reflexivity.
  - intros od' H. apply update_inv in H.
    destruct H as (ns & order & sig & Hns & Hu & Hsig & Hu' & Hkeys).
    exists ns, order. eexists.
    split; [exact Hns|]. split; [exact Hu|]. split; [exact Hu'|].
    unfold Spec.at2. cbn [subscript]. rewrite !lookup_set_same.
    cbn [bind subscript].
    split; [rewrite lookup_set_same; reflexivity|].
    split; [rewrite (lookup_set_other "expiration" "nonce") by discriminate;
            rewrite lookup_set_same; reflexivity|].
    split; [intros k Hk; apply lookup_set_other; exact Hk|].
    split; [|split; [exact (keys_set_present _ _ _ _ Hsig) | exact Hkeys]].
    intros k Hk1 Hk2. rewrite Hsig. cbn [bind].
    rewrite (lookup_set_other k "nonce") by exact Hk1.
    rewrite (lookup_set_other k "expiration") by exact Hk2. reflexivity.
Qed.

Lemma update_touches_replay_fields_only_witness :
  exists order_data' ns order order',
    OrderApi.update_order_signature_fields
      (Fixtures.full_order "GOOD_TILL_TIME" (PStr "0.001") [Fixtures.leg_btc])
      24 Fixtures.clock 77 = Ok order_data' /\
    OrderApi.expiration_ns_after Fixtures.clock 24 = Ok ns /\
    OrderApi.unwrap
      (Fixtures.full_order "GOOD_TILL_TIME" (PStr "0.001") [Fixtures.leg_btc])
      = Ok (PDict order) /\
    OrderApi.unwrap order_data' = Ok (PDict order') /\
    Spec.at2 order' "signature" "nonce" = Ok (PInt 77) /\
    Spec.at2 order' "signature" "expiration" = Ok (PStr (str_int ns)).
Proof.
  eexists.
  assert (H : forall (A : Prop) (B : Prop), A -> (A -> B) -> B)
    by (intros A B a f; exact (f a)).
  refine (H (OrderApi.update_order_signature_fields
               (Fixtures.full_order "GOOD_TILL_TIME" (PStr "0.001")
                  [Fixtures.leg_btc]) 24 Fixtures.clock 77 = Ok _) _ _ _).
  - vm_compute. reflexivity.
  - intros Hrun.
    destruct (proj2 (update_touches_replay_fields_only _ _ _ _) _ Hrun)
      as (ns & order & order' & H1 & H2 & H3 & H4 & H5 & _).
    exists ns, order, order'.
    exact (conj Hrun (conj H1 (conj H2 (conj H3 (conj H4 H5))))).
Defined.

(** X8.  Updating and then building is building and then replacing the
    two fields: the message of the updated order is the message of the
    original order with the fresh nonce and expiration, so the values
    signed afterwards are the fresh ones. *)
Theorem update_then_build (order_data : pydict) (hours : Z) (now : spec_float)
    (nonce : Z) (dir : OrderApi.instruments) (order_data' msg : pydict) :
  OrderApi.update_order_signature_fields order_data hours now nonce
    = Ok order_data' ->
  OrderApi.build_order_message_data order_data dir = Ok msg ->
  exists ns,
    OrderApi.expiration_ns_after now hours = Ok ns /\
    OrderApi.build_order_message_data order_data' dir =
    Ok (set "expiration" (PStr (str_int ns)) (set "nonce" (PInt nonce) msg)).
Proof.
  intros Hup Hb. apply update_inv in Hup.
  destruct Hup as (ns & order & sig & Hns & Hu & Hsig & Hu' & _).
  exists ns. split; [exact Hns|].
  set (sig' := PDict (set "nonce" (PInt nonce)
                        (set "expiration" (PStr (str_int ns)) sig))) in *.
  rewrite (build_unwrap_ext order_data'
             [("order", PDict (set "signature" sig' order))] dir)
    by (rewrite Hu'; reflexivity).
  apply (build_set_signature order_data dir order msg sig' _ _ Hu Hb).
  - subst sig'. cbn [subscript]. rewrite lookup_set_same. reflexivity.
  - subst sig'. cbn [subscript].
    rewrite (lookup_set_other "expiration" "nonce") by discriminate.
    rewrite lookup_set_same. reflexivity.
Qed.

Lemma update_then_build_witness :
  exists order_data' msg ns,
    OrderApi.update_order_signature_fields
      (Fixtures.bare_order [Fixtures.leg_btc]) 24 Fixtures.clock 77
      = Ok order_data' /\
    OrderApi.build_order_message_data (Fixtures.bare_order [Fixtures.leg_btc])
      Fixtures.directory = Ok msg /\
    OrderApi.expiration_ns_after Fixtures.clock 24 = Ok ns /\
    OrderApi.build_order_message_data order_data' Fixtures.directory =
    Ok (set "expiration" (PStr (str_int ns)) (set "nonce" (PInt 77) msg)).
Proof.
  eexists. eexists.
  assert (H : forall (A B C : Prop), A -> B -> (A -> B -> C) -> C)
    by (intros A B C a b f; exact (f a b)).
  refine (H (OrderApi.update_order_signature_fields
               (Fixtures.bare_order [Fixtures.leg_btc]) 24 Fixtures.clock 77
             = Ok _)
            (OrderApi.build_order_message_data
               (Fixtures.bare_order [Fixtures.leg_btc]) Fixtures.directory
             = Ok _) _ _ _ _).
  - vm_compute. reflexivity.
  - vm_compute. reflexivity.
  - intros Hup Hb.
    destruct (update_then_build _ _ _ _ _ _ _ Hup Hb) as (ns & Hns & Hb').
    exists ns. exact (conj Hup (conj Hb (conj Hns Hb'))).
Defined.

(** ** The hexadecimal text of [r] and [s] *)

(** X9.  [to_bytes(32, "big").hex()] accepts exactly the numbers from 0
    up to [2^256 - 1]; for those it yields 64 hexadecimal digits that
    read back as the number, and otherwise it raises [OverflowError].
    [_hex32] is the same text behind ["0x"]. *)
Theorem hex32_round_trip (n : Z) :
  (0 <= n < 2 ^ 256 ->
   exists h,
     to_bytes32_hex n = Ok h /\
     Authorize._hex32 n = Ok ("0x" ++ h) /\
     String.length h = 64%nat /\
     Spec.hex_decode 0 h = Some n) /\
  (n < 0 \/ 2 ^ 256 <= n ->
   to_bytes32_hex n = Raise OverflowError /\
   Authorize._hex32 n = Raise OverflowError).
Proof. exact (hex32_round_trip_aux n). Qed.

Lemma hex32_round_trip_witness :
  exists h,
    to_bytes32_hex 255 = Ok h /\
    Authorize._hex32 255 = Ok ("0x" ++ h) /\
    String.length h = 64%nat /\
    Spec.hex_decode 0 h = Some 255.
Proof.
  apply (proj1 (hex32_round_trip 255)). split; [lia | reflexivity].
Defined.

(** X10.  In a signed order, [r] and [s] are ["0x"] followed by 64
    hexadecimal digits that read back as the two numbers of the
    signature the library produced for the typed message, [v] is its
    recovery id and [signer] the address of the key. *)
Theorem signed_order_signature_format (lib : Eth.library)
    (order_data : pydict) (dir : OrderApi.instruments) (key : string)
    (env : OrderApi.GrvtEnv) (out : pydict) :
  OrderApi.sign_order lib order_data dir key env = Ok out ->
  exists order' msg domain sm acct sg hr hs,
    out = [("order", PDict order')] /\
    OrderApi.build_order_message_data order_data dir = Ok msg /\
    OrderApi.get_eip712_domain_data env = Ok domain /\
    Eth.encode_typed_data lib domain OrderApi.EIP712_ORDER_MESSAGE_TYPE msg
      = Ok sm /\
    Eth.from_key lib (if startswith "0x" key then drop 2 key else key)
      = Ok acct /\
    Eth.sign_message lib acct sm = Ok sg /\
    Spec.at2 order' "signature" "r" = Ok (PStr ("0x" ++ hr)) /\
    String.length hr = 64%nat /\
    Spec.hex_decode 0 hr = Some (Eth.sig_r sg) /\
    Spec.at2 order' "signature" "s" = Ok (PStr ("0x" ++ hs)) /\
    String.length hs = 64%nat /\
    Spec.hex_decode 0 hs = Some (Eth.sig_s sg) /\
    Spec.at2 order' "signature" "v" = Ok (PInt (Eth.sig_v sg)) /\
    Spec.at2 order' "signature" "signer" = Ok (PStr (Eth.address lib acct)).
Proof.
  intros H. apply sign_order_inv in H.
  destruct H as (order & old & expiration & nonce & msg & domain & sm & acct
                 & sg & r & s & Hu & Hold & Hexp & Hnonce & Hb & Hd & Hsm
                 & Hacct & Hsg & Hr & Hs & ->).
  assert (Hrange : forall n h, to_bytes32_hex n = Ok h ->
            String.length h = 64%nat /\ Spec.hex_decode 0 h = Some n).
  { intros n h Hn.
    destruct (Z.ltb_spec n 0) as [Hneg|Hpos].
    - rewrite (proj1 (proj2 (hex32_round_trip_aux n) (or_introl Hneg))) in Hn.
      discriminate.
    - destruct (Z.leb_spec (2 ^ 256) n) as [Hbig|Hsmall].
      + rewrite (proj1 (proj2 (hex32_round_trip_aux n) (or_intror Hbig))) in Hn.
        discriminate.
      + destruct (proj1 (hex32_round_trip_aux n) (conj Hpos Hsmall))
          as (h' & Hh' & _ & Hlen & Hdec).
        rewrite Hh' in Hn. injection Hn as <-. split; assumption. }
  destruct (Hrange _ _ Hr) as [Hlr Hdr]. destruct (Hrange _ _ Hs) as [Hls Hds].
  eexists. exists msg, domain, sm, acct, sg, r, s.
  split; [reflexivity|].
  unfold Spec.at2. cbn [subscript]. rewrite !lookup_set_same.
  cbn [bind subscript lookup String.eqb Ascii.eqb Bool.eqb].
  repeat (split; [assumption || reflexivity|]). reflexivity.
Qed.

Lemma signed_order_signature_format_witness :
  exists out order' hr,
    OrderApi.sign_order Fixtures.stub (Fixtures.bare_order [Fixtures.leg_eth])
      Fixtures.directory "0xa11ce" OrderApi.STAGING = Ok out /\
    out = [("order", PDict order')] /\
    Spec.at2 order' "signature" "r" = Ok (PStr ("0x" ++ hr)) /\
    String.length hr = 64%nat.
Proof.
  eexists.
  assert (H : forall (A : Prop) (B : Prop), A -> (A -> B) -> B)
    by (intros A B a f; exact (f a)).
  refine (H (OrderApi.sign_order Fixtures.stub
               (Fixtures.bare_order [Fixtures.leg_eth])
               Fixtures.directory "0xa11ce" OrderApi.STAGING = Ok _) _ _ _).
  - vm_compute. reflexivity.
  - intros Hrun.
    destruct (signed_order_signature_format _ _ _ _ _ _ Hrun)
      as (order' & msg & domain & sm & acct & sg & hr & hs & Hout & _ & _ & _
          & _ & _ & Hr & Hlen & _).
    exists order', hr. exact (conj Hrun (conj Hout (conj Hr Hlen))).
Defined.

(** ** The environments *)

(** X11.  The two scripts agree on every environment: for each member
    of [GrvtEnv] the table of [authorize.py] has an entry under its
    value, with the same chain id and the same edge and trading base
    URLs, and the signing domain of an order is the domain of the
    builder authorization for that environment. *)
Theorem environments_agree (env : OrderApi.GrvtEnv) :
  exists cfg domain,
    Authorize.env_lookup (OrderApi.GrvtEnv_value env) Authorize.ENVS = Some cfg /\
    Authorize.name cfg = OrderApi.GrvtEnv_value env /\
    OrderApi.table_get OrderApi.GrvtEnv_eqb "CHAIN_IDS" env OrderApi.CHAIN_IDS
      = Ok (Authorize.chain_id cfg) /\
    OrderApi.table_get OrderApi.GrvtEnv_eqb "EDGE_API_ENDPOINTS" env
      OrderApi.EDGE_API_ENDPOINTS = Ok (Authorize.edge_base cfg) /\
    OrderApi.table_get OrderApi.GrvtEnv_eqb "TRADING_API_ENDPOINTS" env
      OrderApi.TRADING_API_ENDPOINTS = Ok (Authorize.trades_base cfg) /\
    OrderApi.get_eip712_domain_data env = Ok domain /\
    forall main builder signer permissions mf ms nonce expiration k,
      Spec.at2 (Authorize.build_eip712_payload main builder signer permissions
                  mf ms nonce expiration (Authorize.chain_id cfg)) "domain" k
      = subscript (PDict domain) k.
Proof.
  destruct env; eexists; eexists;
    (split; [reflexivity|]); (split; [reflexivity|]); (split; [reflexivity|]);
    (split; [reflexivity|]); (split; [reflexivity|]); (split; [reflexivity|]);
    intros main builder signer permissions mf ms nonce expiration k;
    unfold Spec.at2, Authorize.build_eip712_payload;
    cbn [subscript lookup String.eqb Ascii.eqb Bool.eqb bind];
    destruct (String.eqb k "chainId") eqn:E1;
    destruct (String.eqb k "name") eqn:E2;
    destruct (String.eqb k "version") eqn:E3; try reflexivity;
    apply String.eqb_eq in E1; subst k; discriminate.
Qed.

(** ** Text helpers *)

Lemma drop_while_length {A : Type} (p : A -> bool) (l : list A) :
  (List.length (drop_while p l) <= List.length l)%nat.
Proof.
  induction l as [|a l IH]; cbn [drop_while List.length]; [lia|].
  destruct (p a); cbn [List.length]; lia.
Qed.

(** A list is clean when it does not start with a character to strip. *)
Lemma drop_while_clean {A : Type} (p : A -> bool) (l : list A) :
  drop_while p l = l <-> l = [] \/ exists a t, l = a :: t /\ p a = false.
Proof.
  split.
  - destruct l as [|a t]; [left; reflexivity|]. intros H. right.
    exists a, t. split; [reflexivity|].
    cbn [drop_while] in H. destruct (p a); [|reflexivity].
    pose proof (drop_while_length p t) as Hlen. rewrite H in Hlen.
    cbn [List.length] in Hlen. lia.
  - intros [->|(a & t & -> & Ha)]; [reflexivity|].
    cbn [drop_while]. rewrite Ha. reflexivity.
Qed.

Lemma drop_while_idem {A : Type} (p : A -> bool) (l : list A) :
  drop_while p (drop_while p l) = drop_while p l.
Proof.
  induction l as [|a l IH]; [reflexivity|]. cbn [drop_while].
  destruct (p a) eqn:E; [exact IH|]. cbn [drop_while]. rewrite E. reflexivity.
Qed.

Lemma drop_while_app_keep {A : Type} (p : A -> bool) (m : list A) (a : A)
    (n : list A) :
  p a = false -> drop_while p (m ++ a :: n) = (drop_while p m ++ a :: n)%list.
Proof.
  intros Ha. induction m as [|b m IH]; cbn [drop_while app].
  - rewrite Ha. reflexivity.
  - destruct (p b); [exact IH | reflexivity].
Qed.

Lemma clean_rev_strip {A : Type} (p : A -> bool) (l : list A) :
  drop_while p l = l ->
  drop_while p (rev (drop_while p (rev l))) = rev (drop_while p (rev l)).
Proof.
  intros H. apply drop_while_clean in H.
  destruct H as [->|(a & t & -> & Ha)]; [reflexivity|].
  cbn [rev]. rewrite (drop_while_app_keep p (rev t) a [] Ha).
  rewrite rev_app_distr. cbn [rev app drop_while]. rewrite Ha. reflexivity.
Qed.

Lemma strip_with_fixed (p : ascii -> bool) (l : list ascii) :
  drop_while p l = l -> drop_while p (rev l) = rev l -> strip_with p l = l.
Proof.
  intros H1 H2. unfold strip_with. rewrite H1, H2. apply rev_involutive.
Qed.

Lemma strip_with_is_clean (p : ascii -> bool) (l : list ascii) :
  drop_while p (strip_with p l) = strip_with p l /\
  drop_while p (rev (strip_with p l)) = rev (strip_with p l).
Proof.
  unfold strip_with. split.
  - apply clean_rev_strip. apply drop_while_idem.
  - rewrite rev_involutive. apply drop_while_idem.
Qed.

Lemma strip_with_idem (p : ascii -> bool) (l : list ascii) :
  strip_with p (strip_with p l) = strip_with p l.
Proof.
  destruct (strip_with_is_clean p l) as [H1 H2].
  exact (strip_with_fixed p _ H1 H2).
Qed.

Lemma drop_while_map {A : Type} (p : A -> bool) (f : A -> A) (l : list A) :
  (forall a, p (f a) = p a) ->
  drop_while p (map f l) = map f (drop_while p l).
Proof.
  intros H. induction l as [|a l IH]; [reflexivity|].
  cbn [map drop_while]. rewrite H. destruct (p a); [exact IH | reflexivity].
Qed.

Lemma strip_with_map (p : ascii -> bool) (f : ascii -> ascii) (l : list ascii) :
  (forall a, p (f a) = p a) ->
  strip_with p (map f l) = map f (strip_with p l).
Proof.
  intros H. unfold strip_with.
  rewrite (drop_while_map p f l H), <- map_rev, (drop_while_map p f _ H),
    map_rev. reflexivity.
Qed.

Lemma is_space_lower_char (c : ascii) : is_space (lower_char c) = is_space c.
Proof. destruct c as [[] [] [] [] [] [] [] []]; reflexivity. Qed.

Lemma lower_char_idem (c : ascii) : lower_char (lower_char c) = lower_char c.
Proof. destruct c as [[] [] [] [] [] [] [] []]; reflexivity. Qed.

Lemma lower_String (c : ascii) (s : string) :
  lower (String c s) = String (lower_char c) (lower s).
Proof. reflexivity. Qed.

Lemma lower_idem (s : string) : lower (lower s) = lower s.
Proof.
  induction s as [|c s IH]; [reflexivity|].
  rewrite !lower_String, lower_char_idem, IH. reflexivity.
Qed.

Lemma strip_idem (s : string) : strip (strip s) = strip s.
Proof.
  unfold strip, strip_chars.
  rewrite list_ascii_of_string_of_list_ascii, strip_with_idem. reflexivity.
Qed.

Lemma strip_lower (s : string) : strip (lower s) = lower (strip s).
Proof.
  unfold strip, lower, strip_chars, lower_chars.
  rewrite !list_ascii_of_string_of_list_ascii.
  rewrite (strip_with_map is_space lower_char _ is_space_lower_char).
  reflexivity.
Qed.

(** A stripped text stays stripped behind the prefix. *)
Lemma strip_0x_strip (s : string) : strip ("0x" ++ strip s) = "0x" ++ strip s.
Proof.
  unfold strip, strip_chars.
  set (l := strip_with is_space (list_ascii_of_string s)).
  destruct (strip_with_is_clean is_space (list_ascii_of_string s)) as [H1 H2].
  fold l in H1, H2.
  change (list_ascii_of_string ("0x" ++ string_of_list_ascii l))
    with ("0"%char :: "x"%char
          :: list_ascii_of_string (string_of_list_ascii l)).
  rewrite list_ascii_of_string_of_list_ascii.
  rewrite strip_with_fixed; [reflexivity | reflexivity |].
  cbn [rev]. rewrite <- app_assoc. cbn [app].
  rewrite (drop_while_app_keep is_space (rev l) "x"%char ["0"%char] eq_refl).
  rewrite H2. reflexivity.
Qed.

Lemma prefix_0x (s : string) :
  startswith "0x" s = true -> exists t, s = "0x" ++ t.
Proof.
  unfold startswith. destruct s as [|a [|b t]]; cbn [String.prefix].
  - discriminate.
  - destruct (ascii_dec "0" a); discriminate.
  - destruct (ascii_dec "0" a) as [<-|]; [|discriminate].
    destruct (ascii_dec "x" b) as [<-|]; [|discriminate].
    intros _. exists t. reflexivity.
Qed.

Lemma startswith_0x_app (t : string) : startswith "0x" ("0x" ++ t) = true.
Proof.
  unfold startswith. cbn [String.append String.prefix].
  destruct (ascii_dec "0" "0") as [_|n]; [|exfalso; apply n; reflexivity].
  destruct (ascii_dec "x" "x") as [_|n]; [|exfalso; apply n; reflexivity].
  destruct t; reflexivity.
Qed.

Lemma order_ensure_0x_facts (s : string) :
  startswith "0x" (OrderApi._ensure_0x s) = true /\
  strip (OrderApi._ensure_0x s) = OrderApi._ensure_0x s.
Proof.
  unfold OrderApi._ensure_0x. cbv zeta.
  destruct (startswith "0x" (strip s)) eqn:E.
  - split; [exact E | apply strip_idem].
  - split; [apply startswith_0x_app | apply strip_0x_strip].
Qed.

(** X12.  Both [_ensure_0x] give a text that starts with ["0x"] and has
    no white space around it, and both are idempotent; the one of
    [authorize.py] is the lower-cased result of the other and is its own
    lower case. *)
Theorem ensure_0x_normalises (s : string) :
  (startswith "0x" (OrderApi._ensure_0x s) = true /\
   strip (OrderApi._ensure_0x s) = OrderApi._ensure_0x s /\
   OrderApi._ensure_0x (OrderApi._ensure_0x s) = OrderApi._ensure_0x s) /\
  (Authorize._ensure_0x s = lower (OrderApi._ensure_0x s) /\
   startswith "0x" (Authorize._ensure_0x s) = true /\
   strip (Authorize._ensure_0x s) = Authorize._ensure_0x s /\
   lower (Authorize._ensure_0x s) = Authorize._ensure_0x s /\
   Authorize._ensure_0x (Authorize._ensure_0x s) = Authorize._ensure_0x s).
Proof.
  destruct (order_ensure_0x_facts s) as [Hp Hs].
  assert (Ha : Authorize._ensure_0x s = lower (OrderApi._ensure_0x s))
    by reflexivity.
  assert (Hpa : startswith "0x" (Authorize._ensure_0x s) = true).
  { rewrite Ha. destruct (prefix_0x _ Hp) as [t ->].
    exact (startswith_0x_app (lower t)). }
  assert (Hsa : strip (Authorize._ensure_0x s) = Authorize._ensure_0x s).
  { rewrite Ha, strip_lower, Hs. reflexivity. }
  split; [split; [exact Hp | split; [exact Hs|]] |
          split; [exact Ha | split; [exact Hpa | split; [exact Hsa | split]]]].
  - unfold OrderApi._ensure_0x at 1. cbv zeta. rewrite Hs, Hp. reflexivity.
  - rewrite Ha. apply lower_idem.
  - unfold Authorize._ensure_0x at 1. cbv zeta. rewrite Hsa, Hpa.
    rewrite Ha. apply lower_idem.
Qed.

(** ** Decimal text of an integer *)

Lemma digits_of_uint (d : Decimal.uint) :
  forallb is_digit (list_ascii_of_string (NilEmpty.string_of_uint d)) = true.
Proof. induction d; cbn; try exact IHd; reflexivity. Qed.

Lemma fold_digits_acc (d : Decimal.uint) (p : positive) :
  fold_left (fun acc c => 10 * acc + digit_val c)
    (list_ascii_of_string (NilEmpty.string_of_uint d)) (Z.pos p) =
  Z.pos (Pos.of_uint_acc d p).
Proof.
  revert p. induction d; intros p;
    cbn [NilEmpty.string_of_uint list_ascii_of_string fold_left Pos.of_uint_acc];
    try reflexivity;
    match goal with
    | |- fold_left _ _ ?a = Z.pos (Pos.of_uint_acc _ ?q) =>
        replace a with (Z.pos q) by
          (match goal with
           | |- context [digit_val ?c] =>
               let v := eval vm_compute in (digit_val c) in
               change (digit_val c) with v
           end; lia)
    end; apply IHd.
Qed.

Lemma fold_digits_of_uint (d : Decimal.uint) :
  digits_val (list_ascii_of_string (NilEmpty.string_of_uint d)) =
  Z.of_N (Pos.of_uint d).
Proof.
  unfold digits_val.
  induction d;
    cbn [NilEmpty.string_of_uint list_ascii_of_string fold_left Pos.of_uint];
    try reflexivity; try exact IHd;
    match goal with
    | |- fold_left _ _ ?a = Z.of_N (N.pos (Pos.of_uint_acc _ ?q)) =>
        replace a with (Z.pos q) by
          (match goal with
           | |- context [digit_val ?c] =>
               let v := eval vm_compute in (digit_val c) in
               change (digit_val c) with v
           end; lia)
    end; apply fold_digits_acc.
Qed.

Lemma drop_while_none {A : Type} (p : A -> bool) (l : list A) :
  forallb (fun a => negb (p a)) l = true -> drop_while p l = l.
Proof.
  destruct l as [|a l]; [reflexivity|]. cbn [forallb drop_while].
  intros H. apply andb_true_iff in H. destruct H as [H _].
  destruct (p a); [discriminate | reflexivity].
Qed.

Lemma strip_with_none (p : ascii -> bool) (l : list ascii) :
  forallb (fun a => negb (p a)) l = true -> strip_with p l = l.
Proof.
  intros H. apply strip_with_fixed; apply drop_while_none; [exact H|].
  rewrite forallb_forall in *. intros x Hx. apply H. apply in_rev. exact Hx.
Qed.

Lemma ungroup_none (b : bool) (l : list ascii) :
  forallb (fun a => negb (Ascii.eqb a underscore)) l = true ->
  ungroup b l = Some l.
Proof.
  revert b. induction l as [|c l IH]; intros b H; [reflexivity|].
  cbn [forallb] in H. apply andb_true_iff in H. destruct H as [Hc Hl].
  cbn [ungroup]. destruct (Ascii.eqb c underscore); [discriminate|].
  rewrite (IH _ Hl). reflexivity.
Qed.

Lemma digit_plain (c : ascii) :
  is_digit c = true ->
  is_c_space c = false /\ Ascii.eqb c underscore = false /\
  forall r, split_sign (c :: r) = (false, c :: r).
Proof.
  destruct c as [[] [] [] [] [] [] [] []]; try discriminate;
    intros _; repeat split.
Qed.

Lemma digits_plain (l : list ascii) :
  forallb is_digit l = true ->
  forallb (fun a => negb (is_c_space a)) l = true /\
  forallb (fun a => negb (Ascii.eqb a underscore)) l = true.
Proof.
  induction l as [|c l IH]; [split; reflexivity|].
  cbn [forallb]. intros H. apply andb_true_iff in H. destruct H as [Hc Hl].
  destruct (digit_plain c Hc) as (H1 & H2 & _). destruct (IH Hl) as [H3 H4].
  rewrite H1, H2, H3, H4. split; reflexivity.
Qed.

(** [int] reads a run of digits as its value, and behind a minus sign as
    the opposite. *)
Lemma int_of_digits (l : list ascii) :
  forallb is_digit l = true -> l <> [] ->
  int_of_str (string_of_list_ascii l) = Ok (digits_val l) /\
  int_of_str (String "-" (string_of_list_ascii l)) = Ok (- digits_val l).
Proof.
  intros Hd Hne. destruct (digits_plain l Hd) as [Hs Hu].
  unfold int_of_str. split.
  - rewrite list_ascii_of_string_of_list_ascii.
    rewrite (strip_with_none _ _ Hs), (ungroup_none _ _ Hu).
    destruct l as [|c r]; [contradiction|].
    cbn [forallb] in Hd. pose proof Hd as Hd'.
    apply andb_true_iff in Hd'. destruct Hd' as [Hc _].
    destruct (digit_plain c Hc) as (_ & _ & Hsign). rewrite Hsign.
    cbn [forallb]. rewrite Hd. reflexivity.
  - cbn [list_ascii_of_string]. rewrite list_ascii_of_string_of_list_ascii.
    rewrite (strip_with_none is_c_space ("-"%char :: l))
      by (cbn [forallb]; rewrite Hs; reflexivity).
    rewrite (ungroup_none false ("-"%char :: l))
      by (cbn [forallb]; rewrite Hu; reflexivity).
    cbn [split_sign]. destruct l as [|c r]; [contradiction|].
    rewrite Hd. reflexivity.
Qed.

Lemma to_uint_nonempty (p : positive) :
  list_ascii_of_string (NilEmpty.string_of_uint (Pos.to_uint p)) <> [].
Proof.
  intros H. pose proof (fold_digits_of_uint (Pos.to_uint p)) as Hv.
  rewrite H, DecimalPos.Unsigned.of_to in Hv. discriminate Hv.
Qed.

Lemma int_of_str_roundtrip (n : Z) :
  int_of_str (str_int n) = Ok n /\
  int_of_str (Authorize.str_of_int n) = Ok n /\
  int (PStr (str_int n)) = Ok n.
Proof.
  assert (H : int_of_str (str_int n) = Ok n).
  { unfold str_int. destruct n as [|p|p]; [reflexivity| |];
      cbn [Z.to_int NilEmpty.string_of_int];
      destruct (int_of_digits _ (digits_of_uint (Pos.to_uint p))
                  (to_uint_nonempty p)) as [Hpos Hneg];
      rewrite string_of_list_ascii_of_string in Hpos, Hneg;
      rewrite fold_digits_of_uint, DecimalPos.Unsigned.of_to in Hpos, Hneg.
    - exact Hpos.
    - exact Hneg. }
  split; [exact H | split; exact H].
Qed.

(** ** The authorization request *)

Lemma authorize_builder_inv_full (lib : Eth.library) (env : Authorize.EnvConfig)
    (main builder user_key signer_key label permissions fut spot : string)
    (nonce : Z) (now : spec_float) (typed payload : pydict) :
  Authorize.authorize_builder lib env main builder user_key signer_key label
    permissions fut spot nonce now = Ok (typed, payload) ->
  exists acct mf ms expiration v r s,
    Eth.from_key lib (Authorize._ensure_0x signer_key) = Ok acct /\
    Authorize.fee_rate_uint32 fut = Ok mf /\
    Authorize.fee_rate_uint32 spot = Ok ms /\
    Authorize.expiration_after_7_days now = Ok expiration /\
    typed =
      Authorize.build_eip712_payload (Authorize._ensure_0x main)
        (Authorize._ensure_0x builder)
        (Authorize._ensure_0x (Eth.address lib acct)) permissions
        mf ms nonce expiration (Authorize.chain_id env) /\
    Authorize.sign_eip712 lib (Authorize._ensure_0x user_key) typed
      = Ok (v, r, s) /\
    payload =
      [("main_account_id", PStr (Authorize._ensure_0x main));
       ("builder_account_id", PStr (Authorize._ensure_0x builder));
       ("max_futures_fee_rate", PStr fut);
       ("max_spot_fee_rate", PStr spot);
       ("signature", PDict [
          ("signer", PStr (Authorize._ensure_0x main));
          ("r", PStr r);
          ("s", PStr s);
          ("v", PInt v);
          ("expiration", PStr (Authorize.str_of_int expiration));
          ("nonce", PInt nonce);
          ("chain_id", PStr (Authorize.str_of_int (Authorize.chain_id env)))]);
       ("builder_api_key_label", PStr label);
       ("builder_api_key_signer",
        PStr (Authorize._ensure_0x (Eth.address lib acct)));
       ("builder_api_key_permissions", PStr permissions)].
Proof.
  unfold Authorize.authorize_builder. intros H.
  peel H as acct Hacct. peel H as mf Hmf. peel H as ms Hms.
  peel H as expiration Hexp. peel H as vrs Hvrs.
  destruct vrs as [[v r] s]. injection H as <- <-.
  exists acct, mf, ms, expiration, v, r, s.
  repeat (split; [assumption || reflexivity|]). reflexivity.
Qed.

(** X13.  The request of [authorize_builder] carries what was signed:
    its nonce is the nonce of the typed message, the texts of its
    expiration and chain id read back as the expiration of the message
    and the chain id of the domain, and its account, builder, key signer
    and permissions are those of the message; the signature's [signer]
    is the main account. *)
Theorem authorization_request_matches_signed_data (lib : Eth.library)
    (env : Authorize.EnvConfig)
    (main builder user_key signer_key label permissions fut spot : string)
    (nonce : Z) (now : spec_float) (typed payload : pydict) :
  Authorize.authorize_builder lib env main builder user_key signer_key label
    permissions fut spot nonce now = Ok (typed, payload) ->
  exists expiration account builder_id key_signer,
    (Spec.at2 typed "message" "nonce" = Ok (PInt nonce) /\
     Spec.at2 payload "signature" "nonce" = Ok (PInt nonce)) /\
    (Spec.at2 typed "message" "expiration" = Ok (PInt expiration) /\
     x <- Spec.at2 payload "signature" "expiration" ;; int x = Ok expiration) /\
    (Spec.at2 typed "domain" "chainId" = Ok (PInt (Authorize.chain_id env)) /\
     x <- Spec.at2 payload "signature" "chain_id" ;; int x
       = Ok (Authorize.chain_id env)) /\
    (Spec.at2 typed "message" "accountID" = Ok (PStr account) /\
     lookup "main_account_id" payload = Some (PStr account) /\
     Spec.at2 payload "signature" "signer" = Ok (PStr account) /\
     account = Authorize._ensure_0x main) /\
    (Spec.at2 typed "message" "builderAccountID" = Ok (PStr builder_id) /\
     lookup "builder_account_id" payload = Some (PStr builder_id)) /\
    (Spec.at2 typed "message" "signer" = Ok (PStr key_signer) /\
     lookup "builder_api_key_signer" payload = Some (PStr key_signer)) /\
    (Spec.at2 typed "message" "permissions" = Ok (PStr permissions) /\
     lookup "builder_api_key_permissions" payload = Some (PStr permissions)) /\
    lookup "max_futures_fee_rate" payload = Some (PStr fut) /\
    lookup "max_spot_fee_rate" payload = Some (PStr spot).
Proof.
  intros H. apply authorize_builder_inv_full in H.
  destruct H as (acct & mf & ms & expiration & v & r & s & _ & _ & _ & _
                 & -> & _ & ->).
  exists expiration, (Authorize._ensure_0x main),
    (Authorize._ensure_0x builder),
    (Authorize._ensure_0x (Eth.address lib acct)).
  pose proof (proj1 (proj2 (int_of_str_roundtrip expiration))) as He.
  pose proof (proj1 (proj2 (int_of_str_roundtrip (Authorize.chain_id env)))) as Hc.
  unfold Spec.at2, Authorize.build_eip712_payload.
  cbn [subscript lookup String.eqb Ascii.eqb Bool.eqb bind int].
  rewrite He, Hc. repeat split.
Qed.

Lemma authorization_request_matches_signed_data_witness :
  exists typed payload expiration,
    Authorize.authorize_builder Fixtures.stub Fixtures.testnet
      " 0x9CBE6e4ac0d5e3ea9c3c2c0c3d0a0b1f2e3d4c5b"
      "42c9f56f2c9da534f64b8806d64813b29c62a01d"
      "0xa11ce" "0xb0b" "builder-smoke-test" "Trade"
      "0.001" "0.0001" 828700936 Fixtures.clock = Ok (typed, payload) /\
    Spec.at2 typed "message" "expiration" = Ok (PInt expiration) /\
    x <- Spec.at2 payload "signature" "expiration" ;; int x = Ok expiration.
Proof.
  eexists. eexists.
  assert (H : forall (A : Prop) (B : Prop), A -> (A -> B) -> B)
    by (intros A B a f; exact (f a)).
  refine (H (Authorize.authorize_builder Fixtures.stub Fixtures.testnet
               " 0x9CBE6e4ac0d5e3ea9c3c2c0c3d0a0b1f2e3d4c5b"
               "42c9f56f2c9da534f64b8806d64813b29c62a01d"
               "0xa11ce" "0xb0b" "builder-smoke-test" "Trade"
               "0.001" "0.0001" 828700936 Fixtures.clock = Ok (_, _)) _ _ _).
  - vm_compute. reflexivity.
  - intros Hrun.
    destruct (authorization_request_matches_signed_data _ _ _ _ _ _ _ _ _ _ _ _
                _ _ Hrun)
      as (expiration & account & builder_id & key_signer & _ & [He1 He2] & _).
    exists expiration. exact (conj Hrun (conj He1 He2)).
Defined.

(** ** The session cookie *)

Lemma take_drop (n : nat) (s : string) : take n s ++ drop n s = s.
Proof.
  revert s. induction n as [|n IH]; intros s; [reflexivity|].
  destruct s as [|c s]; [reflexivity|]. cbn [take drop String.append].
  rewrite IH. reflexivity.
Qed.

Lemma lower_drop (n : nat) (s : string) : lower (drop n s) = drop n (lower s).
Proof.
  revert s. induction n as [|n IH]; intros s; [reflexivity|].
  destruct s as [|c s]; [reflexivity|]. rewrite lower_String. cbn [drop].
  apply IH.
Qed.

Lemma prefix_semicolon (s : string) :
  String.prefix ";" s =
  match s with
  | EmptyString => false
  | String c _ => Ascii.eqb c ";"%char
  end.
Proof.
  destruct s as [|c s]; [reflexivity|]. cbn [String.prefix].
  destruct (ascii_dec ";" c) as [<-|Hne].
  - destruct s; reflexivity.
  - symmetry. apply Ascii.eqb_neq. intros ->. apply Hne. reflexivity.
Qed.

(** Where [find] reports a match there is one, at or after the start. *)
Lemma str_find_from_Some (sub : string) (i j : nat) (s : string) :
  str_find_from sub i s = Some j ->
  (i <= j)%nat /\ String.prefix sub (drop (j - i) s) = true.
Proof.
  revert i. induction s as [|c s IH]; intros i; cbn [str_find_from].
  - destruct (String.prefix sub "") eqn:E; [|discriminate].
    intros H. injection H as <-. rewrite Nat.sub_diag. split; [lia | exact E].
  - destruct (String.prefix sub (String c s)) eqn:E.
    + intros H. injection H as <-. rewrite Nat.sub_diag. split; [lia | exact E].
    + intros H. destruct (IH _ H) as [Hle Hp]. split; [lia|].
      replace (j - i)%nat with (S (j - S i)) by lia. exact Hp.
Qed.

(** [find(";")] stops at the first semicolon. *)
Lemma find_semicolon (i : nat) (s : string) :
  match str_find_from ";" i s with
  | Some j => (i <= j)%nat /\ Spec.no_semicolon (take (j - i) s) = true
  | None => Spec.no_semicolon s = true
  end.
Proof.
  revert i. induction s as [|c s IH]; intros i; cbn [str_find_from].
  - reflexivity.
  - rewrite prefix_semicolon. destruct (Ascii.eqb c ";") eqn:E.
    + rewrite Nat.sub_diag. split; [lia | reflexivity].
    + specialize (IH (S i)). destruct (str_find_from ";" (S i) s) as [j|].
      * destruct IH as [Hle Hn]. split; [lia|].
        replace (j - i)%nat with (S (j - S i)) by lia.
        cbn [take Spec.no_semicolon]. rewrite E, Hn. reflexivity.
      * cbn [Spec.no_semicolon]. rewrite E, IH. reflexivity.
Qed.

Lemma prefix_nil (s : string) : String.prefix "" s = true.
Proof. destruct s; reflexivity. Qed.

Lemma find_semicolon_app (a r : string) (i : nat) :
  Spec.no_semicolon a = true ->
  str_find_from ";" i a = None /\
  str_find_from ";" i (a ++ String ";" r) = Some (i + String.length a)%nat /\
  take (String.length a) (a ++ String ";" r) = a.
Proof.
  revert i. induction a as [|c a IH]; intros i H.
  - cbn [String.append str_find_from String.length take].
    rewrite prefix_semicolon. cbn. rewrite Nat.add_0_r, prefix_nil.
    repeat split.
  - cbn [Spec.no_semicolon] in H. apply andb_true_iff in H.
    destruct H as [Hc Ha]. apply negb_true_iff in Hc.
    destruct (IH (S i) Ha) as (H1 & H2 & H3).
    cbn [String.append str_find_from String.length take].
    rewrite !prefix_semicolon, Hc, H1, H2, H3.
    repeat split. f_equal. lia.
Qed.

Lemma lower_char_semicolon (c : ascii) :
  Ascii.eqb (lower_char c) ";" = Ascii.eqb c ";".
Proof. destruct c as [[] [] [] [] [] [] [] []]; reflexivity. Qed.

Lemma prefix_cons (a : ascii) (sub : string) (s : string) :
  String.prefix (String a sub) s = true ->
  exists t, s = String a t /\ String.prefix sub t = true.
Proof.
  destruct s as [|b t]; cbn [String.prefix]; [discriminate|].
  destruct (ascii_dec a b) as [<-|]; [|discriminate].
  intros H. exists t. split; [reflexivity | exact H].
Qed.

Lemma prefix_cons_intro (a : ascii) (sub t : string) :
  String.prefix sub t = true -> String.prefix (String a sub) (String a t) = true.
Proof.
  intros H. cbn [String.prefix].
  destruct (ascii_dec a a) as [_|n]; [exact H | exfalso; apply n; reflexivity].
Qed.

(** Cutting at the first semicolon keeps a prefix that has none. *)
Lemma prefix_survives_cut (sub s : string) (i j : nat) :
  Spec.no_semicolon sub = true ->
  String.prefix sub (lower s) = true ->
  str_find_from ";" i s = Some j ->
  String.prefix sub (lower (take (j - i) s)) = true.
Proof.
  revert s i. induction sub as [|a sub IH]; intros s i Hsub Hp Hf.
  - apply prefix_nil.
  - cbn [Spec.no_semicolon] in Hsub. apply andb_true_iff in Hsub.
    destruct Hsub as [Ha Hsub]. apply negb_true_iff in Ha.
    destruct s as [|c s]; [discriminate Hp|].
    rewrite lower_String in Hp. apply prefix_cons in Hp.
    destruct Hp as (t & Ht & Hp). injection Ht as Hc <-.
    cbn [str_find_from] in Hf. rewrite prefix_semicolon in Hf.
    rewrite <- Hc, lower_char_semicolon in Ha. rewrite Ha in Hf.
    destruct (str_find_from_Some _ _ _ _ Hf) as [Hle _].
    replace (j - i)%nat with (S (j - S i)) by lia.
    cbn [take]. rewrite lower_String, Hc.
    apply prefix_cons_intro. exact (IH s (S i) Hsub Hp Hf).
Qed.

Lemma parse_gravity_cookie_sound (header cookie : string) :
  OrderApi._parse_gravity_cookie (Some header) = Some cookie ->
  (exists pre post,
     header = pre ++ cookie ++ post /\
     (post = "" \/ exists r, post = String ";" r)) /\
  startswith "gravity=" (lower cookie) = true /\
  Spec.no_semicolon cookie = true.
Proof.
  unfold OrderApi._parse_gravity_cookie.
  destruct header as [|c0 h0]; [discriminate|].
  set (header := String c0 h0).
  destruct (str_find "gravity=" (lower header)) as [idx|] eqn:Hidx;
    [|discriminate].
  cbv zeta. unfold str_find in Hidx.
  apply str_find_from_Some in Hidx. destruct Hidx as [_ Hp].
  rewrite Nat.sub_0_r, <- lower_drop in Hp.
  pose proof (find_semicolon 0 (drop idx header)) as Hsemi.
  unfold str_find.
  destruct (str_find_from ";" 0 (drop idx header)) as [e|] eqn:He;
    intros H; injection H as <-.
  - destruct Hsemi as [_ Hno]. rewrite Nat.sub_0_r in Hno.
    split; [|split; [|exact Hno]].
    + exists (take idx header), (drop e (drop idx header)). split.
      * rewrite take_drop, take_drop. reflexivity.
      * right. apply str_find_from_Some in He. destruct He as [_ Hps].
        rewrite Nat.sub_0_r, prefix_semicolon in Hps.
        destruct (drop e (drop idx header)) as [|c r]; [discriminate|].
        apply Ascii.eqb_eq in Hps. subst c. exists r. reflexivity.
    + pose proof (prefix_survives_cut "gravity=" (drop idx header) 0 e
                    eq_refl Hp He) as Hcut.
      rewrite Nat.sub_0_r in Hcut. exact Hcut.
  - split; [|split; [exact Hp | exact Hsemi]].
    exists (take idx header), "". split; [|left; reflexivity].
    assert (Hnil : forall s : string, s ++ "" = s)
      by (induction s as [|c s IH]; [reflexivity | cbn; rewrite IH; reflexivity]).
    rewrite Hnil, take_drop. reflexivity.
Qed.

(** X14.  For a header whose characters all lie below U+0100, which
    is what [requests] hands over for every header, what the cookie
    parser returns is a piece of the header: it starts with
    ["gravity="] in some letter case, holds no semicolon, and ends where
    the header ends or its next semicolon begins.  The parser of
    [authorize.py] returns the same. *)
Theorem cookie_is_piece_of_header (header cookie : string) :
  OrderApi._parse_gravity_cookie (Some header) = Some cookie ->
  (exists pre post,
     header = pre ++ cookie ++ post /\
     (post = "" \/ exists r, post = String ";" r)) /\
  startswith "gravity=" (lower cookie) = true /\
  Spec.no_semicolon cookie = true /\
  Authorize._parse_gravity_cookie (Some header) = Some cookie.
Proof.
  intros H. destruct (parse_gravity_cookie_sound header cookie H) as (A & B & C).
  repeat split; assumption.
Qed.

Lemma cookie_is_piece_of_header_witness :
  exists pre post,
    "rm=true, Gravity=abc123; Path=/" = pre ++ "Gravity=abc123" ++ post /\
    (post = "" \/ exists r, post = String ";" r).
Proof.
  refine (proj1 (cookie_is_piece_of_header _ _ _)). reflexivity.
Defined.

(** X15.  A header that opens with the cookie gives it back: from
    ["gravity=" + value + rest], where [value] has no semicolon and
    [rest] is empty or starts with one, the parser returns
    ["gravity=" + value]. *)
Theorem cookie_reads_back (value rest : string) :
  Spec.no_semicolon value = true ->
  rest = "" \/ (exists r, rest = String ";" r) ->
  OrderApi._parse_gravity_cookie (Some ("gravity=" ++ value ++ rest)) =
  Some ("gravity=" ++ value).
Proof.
  intros Hv Hrest.
  assert (Hnil : forall s : string, s ++ "" = s)
    by (induction s as [|c s IH]; [reflexivity | cbn; rewrite IH; reflexivity]).
  assert (Hfind : str_find "gravity=" (lower ("gravity=" ++ value ++ rest))
                  = Some 0%nat).
  { unfold str_find. cbn [String.append]. rewrite !lower_String.
    destruct (lower (value ++ rest)); reflexivity. }
  unfold OrderApi._parse_gravity_cookie.
  change ("gravity=" ++ value ++ rest)
    with (String "g" ("ravity=" ++ value ++ rest)) at 1.
  cbv iota. change (String "g" ("ravity=" ++ value ++ rest))
    with ("gravity=" ++ value ++ rest).
  rewrite Hfind. cbv zeta. cbn [drop].
  assert (Hg : Spec.no_semicolon ("gravity=" ++ value) = true)
    by (cbn; exact Hv).
  destruct Hrest as [->|[r ->]].
  - rewrite Hnil. unfold str_find.
    rewrite (proj1 (find_semicolon_app ("gravity=" ++ value) "" 0 Hg)).
    reflexivity.
  - replace ("gravity=" ++ value ++ String ";" r)
      with (("gravity=" ++ value) ++ String ";" r) by reflexivity.
    destruct (find_semicolon_app ("gravity=" ++ value) r 0 Hg) as (_ & H2 & H3).
    unfold str_find. rewrite H2. cbn [Nat.add]. rewrite H3. reflexivity.
Qed.

Lemma cookie_reads_back_witness :
  OrderApi._parse_gravity_cookie
    (Some ("gravity=" ++ "eyJhbGciOi" ++ "; Path=/; HttpOnly")) =
  Some ("gravity=" ++ "eyJhbGciOi").
Proof.
  apply cookie_reads_back.
  - reflexivity.
  - right. eexists. reflexivity.
Defined.

(** X16.  A login yields credentials only from a response that is not
    refused ([grvt_create_order_api.py] wants status 200, [authorize.py]
    any status outside 400 to 599), whose cookie header parses and whose
    account id is present and not empty.  The cookie returned then
    starts with ["gravity="] in some letter case and holds no semicolon,
    and whatever the first script accepts the second returns as
    well. *)
Theorem login_yields_parsed_cookie (resp : Http.response)
    (cookie account : string) :
  (OrderApi.login_with_api_key resp = inr (cookie, account) <->
   Http.status_code resp = 200 /\
   OrderApi._parse_gravity_cookie (Http.set_cookie resp) = Some cookie /\
   Http.x_grvt_account_id resp = Some account /\ account <> "") /\
  (Authorize.login_with_api_key resp = inr (cookie, account) <->
   ~ (400 <= Http.status_code resp < 600) /\
   OrderApi._parse_gravity_cookie (Http.set_cookie resp) = Some cookie /\
   Http.x_grvt_account_id resp = Some account /\ account <> "") /\
  (OrderApi.login_with_api_key resp = inr (cookie, account) ->
   Authorize.login_with_api_key resp = inr (cookie, account) /\
   startswith "gravity=" (lower cookie) = true /\
   Spec.no_semicolon cookie = true).
Proof.
  assert (Hcommon : forall (ok : bool) (err : Http.error),
    (if ok then
       match OrderApi._parse_gravity_cookie (Http.set_cookie resp) with
       | None => inl Http.NoGravityCookie
       | Some c =>
           match Http.x_grvt_account_id resp with
           | None | Some EmptyString => inl Http.NoAccountId
           | Some a => inr (c, a)
           end
       end
     else inl err) = inr (cookie, account) <->
    ok = true /\
    OrderApi._parse_gravity_cookie (Http.set_cookie resp) = Some cookie /\
    Http.x_grvt_account_id resp = Some account /\ account <> "").
  { intros ok err. destruct ok.
    - destruct (OrderApi._parse_gravity_cookie (Http.set_cookie resp)) as [c|].
      + destruct (Http.x_grvt_account_id resp) as [[|a0 a]|]; split;
          try discriminate.
        * intros (_ & _ & H & Hne). injection H as <-. contradiction.
        * intros H. injection H as <- <-. repeat split. discriminate.
        * intros (_ & H1 & H2 & _). injection H1 as <-. injection H2 as <-.
          reflexivity.
        * intros (_ & _ & H & _). discriminate H.
      + split; [discriminate|]. intros (_ & H & _). discriminate H.
    - split; [discriminate|]. intros (H & _). discriminate H. }
  assert (H1 : OrderApi.login_with_api_key resp = inr (cookie, account) <->
               Http.status_code resp = 200 /\
               OrderApi._parse_gravity_cookie (Http.set_cookie resp) = Some cookie /\
               Http.x_grvt_account_id resp = Some account /\ account <> "").
  { unfold OrderApi.login_with_api_key.
    destruct (Z.eqb_spec (Http.status_code resp) 200) as [E|E]; cbn [negb].
    - rewrite (Hcommon true (Http.LoginFailed (Http.status_code resp))).
      tauto.
    - split; [discriminate | tauto]. }
  assert (H2 : Authorize.login_with_api_key resp = inr (cookie, account) <->
               ~ (400 <= Http.status_code resp < 600) /\
               OrderApi._parse_gravity_cookie (Http.set_cookie resp) = Some cookie /\
               Http.x_grvt_account_id resp = Some account /\ account <> "").
  { unfold Authorize.login_with_api_key, Authorize.raise_for_status.
    change Authorize._parse_gravity_cookie with OrderApi._parse_gravity_cookie.
    destruct (Z.leb_spec 400 (Http.status_code resp)) as [Ea|Ea];
      destruct (Z.ltb_spec (Http.status_code resp) 600) as [Eb|Eb];
      cbn [andb];
      try (rewrite (Hcommon true (Http.HTTPError 0));
           split; [intros (_ & H); split; [lia | exact H]
                  | intros (_ & H); split; [reflexivity | exact H]]).
    split; [discriminate|]. intros (H & _). exfalso. apply H. lia. }
  split; [exact H1 | split; [exact H2|]].
  intros H. apply H1 in H. destruct H as (Hs & Hc & Ha & Hne).
  split.
  - apply H2. split; [lia|]. repeat split; assumption.
  - destruct (Http.set_cookie resp) as [h|]; [|discriminate Hc].
    destruct (parse_gravity_cookie_sound h cookie Hc) as (_ & Hp & Hn).
    split; assumption.
Qed.

Lemma login_yields_parsed_cookie_witness :
  Authorize.login_with_api_key
    {| Http.status_code := 200;
       Http.set_cookie := Some "rm=true, Gravity=abc123; Path=/";
       Http.x_grvt_account_id := Some "ACC-1" |} = inr ("Gravity=abc123", "ACC-1").
Proof.
  refine (proj1 (proj2 (proj2 (login_yields_parsed_cookie _ _ _)) _)).
  reflexivity.
Defined.
